(** * ABN AMRO statement parser: a shallow embedding and its properties

    The development follows the Python sources
    [abnamroparser/tsvparser.py], [abnamroparser/icspdfparser.py] and
    [abnamroparser/util.py].

    - A Python [str] is a list of characters.  Characters are the 8-bit
      code points (Latin-1 range) of [ascii].
    - A raised exception is a value of [exn]; a function that may raise
      returns a [result].
    - A [dict] with string keys is a [gmap str _].
    - A generator is the list of the values it yields together with the
      exception that ended it, if any.

    Part I holds the embedding, Part II the lemmas and theorems. *)

From Stdlib Require Import Strings.String Strings.Ascii ZArith List Lia Bool.
From Stdlib Require Import DecimalPos DecimalN.
From stdpp Require Import gmap strings list sorting.

Set Default Proof Using "Type".

(* ===================================================================== *)
(** * Part I: the embedding                                               *)
(* ===================================================================== *)

(** ** Strings *)

Abbreviation str := (list ascii) (only parsing).

Definition str_of (s : string) : str := list_ascii_of_string s.
Arguments str_of s%_string : simpl never.

Definition code (c : ascii) : N := N_of_ascii c.

Definition chr_eqb (a b : ascii) : bool := Ascii.eqb a b.

(** [str.isspace] on one character, for the code points below 256:
    TAB, LF, VT, FF, CR, FS, GS, RS, US, SPACE, NEL and NBSP. *)
Definition isspace (c : ascii) : bool :=
  let n := code c in
  ((9 <=? n) && (n <=? 13) || (28 <=? n) && (n <=? 32)
   || (n =? 133) || (n =? 160))%N.

Definition is_newline (c : ascii) : bool := chr_eqb c "010"%char.
Definition is_blank (c : ascii) : bool := chr_eqb c " "%char.
Definition isdigit (c : ascii) : bool :=
  let n := code c in ((48 <=? n) && (n <=? 57))%N.

(** [s.rstrip()] *)
Fixpoint rstrip (s : str) : str :=
  match s with
  | [] => []
  | c :: s' =>
      match rstrip s' with
      | [] => if isspace c then [] else [c]
      | t => c :: t
      end
  end.

(** [s.lstrip()] *)
Fixpoint lstrip (s : str) : str :=
  match s with
  | [] => []
  | c :: s' => if isspace c then lstrip s' else s
  end.

(** [s.strip()] *)
Definition strip (s : str) : str := rstrip (lstrip s).

(** [s.startswith(p)] *)
Fixpoint startswith (s p : str) {struct p} : bool :=
  match p, s with
  | [], _ => true
  | _ :: _, [] => false
  | b :: p', a :: s' => chr_eqb a b && startswith s' p'
  end.

Definition str_eqb (a b : str) : bool := bool_decide (a = b).

(** [s.split(sep)] for a one-character separator. *)
Fixpoint split_on (sep : ascii) (s : str) : list str :=
  match s with
  | [] => [[]]
  | c :: s' =>
      if chr_eqb c sep then [] :: split_on sep s'
      else match split_on sep s' with
           | [] => [[c]]
           | p :: ps => (c :: p) :: ps
           end
  end.

(** [s.replace(a, b)] for one-character [a] and any [b]. *)
Definition replace_chr (a : ascii) (b : str) (s : str) : str :=
  concat (map (fun c => if chr_eqb c a then b else [c]) s).

(** [s.partition(sep)]: the text before the first occurrence of [sep],
    the separator found (empty when absent) and the text after it. *)
Fixpoint partition (sep : str) (s : str) : str * str * str :=
  match s with
  | [] => if startswith [] sep then ([], sep, []) else ([], [], [])
  | c :: s' =>
      if startswith s sep then ([], sep, drop (length sep) s)
      else match partition sep s' with
           | (before, [], _) => (s, [], [])
           | (before, found, after) => (c :: before, found, after)
           end
  end.

(** ** Exceptions and results *)

Inductive exn : Set :=
| IndexError | KeyError | ValueError | AssertionError
| AttributeError | TypeError | OverflowError | InvalidOperation.

Inductive result (A : Type) : Type :=
| Ok (a : A)
| Raise (e : exn).
Arguments Ok {A} a.
Arguments Raise {A} e.

#[global] Instance exn_eq_dec : EqDecision exn.
Proof. solve_decision. Defined.

#[global] Instance result_ret : MRet result := fun A a => Ok a.
#[global] Instance result_bind : MBind result := fun A B f m =>
  match m with
  | Ok a => f a
  | Raise e => Raise e
  end.
#[global] Instance result_fmap : FMap result := fun A B f m =>
  match m with
  | Ok a => Ok (f a)
  | Raise e => Raise e
  end.

Definition is_Ok {A} (r : result A) : bool :=
  match r with Ok _ => true | Raise _ => false end.

(** Evaluate [f] on each element in order; the first exception ends the
    traversal (a comprehension or generator expression consumed whole). *)
Fixpoint mapR {A B} (f : A -> result B) (l : list A) : result (list B) :=
  match l with
  | [] => Ok []
  | a :: l' => b ← f a; bs ← mapR f l'; Ok (b :: bs)
  end.

(** [assert cond] *)
Definition assert (cond : bool) : result unit :=
  if cond then Ok tt else Raise AssertionError.

(** [l.pop()]: the list without its last element, and that element. *)
Fixpoint list_pop {A} (l : list A) : option (list A * A) :=
  match l with
  | [] => None
  | a :: l' =>
      match list_pop l' with
      | None => Some ([], a)
      | Some (init, z) => Some (a :: init, z)
      end
  end.

(** [dict(pairs)] and [{**d, **pairs}]: later pairs overwrite earlier
    ones. *)
Definition dict_update {V} (d : gmap str V) (pairs : list (str * V))
  : gmap str V :=
  fold_left (fun m kv => <[kv.1 := kv.2]> m) pairs d.

Definition dict_of {V} (pairs : list (str * V)) : gmap str V :=
  dict_update ∅ pairs.

(** ** Regular expressions used by the parser

    Each pattern of the source is embedded as the function computing the
    match of Python's backtracking matcher for that pattern. *)

Definition emit (cur : str) : list str :=
  match cur with [] => [] | _ => [cur] end.

(** [re.findall(r".{1,n}", s)] when [opt_blank] is false and
    [re.findall(r".{1,n} ?", s)] when it is true, for [n >= 1].

    [cur] is the text matched so far by the current [.{1,n}].  The dot
    does not match a line feed, so a line feed ends the current match and
    is skipped.  The repetition is greedy: a match is closed only when it
    holds [n] characters, and then takes one following blank when
    [opt_blank] is set. *)
Fixpoint findall_dots (n : nat) (opt_blank : bool) (cur : str) (s : str)
  : list str :=
  match s with
  | [] => emit cur
  | c :: s' =>
      if is_newline c then emit cur ++ findall_dots n opt_blank [] s'
      else if length cur <? n then findall_dots n opt_blank (cur ++ [c]) s'
      else if opt_blank && is_blank c
           then (cur ++ [c]) :: findall_dots n opt_blank [] s'
           else cur :: findall_dots n opt_blank [c] s'
  end.

(** [re.sub(r" +", " ", s)] *)
Fixpoint collapse_blanks (s : str) : str :=
  match s with
  | [] => []
  | c :: s' =>
      if is_blank c
      then match s' with
           | c' :: _ => if is_blank c' then collapse_blanks s'
                        else c :: collapse_blanks s'
           | [] => [c]
           end
      else c :: collapse_blanks s'
  end.

(** The longest prefix of [s] whose characters satisfy [p], and the
    rest. *)
Fixpoint span (p : ascii -> bool) (s : str) : str * str :=
  match s with
  | [] => ([], [])
  | c :: s' =>
      if p c then let '(a, b) := span p s' in (c :: a, b) else ([], s)
  end.

(** ** tsvparser.rejoin_description *)

Definition rejoin_description (s : str) : result str :=
  if startswith s (str_of "/") then Ok s
  else
    let head := take 32 s in
    match s !! 32%nat with
    | None => Raise IndexError
    | Some c =>
        _ ← assert (is_blank c);
        let parts := findall_dots 64 true [] (rstrip (drop 33 s)) in
        _ ← assert (forallb (fun p => length p =? 65)
                            (removelast parts));
        Ok (head ++ concat (map (take 64) parts))
    end.

(** The spacing pattern of the export, re-inserted into an unspaced
    text (the spec's words): the text is cut into display lines of 64
    characters and the lines are joined by single blanks.  [room] is the
    number of characters the current line can still take. *)
Fixpoint insert_breaks (room : nat) (r : str) : str :=
  match r with
  | [] => []
  | c :: r' =>
      match room with
      | 0 => " "%char :: c :: insert_breaks 63 r'
      | S room' => c :: insert_breaks room' r'
      end
  end.

(** Head of 32 characters, a blank, then the rest in display lines. *)
Definition respace (u : str) : str :=
  take 32 u ++ " "%char :: insert_breaks 64 (drop 32 u).

(** ** Numbers and dates *)

(** [int(s)] on a string: surrounding whitespace is ignored, then an
    optional sign and decimal digits, single underscores allowed between
    digits.  More than 4300 digits are refused (the interpreter's default
    limit for the conversion).  [int_body] reads the digits. *)
Fixpoint int_body (acc : Z) (after_digit : bool) (s : str) : option Z :=
  match s with
  | [] => if after_digit then Some acc else None
  | c :: s' =>
      if isdigit c
      then int_body (10 * acc + (Z.of_N (code c) - 48)) true s'
      else if chr_eqb c "_"%char && after_digit then int_body acc false s'
      else None
  end.

Definition count_digits (s : str) : nat := length (filter (fun c => isdigit c = true) s).

(** The whitespace [int] ignores around the number: TAB, LF, VT, FF, CR,
    SPACE, NEL and NBSP (the separators FS, GS, RS and US are refused). *)
Definition is_int_space (c : ascii) : bool :=
  let n := code c in
  ((9 <=? n) && (n <=? 13) || (n =? 32) || (n =? 133) || (n =? 160))%N.

Fixpoint rstrip_by (p : ascii -> bool) (s : str) : str :=
  match s with
  | [] => []
  | c :: s' =>
      match rstrip_by p s' with
      | [] => if p c then [] else [c]
      | t => c :: t
      end
  end.

Fixpoint lstrip_by (p : ascii -> bool) (s : str) : str :=
  match s with
  | [] => []
  | c :: s' => if p c then lstrip_by p s' else s
  end.

Definition py_int (s : str) : result Z :=
  let t := rstrip_by is_int_space (lstrip_by is_int_space s) in
  let '(neg, body) :=
    match t with
    | c :: b => if chr_eqb c "-"%char then (true, b)
                else if chr_eqb c "+"%char then (false, b)
                else (false, t)
    | [] => (false, t)
    end in
  if 4300 <? count_digits body then Raise ValueError
  else match int_body 0 false body with
       | Some n => Ok (if neg then - n else n)%Z
       | None => Raise ValueError
       end.

Definition dec_digit (n : Z) : ascii := ascii_of_N (Z.to_N (48 + n mod 10)).

(** ["%02d"] and ["%04d"] for numbers below 100 and 10000. *)
Definition two_digits (n : Z) : str :=
  [dec_digit (n / 10); dec_digit n].
Definition four_digits (n : Z) : str :=
  [dec_digit (n / 1000); dec_digit (n / 100); dec_digit (n / 10); dec_digit n].

Definition is_leap (y : Z) : bool :=
  ((y mod 4 =? 0) && (negb (y mod 100 =? 0) || (y mod 400 =? 0)))%Z.

Definition days_in_month (y m : Z) : Z :=
  (if m =? 2 then (if is_leap y then 29 else 28)
   else if (m =? 4) || (m =? 6) || (m =? 9) || (m =? 11) then 30
   else 31)%Z.

Record date : Set := Date { year : Z; month : Z; day : Z }.

#[global] Instance date_eq_dec : EqDecision date.
Proof. solve_decision. Defined.

(** An argument converted to a C [int]. *)
Definition c_int (z : Z) : result Z :=
  if ((-2147483648 <=? z) && (z <=? 2147483647))%Z then Ok z
  else Raise OverflowError.

Definition valid_date (y m d : Z) : bool :=
  ((1 <=? y) && (y <=? 9999) && (1 <=? m) && (m <=? 12)
   && (1 <=? d) && (d <=? days_in_month y m))%Z.

(** [datetime.date(y, m, d)] *)
Definition mk_date (y m d : Z) : result date :=
  y ← c_int y; m ← c_int m; d ← c_int d;
  if valid_date y m d then Ok (Date y m d) else Raise ValueError.

(** Days before the first of January of year [y], from 0001-01-01. *)
Definition days_before_year (y : Z) : Z :=
  let p := (y - 1)%Z in (p * 365 + p / 4 - p / 100 + p / 400)%Z.

Fixpoint days_before_month_aux (y : Z) (m : nat) : Z :=
  match m with
  | O => 0
  | S m' => (days_before_month_aux y m' + days_in_month y (Z.of_nat m))%Z
  end.

(** Days of year [y] before the first day of month [m]. *)
Definition days_before_month (y m : Z) : Z :=
  days_before_month_aux y (Z.to_nat (m - 1)).

(** [d.toordinal()] *)
Definition toordinal (d : date) : Z :=
  (days_before_year (year d) + days_before_month (year d) (month d)
   + day d)%Z.

(** [(a - b).days] *)
Definition days_between (a b : date) : Z := (toordinal a - toordinal b)%Z.

Record datetime : Set :=
  DateTime { dt_date : date; hour : Z; minute : Z }.

(** [datetime(y, m, d, H, M)] *)
Definition mk_datetime (y m d H M : Z) : result datetime :=
  y ← c_int y; m ← c_int m; d ← c_int d; H ← c_int H; M ← c_int M;
  if valid_date y m d && (0 <=? H)%Z && (H <=? 23)%Z
     && (0 <=? M)%Z && (M <=? 59)%Z
  then Ok (DateTime (Date y m d) H M) else Raise ValueError.

(** [d.isoformat()] *)
Definition date_isoformat (d : date) : str :=
  four_digits (year d) ++ str_of "-" ++ two_digits (month d)
  ++ str_of "-" ++ two_digits (day d).

(** [dt.isoformat()] of a datetime without seconds. *)
Definition datetime_isoformat (dt : datetime) : str :=
  date_isoformat (dt_date dt) ++ str_of "T" ++ two_digits (hour dt)
  ++ str_of ":" ++ two_digits (minute dt) ++ str_of ":00".

(** [re.split(pattern, s)] for a pattern that is one character class. *)
Fixpoint re_split (sep : ascii -> bool) (s : str) : list str :=
  match s with
  | [] => [[]]
  | c :: s' =>
      if sep c then [] :: re_split sep s'
      else match re_split sep s' with
           | [] => [[c]]
           | p :: ps => (c :: p) :: ps
           end
  end.

Definition in_chars (set : string) (c : ascii) : bool :=
  existsb (chr_eqb c) (list_ascii_of_string set).
Arguments in_chars set%_string c.

(** ** tsvparser.parse_nr_datetime *)

Definition parse_nr_datetime (s : str) : result datetime :=
  parts ← mapR py_int (re_split (in_chars "-:./") (strip s));
  match parts with
  | [dd; mm; yy; HH; MM] => mk_datetime (2000 + yy) mm dd HH MM
  | _ => Raise ValueError
  end.

(** ** tsvparser.parse_description *)

(** What [print] wrote: the notice
    ["Unexpected format! {!r}".format(s)], kept as the string [s] it
    reports. *)
Inductive notice : Set :=
| UnexpectedFormat (s : list ascii).

Abbreviation dict := (gmap (list ascii) (list ascii)) (only parsing).

(** [r"TRTP|CSID|NAME|REMI|MARF|EREF|IBAN|BIC|ORDP|ID"] *)
Definition slash_tags : list str :=
  [str_of "TRTP"; str_of "CSID"; str_of "NAME"; str_of "REMI";
   str_of "MARF"; str_of "EREF"; str_of "IBAN"; str_of "BIC";
   str_of "ORDP"; str_of "ID"].

Definition is_tag (p : str) : bool := bool_decide (p ∈ slash_tags).

Definition key_map : dict :=
  dict_of
    [(str_of "TRTP", str_of "type");
     (str_of "CSID", str_of "Incassant");
     (str_of "NAME", str_of "Naam");
     (str_of "REMI", str_of "Omschrijving");
     (str_of "MARF", str_of "Machtiging");
     (str_of "EREF", str_of "Kenmerk");
     (str_of "IBAN", str_of "IBAN");
     (str_of "BIC", str_of "BIC");
     (str_of "ORDP", str_of "");
     (str_of "ID", str_of "")].

(** [d[k]] *)
Definition getitem {V} (d : gmap str V) (k : str) : result V :=
  match d !! k with
  | Some v => Ok v
  | None => Raise KeyError
  end.

(** One turn of the loop over [s[1:].split("/")]. *)
Definition slash_step (parts : list str) (p : str) : result (list str) :=
  if Nat.even (length parts)
  then if is_tag p then Ok (parts ++ [p])
       else match list_pop parts with
            | None => Raise IndexError
            | Some (init, z) => Ok (init ++ [z ++ str_of "/" ++ p])
            end
  else Ok (parts ++ [p]).

Fixpoint slash_loop (parts : list str) (segs : list str)
  : result (list str) :=
  match segs with
  | [] => Ok parts
  | p :: segs' => parts' ← slash_step parts p; slash_loop parts' segs'
  end.

(** The generator
    [(key_map[k], v.rstrip()) for (k, v) in batched(parts, 2)
     if key_map[k] != ""], consumed by [dict]. *)
Fixpoint slash_pairs (parts : list str) : result (list (str * str)) :=
  match parts with
  | [] => Ok []
  | [_] => Raise ValueError
  | k :: v :: rest =>
      name ← getitem key_map k;
      pairs ← slash_pairs rest;
      Ok (if bool_decide (name = []) then pairs
          else (name, rstrip v) :: pairs)
  end.

Definition parse_slash (s : str) : result dict :=
  parts ← slash_loop [] (split_on "/"%char (drop 1 s));
  pairs ← slash_pairs parts;
  let data := dict_of pairs in
  ty ← getitem data (str_of "type");
  Ok (if bool_decide (ty = str_of "iDEAL")
      then <[str_of "type" := str_of "SEPA iDEAL"]> data
      else data).

(** [re.fullmatch(r"^(.*[^ ]) +([-0-9,.]+)$", p)]: the groups, or
    [None].  The amount is the run of amount characters that ends the
    text, the blanks before it are all taken by [ +], and what is left
    must be non-empty with no line feed before its last character. *)
Definition fee_line_groups (p : str) : option (str * str) :=
  let '(amount_rev, r1) := span (in_chars "-0123456789,.") (rev p) in
  let '(blanks, label_rev) := span is_blank r1 in
  match amount_rev, blanks, label_rev with
  | _ :: _, _ :: _, _ :: before_last =>
      if forallb (fun c => negb (is_newline c)) before_last
      then Some (rev label_rev, rev amount_rev)
      else None
  | _, _, _ => None
  end.

(** [m.groups()] on the result of a match: [None] has no [groups]. *)
Definition groups {A} (m : option A) : result A :=
  match m with
  | Some g => Ok g
  | None => Raise AttributeError
  end.

Definition parse_bank_fees (head tail : str) : result dict :=
  let parts := findall_dots 32 false [] tail in
  costs ← mapR (fun p => '(k, v) ← groups (fee_line_groups p);
                         Ok (k, replace_chr ","%char (str_of ".") v))
               parts;
  Ok (dict_update {[ str_of "type" := head ]} costs).

Definition nonempty {A} (l : list A) : bool :=
  match l with [] => false | _ => true end.

(** [re.fullmatch(r"^(BEA) +NR:([^ ]+) +([0-9./:]+)$", head)] *)
Definition bea_head_groups (head : str) : option (str * str * str) :=
  if startswith head (str_of "BEA") then
    let '(sp1, r1) := span is_blank (drop 3 head) in
    if nonempty sp1 && startswith r1 (str_of "NR:") then
      let '(nr, r2) := span (fun c => negb (is_blank c)) (drop 3 r1) in
      let '(sp2, dt) := span is_blank r2 in
      if nonempty nr && nonempty sp2 && nonempty dt
         && forallb (in_chars "0123456789./:") dt
      then Some (str_of "BEA", nr, dt) else None
    else None
  else None.

Definition parse_bea_legacy (head tail : str) : result dict :=
  let name_and_card := take 32 tail in
  let location := take 32 (drop 32 tail) in
  let suffix := drop 64 tail in
  '(type, nr, dtstr) ← groups (bea_head_groups head);
  let '(name, _, pas) := partition (str_of ",PAS") name_and_card in
  dt ← parse_nr_datetime dtstr;
  Ok (dict_of
        [(str_of "type", type);
         (str_of "datetime", datetime_isoformat dt);
         (str_of "NR", nr);
         (str_of "Naam", rstrip name);
         (str_of "card", rstrip pas);
         (str_of "location", rstrip location);
         (str_of "suffix", rstrip suffix)]).

(** [re.fullmatch(r"^NR:([^, ]+)[, ]+([0-9./:]+) *", nr_and_date)] *)
Definition nr_date_groups (s : str) : option (str * str) :=
  if startswith s (str_of "NR:") then
    let '(nr, r1) := span (fun c => negb (in_chars ", " c)) (drop 3 s) in
    let '(sep, r2) := span (in_chars ", ") r1 in
    let '(dt, r3) := span (in_chars "0123456789./:") r2 in
    if nonempty nr && nonempty sep && nonempty dt && forallb is_blank r3
    then Some (nr, dt) else None
  else None.

Definition parse_bea_gea (head tail : str) : result dict :=
  let name_and_card := take 32 tail in
  let nr_and_date := take 32 (drop 32 tail) in
  let location := take 32 (drop 64 tail) in
  let suffix := drop 96 tail in
  let '(name, _, pas) := partition (str_of ",PAS") name_and_card in
  '(nr, dtstr) ← groups (nr_date_groups nr_and_date);
  dt ← parse_nr_datetime dtstr;
  Ok (dict_of
        [(str_of "type", head);
         (str_of "datetime", datetime_isoformat dt);
         (str_of "NR", nr);
         (str_of "Naam", rstrip name);
         (str_of "card", rstrip pas);
         (str_of "location", rstrip location);
         (str_of "suffix", rstrip suffix)]).

Definition sepa_keys : list str :=
  [str_of "Incassant"; str_of "BIC"; str_of "Naam"; str_of "Machtiging";
   str_of "Omschrijving"; str_of "IBAN"; str_of "Kenmerk"; str_of "Voor"].

(** [re.fullmatch(r"^(Incassant|BIC|Naam|Machtiging|Omschrijving|IBAN|
    Kenmerk|Voor): (.+)", chunk)]: the two groups, or [None]. *)
Fixpoint sepa_key_match (keys : list str) (chunk : str)
  : option (str * str) :=
  match keys with
  | [] => None
  | k :: keys' =>
      let value := drop (length k + 2) chunk in
      if startswith chunk (k ++ str_of ": ") && nonempty value
         && forallb (fun c => negb (is_newline c)) value
      then Some (k, value)
      else sepa_key_match keys' chunk
  end.

Definition sepa_step (parts : list (str * str)) (thirtytwo : str)
  : result (list (str * str)) :=
  match sepa_key_match sepa_keys thirtytwo with
  | Some kv => Ok (parts ++ [kv])
  | None =>
      match list_pop parts with
      | None => Raise IndexError
      | Some (init, (key, value)) => Ok (init ++ [(key, value ++ thirtytwo)])
      end
  end.

Fixpoint sepa_loop (parts : list (str * str)) (chunks : list str)
  : result (list (str * str)) :=
  match chunks with
  | [] => Ok parts
  | c :: chunks' => parts' ← sepa_step parts c; sepa_loop parts' chunks'
  end.

Definition parse_sepa (head tail : str) : result dict :=
  parts ← sepa_loop [] (findall_dots 32 false [] tail);
  Ok (dict_update {[ str_of "type" := head ]}
        (map (fun kv => (kv.1, strip kv.2)) parts)).

Definition parse_description (s : str) : list notice * result dict :=
  if startswith s (str_of "/") then ([], parse_slash s)
  else
    let head := rstrip (take 32 s) in
    let tail := rstrip (drop 32 s) in
    if startswith s (str_of "ABN AMRO Bank") then
      ([], parse_bank_fees head tail)
    else if startswith head (str_of "BEA ") then
      ([], parse_bea_legacy head tail)
    else if startswith head (str_of "BEA, ")
            || startswith head (str_of "GEA, ") then
      ([], parse_bea_gea head tail)
    else if startswith head (str_of "SEPA ") then
      ([], parse_sepa head tail)
    else if startswith head (str_of "CREDIT INTEREST") then
      ([], Ok (dict_of [(str_of "type", str_of "Basic interest");
                        (str_of "description", tail)]))
    else if startswith head (str_of "Basic interest") then
      ([], Ok (dict_of [(str_of "type", head);
                        (str_of "description", collapse_blanks tail)]))
    else if startswith head (str_of "Maandpremie ")
            || startswith head (str_of "Uitbetaling pakketkorting")
            || startswith head (str_of "PAKKETVERZ. POLISNR.") then
      ([], Ok (dict_of
                 [(str_of "type", str_of "legacy insurance");
                  (str_of "description",
                   collapse_blanks (head ++ str_of " " ++ tail))]))
    else
      ([UnexpectedFormat s],
       Ok (dict_of [(str_of "type", head); (str_of "description", tail)])).

(** The elements at positions 0, 2, 4, ... of a list: the tag positions
    of the list of segments built by the slash branch. *)
Fixpoint evens {A} (l : list A) : list A :=
  match l with
  | [] => []
  | x :: l' =>
      x :: match l' with
           | [] => []
           | _ :: l'' => evens l''
           end
  end.

(** A slash-delimited description written from its fields (the spec's
    reading of the format): [/tag/value] for each field, in order. *)
Definition render_fields (kvs : list (str * str)) : str :=
  concat (map (fun kv => "/"%char :: kv.1 ++ "/"%char :: kv.2) kvs).

(** A value may contain slashes as long as no segment after its first
    slash is one of the ten tags. *)
Definition value_ok (v : str) : bool :=
  forallb (fun seg => negb (is_tag seg)) (tl (split_on "/"%char v)).

(** The value of the last field whose tag is [tag]. *)
Definition last_value (tag : str) (kvs : list (str * str)) : option str :=
  fold_left (fun acc kv => if bool_decide (kv.1 = tag) then Some kv.2
                           else acc) kvs None.

(** The names a slash-delimited description can be decoded into. *)
Definition slash_names : list str :=
  [str_of "type"; str_of "Incassant"; str_of "Naam"; str_of "Omschrijving";
   str_of "Machtiging"; str_of "Kenmerk"; str_of "IBAN"; str_of "BIC"].

(** A value and one more segment, merged with a literal slash. *)
Definition merge_seg (a c : str) : str := a ++ str_of "/" ++ c.

(** The entry a field contributes to the mapping: none for a tag whose
    name in [key_map] is empty. *)
Definition named_field (kv : str * str) : list (str * str) :=
  match key_map !! kv.1 with
  | Some name => if bool_decide (name = []) then []
                 else [(name, rstrip kv.2)]
  | None => []
  end.

(** ** Decimal numbers and money

    A [decimal.Decimal] is a finite number with sign, coefficient and
    exponent, denoting [(-1)^sign * coefficient * 10^exponent]; or an
    infinity with its sign; or a NaN, quiet or signaling, with its sign
    and its payload (the digits written after [NaN], 0 when there are
    none).  [Decimal(text)] accepts all of them. *)
Inductive PyDecimal : Set :=
| Dec (sign : bool) (digits : N) (exp : Z)
| Infinity (sign : bool)
| NaN (sign : bool) (signaling : bool) (payload : N).

(** The sign and the digits of [d.as_tuple()]. *)
Definition negative (d : PyDecimal) : bool :=
  match d with
  | Dec s _ _ | Infinity s | NaN s _ _ => s
  end.

Definition coefficient (d : PyDecimal) : N :=
  match d with
  | Dec _ c _ => c
  | Infinity _ => 0
  | NaN _ _ p => p
  end.

Definition is_snan (d : PyDecimal) : bool :=
  match d with NaN _ true _ => true | _ => false end.

Definition is_qnan (d : PyDecimal) : bool :=
  match d with NaN _ false _ => true | _ => false end.

Definition is_nan (d : PyDecimal) : bool :=
  match d with NaN _ _ _ => true | _ => false end.

(** The coefficient with its sign. *)
Definition signed_coefficient (d : PyDecimal) : Z :=
  if negative d then (- Z.of_N (coefficient d))%Z
  else Z.of_N (coefficient d).

(** [a._cmp(b) == 0] for two decimals that are not NaN: finite numbers
    are compared as the numbers denoted, both brought to the smaller of
    the two exponents; an infinity equals only the infinity of its
    sign. *)
Definition Decimal_cmp_eq (a b : PyDecimal) : bool :=
  match a, b with
  | Dec _ _ ea, Dec _ _ eb =>
      let m := Z.min ea eb in
      (signed_coefficient a * 10 ^ (ea - m)
       =? signed_coefficient b * 10 ^ (eb - m))%Z
  | Infinity sa, Infinity sb => Bool.eqb sa sb
  | _, _ => false
  end.

(** [a == b] on decimals, in the default context: a signaling NaN on
    either side raises InvalidOperation, a quiet NaN makes the result
    false, and otherwise the values are compared. *)
Definition Decimal_eqb (a b : PyDecimal) : result bool :=
  if is_snan a || is_snan b then Raise InvalidOperation
  else if is_qnan a || is_qnan b then Ok false
  else Ok (Decimal_cmp_eq a b).

(** [c / 10^k] rounded to the nearest integer, a tie going to the even
    neighbour (ROUND_HALF_EVEN, the rounding of the default context). *)
Definition round_half_even_div (c k : N) : N :=
  let p := (10 ^ k)%N in
  let q := (c / p)%N in
  let r := (c mod p)%N in
  if ((p <? 2 * r) || ((2 * r =? p) && N.odd q))%N then (q + 1)%N else q.

(** The coefficient of [d._rescale(-2, ROUND_HALF_EVEN)] for the finite
    decimal of coefficient [c] and exponent [e]: the amount in
    hundredths. *)
Definition cents (c : N) (e : Z) : N :=
  if (-2 <=? e)%Z
  then (c * 10 ^ Z.to_N (e + 2))%N
  else round_half_even_div c (Z.to_N (-2 - e)).

Fixpoint uint_to_str (u : Decimal.uint) : str :=
  match u with
  | Decimal.Nil => []
  | Decimal.D0 u => "0"%char :: uint_to_str u
  | Decimal.D1 u => "1"%char :: uint_to_str u
  | Decimal.D2 u => "2"%char :: uint_to_str u
  | Decimal.D3 u => "3"%char :: uint_to_str u
  | Decimal.D4 u => "4"%char :: uint_to_str u
  | Decimal.D5 u => "5"%char :: uint_to_str u
  | Decimal.D6 u => "6"%char :: uint_to_str u
  | Decimal.D7 u => "7"%char :: uint_to_str u
  | Decimal.D8 u => "8"%char :: uint_to_str u
  | Decimal.D9 u => "9"%char :: uint_to_str u
  end.

(** [str(n)] for a natural number. *)
Definition N_to_str (n : N) : str := uint_to_str (N.to_uint n).

Fixpoint str_to_uint (s : str) : option Decimal.uint :=
  match s with
  | [] => Some Decimal.Nil
  | c :: s' =>
      u ← str_to_uint s';
      match code c with
      | 48%N => Some (Decimal.D0 u)
      | 49%N => Some (Decimal.D1 u)
      | 50%N => Some (Decimal.D2 u)
      | 51%N => Some (Decimal.D3 u)
      | 52%N => Some (Decimal.D4 u)
      | 53%N => Some (Decimal.D5 u)
      | 54%N => Some (Decimal.D6 u)
      | 55%N => Some (Decimal.D7 u)
      | 56%N => Some (Decimal.D8 u)
      | 57%N => Some (Decimal.D9 u)
      | _ => None
      end
  end.

(** The number a string of decimal digits denotes. *)
Definition digits_value (s : str) : option N :=
  N.of_uint <$> str_to_uint s.

(** ["{:.2f}".format(d)].  A finite decimal is rescaled to exponent -2
    with the rounding of the context, and its digits are cut two places
    from the right, padded with zeros when there are fewer than three.
    A special value is written as [str] writes its absolute value, after
    its sign: [Infinity], or [NaN] or [sNaN] followed by the payload. *)
Definition format_2f (d : PyDecimal) : str :=
  match d with
  | Dec neg c e =>
      let digits := N_to_str (cents c e) in
      let dotplace := (Z.of_nat (length digits) - 2)%Z in
      let '(intpart, fracpart) :=
        if (dotplace <? 0)%Z
        then (str_of "0",
              replicate (Z.to_nat (- dotplace)) "0"%char ++ digits)
        else (match take (Z.to_nat dotplace) digits with
              | [] => str_of "0"
              | i => i
              end,
              drop (Z.to_nat dotplace) digits) in
      (if neg then str_of "-" else []) ++ intpart
      ++ str_of "." ++ fracpart
  | Infinity neg =>
      (if neg then str_of "-" else []) ++ str_of "Infinity"
  | NaN neg signaling payload =>
      (if neg then str_of "-" else [])
      ++ (if signaling then str_of "sNaN" else str_of "NaN")
      ++ (if (payload =? 0)%N then [] else N_to_str payload)
  end.

(** [moneyed.Currency]: two currencies are equal when their codes are. *)
Record Currency : Set := { currency_code : list ascii }.

Definition Currency_eqb (a b : Currency) : bool :=
  bool_decide (currency_code a = currency_code b).

(** [moneyed.Money] *)
Record Money : Set := { amount : PyDecimal; money_currency : Currency }.

(** [x and y] on the results of comparisons: [y] is evaluated only when
    [x] is true. *)
Definition py_and (x y : result bool) : result bool :=
  match x with
  | Ok true => y
  | Ok false => Ok false
  | Raise e => Raise e
  end.

(** [Money.__eq__]: the amounts, then the currencies. *)
Definition Money_eqb (a b : Money) : result bool :=
  py_and (Decimal_eqb (amount a) (amount b))
         (Ok (Currency_eqb (money_currency a) (money_currency b))).

(** ** tsvparser.money_format, util.money_format *)

Definition money_format (m : Money) : str := format_2f (amount m).


(** ** tsvparser.Transaction

    The fields [account], [date], [order], [currency], [amount],
    [start_saldo], [end_saldo] and [description] of the dataclass. *)
Record Transaction : Set := {
  tx_account : Z;
  tx_date : date;
  tx_order : Z;
  tx_currency : Currency;
  tx_amount : Money;
  tx_start_saldo : Money;
  tx_end_saldo : Money;
  tx_description : list ascii
}.

(** [Transaction.__eq__]: the chain of [and] stops at the first
    comparison that is false, and a comparison that raises ends it. *)
Definition Transaction_eq (self other : Transaction) : result bool :=
  py_and (Ok (tx_account self =? tx_account other)%Z)
  (py_and (Ok (bool_decide (tx_date self = tx_date other)))
  (py_and (Ok (Currency_eqb (tx_currency self) (tx_currency other)))
  (py_and (Money_eqb (tx_amount self) (tx_amount other))
  (py_and (Money_eqb (tx_start_saldo self) (tx_start_saldo other))
          (Money_eqb (tx_end_saldo self) (tx_end_saldo other)))))).


(** A transaction with one field replaced, as in [build_row(changekey)]
    of the doctest of [__eq__]. *)
Definition set_account (v : Z) (t : Transaction) : Transaction :=
  {| tx_account := v; tx_date := tx_date t; tx_order := tx_order t;
     tx_currency := tx_currency t; tx_amount := tx_amount t;
     tx_start_saldo := tx_start_saldo t; tx_end_saldo := tx_end_saldo t;
     tx_description := tx_description t |}.
Definition set_date (v : date) (t : Transaction) : Transaction :=
  {| tx_account := tx_account t; tx_date := v; tx_order := tx_order t;
     tx_currency := tx_currency t; tx_amount := tx_amount t;
     tx_start_saldo := tx_start_saldo t; tx_end_saldo := tx_end_saldo t;
     tx_description := tx_description t |}.
Definition set_order (v : Z) (t : Transaction) : Transaction :=
  {| tx_account := tx_account t; tx_date := tx_date t; tx_order := v;
     tx_currency := tx_currency t; tx_amount := tx_amount t;
     tx_start_saldo := tx_start_saldo t; tx_end_saldo := tx_end_saldo t;
     tx_description := tx_description t |}.
Definition set_currency (v : Currency) (t : Transaction) : Transaction :=
  {| tx_account := tx_account t; tx_date := tx_date t;
     tx_order := tx_order t;
     tx_currency := v; tx_amount := tx_amount t;
     tx_start_saldo := tx_start_saldo t; tx_end_saldo := tx_end_saldo t;
     tx_description := tx_description t |}.
Definition set_amount (v : Money) (t : Transaction) : Transaction :=
  {| tx_account := tx_account t; tx_date := tx_date t;
     tx_order := tx_order t;
     tx_currency := tx_currency t; tx_amount := v;
     tx_start_saldo := tx_start_saldo t; tx_end_saldo := tx_end_saldo t;
     tx_description := tx_description t |}.
Definition set_start_saldo (v : Money) (t : Transaction) : Transaction :=
  {| tx_account := tx_account t; tx_date := tx_date t;
     tx_order := tx_order t;
     tx_currency := tx_currency t; tx_amount := tx_amount t;
     tx_start_saldo := v; tx_end_saldo := tx_end_saldo t;
     tx_description := tx_description t |}.
Definition set_end_saldo (v : Money) (t : Transaction) : Transaction :=
  {| tx_account := tx_account t; tx_date := tx_date t;
     tx_order := tx_order t;
     tx_currency := tx_currency t; tx_amount := tx_amount t;
     tx_start_saldo := tx_start_saldo t; tx_end_saldo := v;
     tx_description := tx_description t |}.
Definition set_description (v : str) (t : Transaction) : Transaction :=
  {| tx_account := tx_account t; tx_date := tx_date t;
     tx_order := tx_order t;
     tx_currency := tx_currency t; tx_amount := tx_amount t;
     tx_start_saldo := tx_start_saldo t; tx_end_saldo := tx_end_saldo t;
     tx_description := v |}.

(** ** Library calls left abstract

    The parts of the standard library and of [moneyed] whose result the
    parsers only pass on: the CSV tokenizer, [strptime], the decimal
    constructor behind [Money(text, currency)] and [float].  The CSV
    reader is itself a generator: it yields rows and may end with an
    exception. *)
Class PyLib : Type := {
  (** [csv.reader(lines, dialect="excel-tab")] *)
  csv_reader : list (list ascii) -> list (list (list ascii)) * option exn;
  (** [datetime.strptime(s, "%Y%m%d").date()] *)
  strptime_Ymd : list ascii -> result date;
  (** [decimal.Decimal(s)] *)
  Decimal_of_str : list ascii -> result PyDecimal;
  (** the type [float] and [float(s)] *)
  float : Set;
  float_of_str : list ascii -> result float;
  (** [moneyed.get_currency(code.upper())], the currency [Money] looks
      up when it is given a code instead of a [Currency] *)
  get_currency : list ascii -> result Currency
}.

(** [Money(text, currency)] *)
Definition Money_of_str `{PyLib} (text : str) (cur : Currency)
  : result Money :=
  d ← Decimal_of_str text;
  Ok {| amount := d; money_currency := cur |}.

(** ** tsvparser.filter_comments *)

Fixpoint filter_comments (iterable : list str) : list str :=
  match iterable with
  | [] => []
  | line :: rest =>
      if startswith (lstrip line) (str_of "#") then filter_comments rest
      else if bool_decide (strip line = []) then filter_comments rest
      else line :: filter_comments rest
  end.

(** ** tsvparser.read_tsv *)

(** The body of the loop for one row [r], with the counter already
    incremented to [order]: unpacking the row into [RowTuple] needs
    eight columns, and the
    arguments of [Transaction(...)] are evaluated in the order written. *)
Definition make_transaction `{PyLib} (order : Z) (r : list str)
  : result Transaction :=
  match r with
  | [accountNumber; mutationcode; transactiondate; startsaldo; endsaldo;
     valuedate; amount_text; description] =>
      let cur := {| currency_code := mutationcode |} in
      account ← py_int accountNumber;
      d ← strptime_Ymd transactiondate;
      am ← Money_of_str (replace_chr ","%char (str_of ".") amount_text) cur;
      start ← Money_of_str (replace_chr ","%char (str_of ".") startsaldo) cur;
      end_ ← Money_of_str (replace_chr ","%char (str_of ".") endsaldo) cur;
      text ← rejoin_description description;
      Ok {| tx_account := account; tx_date := d; tx_order := order;
            tx_currency := cur; tx_amount := am; tx_start_saldo := start;
            tx_end_saldo := end_; tx_description := text |}
  | _ => Raise TypeError
  end.

(** The loop of [read_tsv] over the rows the reader yields, from the
    counter value [order]; [reader_end] is the exception that ends the
    reader, if any.  The result is what the generator yields and the
    exception that ends it. *)
Fixpoint read_rows `{PyLib} (order : Z) (rows : list (list str))
    (reader_end : option exn) : list Transaction * option exn :=
  match rows with
  | [] => ([], reader_end)
  | r :: rows' =>
      match make_transaction (order + 1) r with
      | Ok t =>
          let '(ts, e) := read_rows (order + 1) rows' reader_end in
          (t :: ts, e)
      | Raise e => ([], Some e)
      end
  end.

Definition read_tsv `{PyLib} (file : list str)
  : list Transaction * option exn :=
  let '(rows, reader_end) := csv_reader (filter_comments file) in
  read_rows 0 rows reader_end.

(** A line that [filter_comments] skips: a comment or a blank line. *)
Definition skipped_line (line : str) : bool :=
  startswith (lstrip line) (str_of "#") || bool_decide (strip line = []).

(** ** A small instance of the library interface

    Enough of the library to run the parsers on examples: rows without
    quote characters, dates of eight digits, and plain decimal literals
    (an optional sign, digits and at most one dot), which also stand for
    the floats; for [Decimal] also the names of the special values
    ([Inf], [Infinity], [NaN] and [sNaN] with an optional payload, in
    any case). *)
Definition simple_csv_reader (lines : list str)
  : list (list str) * option exn :=
  (map (fun line =>
          split_on "009"%char
            (rstrip_by (fun c => is_newline c || chr_eqb c "013"%char) line))
       lines, None).

Definition simple_strptime (s : str) : result date :=
  match s with
  | [y1; y2; y3; y4; m1; m2; d1; d2] =>
      match digits_value [y1; y2; y3; y4], digits_value [m1; m2],
            digits_value [d1; d2] with
      | Some y, Some m, Some d => mk_date (Z.of_N y) (Z.of_N m) (Z.of_N d)
      | _, _, _ => Raise ValueError
      end
  | _ => Raise ValueError
  end.

Definition split_sign (s : str) : bool * str :=
  match s with
  | c :: b => if chr_eqb c "-"%char then (true, b)
              else if chr_eqb c "+"%char then (false, b)
              else (false, s)
  | [] => (false, s)
  end.

Definition plain_decimal (s : str) : result PyDecimal :=
  let '(neg, body) := split_sign s in
  let '(int_part, _, frac_part) := partition (str_of ".") body in
  match int_part ++ frac_part, digits_value (int_part ++ frac_part) with
  | _ :: _, Some n => Ok (Dec neg n (- Z.of_nat (length frac_part)))
  | _, _ => Raise InvalidOperation
  end.

Definition lower (c : ascii) : ascii :=
  if ((65 <=? code c) && (code c <=? 90))%N
  then ascii_of_N (code c + 32) else c.

Definition simple_Decimal (s : str) : result PyDecimal :=
  let '(neg, body) := split_sign s in
  let name := map lower body in
  if str_eqb name (str_of "inf") || str_eqb name (str_of "infinity")
  then Ok (Infinity neg)
  else if startswith name (str_of "nan")
  then match digits_value (drop 3 body) with
       | Some p => Ok (NaN neg false p)
       | None => Raise InvalidOperation
       end
  else if startswith name (str_of "snan")
  then match digits_value (drop 4 body) with
       | Some p => Ok (NaN neg true p)
       | None => Raise InvalidOperation
       end
  else plain_decimal s.

Definition simple_lib : PyLib := {|
  csv_reader := simple_csv_reader;
  strptime_Ymd := simple_strptime;
  Decimal_of_str := simple_Decimal;
  float := PyDecimal;
  float_of_str := plain_decimal;
  get_currency := fun name =>
    if (length name =? 3)
       && forallb (fun c => (65 <=? code c)%N && (code c <=? 90)%N) name
    then Ok {| currency_code := name |} else Raise KeyError
|}.

(** ** icspdfparser: dates of the statement table *)

Definition MONTHS_SHORT : gmap (list ascii) Z :=
  dict_of
    [(str_of "jan", 1%Z); (str_of "feb", 2%Z); (str_of "mrt", 3%Z);
     (str_of "apr", 4%Z); (str_of "mei", 5%Z); (str_of "jun", 6%Z);
     (str_of "jul", 7%Z); (str_of "aug", 8%Z); (str_of "sep", 9%Z);
     (str_of "okt", 10%Z); (str_of "nov", 11%Z); (str_of "dec", 12%Z)].

(** [s.split()]: the maximal runs of non-whitespace characters; [cur] is
    the run being read. *)
Fixpoint split_ws (cur : str) (s : str) : list str :=
  match s with
  | [] => emit cur
  | c :: s' =>
      if isspace c then emit cur ++ split_ws [] s'
      else split_ws (cur ++ [c]) s'
  end.

(** [Page.convert_date], for a page whose [date] attribute is
    [page_date] ([None] until the statement date has been read): both
    candidate dates are built before they are compared. *)
Definition convert_date (page_date : option date) (text : str)
  : result date :=
  match split_ws [] text with
  | [dd; mmm] =>
      d ← py_int dd;
      m ← getitem MONTHS_SHORT mmm;
      self_date ← match page_date with
                  | Some D => Ok D
                  | None => Raise AttributeError
                  end;
      let y1 := year self_date in
      let y2 := (year self_date - 1)%Z in
      dt1 ← mk_date y1 m d;
      dt2 ← mk_date y2 m d;
      let diff1 := days_between self_date dt1 in
      let diff2 := days_between self_date dt2 in
      Ok (if (Z.abs diff1 <? Z.abs diff2)%Z then dt1 else dt2)
  | _ => Raise ValueError
  end.

(** ** icspdfparser: the statement table *)

(** A converted cell of the table: a string, or a date in the two date
    columns. *)
Inductive cell : Set :=
| CStr (s : list ascii)
| CDate (d : date).

#[global] Instance cell_eq_dec : EqDecision cell.
Proof. solve_decision. Defined.

(** [str(c)] *)
Definition cell_text (c : cell) : str :=
  match c with
  | CStr s => s
  | CDate d => date_isoformat d
  end.

(** [c == ""] *)
Definition cell_is_empty (c : cell) : bool := bool_decide (c = CStr []).

(** The truth value of a cell: a date is true, a string is true unless
    empty. *)
Definition cell_truthy (c : cell) : bool := negb (cell_is_empty c).

Inductive convert_method : Set :=
| method_convert_date | method_convert_amount | method_convert_bij_af.

Record TableColumn : Set := {
  x_low : Z; x_high : Z;
  max_length : nat;
  col_name : list ascii;
  col_method : option convert_method
}.

(** [Page.COLUMNS] *)
Definition COLUMNS : list TableColumn :=
  [ {| x_low := 59; x_high := 62; max_length := 6;
       col_name := str_of "Datum transactie";
       col_method := Some method_convert_date |};
    {| x_low := 102; x_high := 106; max_length := 6;
       col_name := str_of "Datum boeking";
       col_method := Some method_convert_date |};
    {| x_low := 149; x_high := 155; max_length := 24;
       col_name := str_of "Omschrijving"; col_method := None |};
    {| x_low := 275; x_high := 277; max_length := 13;
       col_name := str_of "Description part 2"; col_method := None |};
    {| x_low := 362; x_high := 364; max_length := 3;
       col_name := str_of "Country code"; col_method := None |};
    {| x_low := 401; x_high := 440; max_length := 8;
       col_name := str_of "Bedrag in vreemde valuta";
       col_method := Some method_convert_amount |};
    {| x_low := 444; x_high := 446; max_length := 3;
       col_name := str_of "Currency code"; col_method := None |};
    {| x_low := 478; x_high := 530; max_length := 8;
       col_name := str_of "Bedrag in euro's";
       col_method := Some method_convert_amount |};
    {| x_low := 535; x_high := 539; max_length := 3;
       col_name := str_of "Bij/Af";
       col_method := Some method_convert_bij_af |} ].

(** A page: its index, the header fields read so far, and the table
    from vertical coordinate to the nine cell strings of a row.
    Coordinates are integers here, as in the doctests. *)
Record Page : Type := {
  nr : Z;
  p_date : option date;
  page_nr : option Z;
  total_pages : option Z;
  table : gmap Z (list (list ascii))
}.

(** [Page.convert_bij_af] *)
Definition convert_bij_af (text : str) : result str :=
  getitem (dict_of [(str_of "Bij", str_of "+"); (str_of "Af", str_of "-")])
          text.

(** [Page.convert_amount] *)
Definition convert_amount (text : str) : str :=
  replace_chr ","%char (str_of ".") (replace_chr "."%char [] text).

(** [Page.convert_cell_text] *)
Definition convert_cell_text (page_date : option date) (text : str)
    (method : option convert_method) : result cell :=
  let text := strip text in
  if bool_decide (text = []) then Ok (CStr [])
  else match method with
       | None => Ok (CStr text)
       | Some method_convert_date => CDate <$> convert_date page_date text
       | Some method_convert_amount => Ok (CStr (convert_amount text))
       | Some method_convert_bij_af => CStr <$> convert_bij_af text
       end.

(** The order of [sorted(..., reverse=True)] on the items of the table:
    the keys differ, so the larger key comes first. *)
Definition item_ge (a b : Z * list (list ascii)) : Prop := (b.1 <= a.1)%Z.

#[global] Instance item_ge_dec : RelDecision item_ge.
Proof. intros a b. unfold item_ge. apply _. Defined.

(** [Page.table_as_list]: the rows by decreasing vertical coordinate. *)
Definition table_as_list (page : Page) : list (list str) :=
  (merge_sort item_ge (map_to_list (table page))).*2.

(** ** icspdfparser.Transaction *)
Record CardTransaction `{PyLib} : Type := {
  ct_card_number : option (list ascii);
  ct_date : cell;
  ct_descriptions : list cell;
  ct_country_code : cell;
  ct_foreign_amount : option Money;
  ct_exchange_rate : option float;
  ct_amount : Money
}.

(** ** icspdfparser.group_related_rows

    The groups yielded, and the exception that ends the generator, if
    any ([row[0]] on an empty row). *)
Definition starts_group (c : cell) : bool :=
  match c with
  | CDate _ => true
  | CStr s => startswith s (str_of "Uw Card")
  end.

Definition yield_buffer {A} (buffer : list A) : list (list A) :=
  match buffer with [] => [] | _ => [buffer] end.

Fixpoint group_related_rows (buffer : list (list cell))
    (table : list (list cell)) : list (list (list cell)) * option exn :=
  match table with
  | [] => (yield_buffer buffer, None)
  | row :: rest =>
      match row with
      | [] => ([], Some IndexError)
      | c :: _ =>
          if starts_group c
          then let '(groups, e) := group_related_rows [row] rest in
               (yield_buffer buffer ++ groups, e)
          else group_related_rows (buffer ++ [row]) rest
      end
  end.

(** ** icspdfparser.get_transactions_from_pages *)

(** [row[i]] *)
Definition getcell (row : list cell) (i : nat) : result cell :=
  match row !! i with
  | Some c => Ok c
  | None => Raise IndexError
  end.

(** [a + b] on cells: defined on two strings only. *)
Definition cell_add (a b : cell) : result str :=
  match a, b with
  | CStr x, CStr y => Ok (x ++ y)
  | _, _ => Raise TypeError
  end.

(** [Money(amount, currency)] with the currency given by its code. *)
Definition Money_of_code `{PyLib} (text code_text : str) : result Money :=
  d ← Decimal_of_str text;
  cur ← get_currency code_text;
  Ok {| amount := d; money_currency := cur |}.

(** [re.match(r"Uw Card met als laatste vier cijfers ([0-9]+)", s)]:
    the group, or [None]. *)
Definition card_number_match (s : str) : option str :=
  let prefix := str_of "Uw Card met als laatste vier cijfers " in
  if startswith s prefix
  then match (span isdigit (drop (length prefix) s)).1 with
       | [] => None
       | digits => Some digits
       end
  else None.

(** Part 1 for one raw row of a page. *)
Definition convert_row (page_date : option date) (raw_row : list str)
  : result (list cell) :=
  match raw_row with
  | [] => Raise IndexError
  | first :: others =>
      if 6 <? length first
      then _ ← assert (forallb (fun t => bool_decide (strip t = []))
                               others);
           Ok [CStr (strip first)]
      else mapR (fun cc : list ascii * TableColumn =>
                   convert_cell_text page_date cc.1 (col_method cc.2))
                (zip raw_row COLUMNS)
  end.

(** Part 1: the converted rows of all pages, in page order. *)
Fixpoint convert_pages (n : Z) (statement_date : option date)
    (pages : list Page) : result (list (list cell)) :=
  match pages with
  | [] => Ok []
  | page :: rest =>
      _ ← assert (bool_decide (Some n = page_nr page));
      statement_date' ←
        (if (n =? 1)%Z then Ok (p_date page)
         else _ ← assert (bool_decide (statement_date = p_date page));
              Ok statement_date);
      rows ← mapR (convert_row (p_date page)) (table_as_list page);
      more ← convert_pages (n + 1) statement_date' rest;
      Ok (rows ++ more)
  end.

(** The single-row transaction. *)
Definition single_row_transaction `{PyLib} (card_number : option str)
    (first : list cell) : result CardTransaction :=
  f0 ← getcell first 0; f2 ← getcell first 2; f3 ← getcell first 3;
  f4 ← getcell first 4; f8 ← getcell first 8; f7 ← getcell first 7;
  text ← cell_add f8 f7;
  am ← Money_of_code text (str_of "EUR");
  Ok {| ct_card_number := card_number; ct_date := f0;
        ct_descriptions := [f2; f3]; ct_country_code := f4;
        ct_foreign_amount := None; ct_exchange_rate := None;
        ct_amount := am |}.

(** The double-row transaction (foreign currency), after its sanity
    checks. *)
Definition double_row_transaction `{PyLib} (card_number : option str)
    (first second : list cell) : result CardTransaction :=
  blanks ← mapR (getcell second) [0; 1; 4; 5; 6; 7; 8]%nat;
  _ ← assert (forallb cell_is_empty blanks);
  s2 ← getcell second 2; f6 ← getcell first 6;
  _ ← assert (bool_decide
                (s2 = CStr (str_of "Wisselkoers " ++ cell_text f6)));
  f0 ← getcell first 0; f2 ← getcell first 2; f3 ← getcell first 3;
  f4 ← getcell first 4; f8 ← getcell first 8; f7 ← getcell first 7;
  text ← cell_add f8 f7;
  am ← Money_of_code text (str_of "EUR");
  f5 ← getcell first 5;
  foreign ← Money_of_code (cell_text f5) (cell_text f6);
  s3 ← getcell second 3;
  rate_text ← match s3 with
              | CStr s => Ok (replace_chr ","%char (str_of ".") s)
              | CDate _ => Raise TypeError
              end;
  rate ← float_of_str rate_text;
  Ok {| ct_card_number := card_number; ct_date := f0;
        ct_descriptions := [f2; f3]; ct_country_code := f4;
        ct_foreign_amount := Some foreign; ct_exchange_rate := Some rate;
        ct_amount := am |}.

(** Part 2 for one group of rows: the card number in force afterwards,
    and the transaction yielded, if any. *)
Definition process_group `{PyLib} (card_number : option str)
    (rows : list (list cell))
  : result (option str * option CardTransaction) :=
  _ ← assert ((0 <? length rows) && (length rows <=? 2));
  first ← match rows !! 0%nat with
          | Some r => Ok r
          | None => Raise IndexError
          end;
  let second := match rows with _ :: s :: _ => s | _ => [] end in
  if (length first =? length second) && (length second =? 1) then
    f0 ← getcell first 0;
    s ← match f0 with CStr s => Ok s | CDate _ => Raise TypeError end;
    number ← groups (card_number_match s);
    _ ← getcell second 0;
    Ok (Some number, None)
  else if (length first =? 9)
          && ((length second =? 0) || (length second =? 9)) then
    f5 ← getcell first 5; f6 ← getcell first 6;
    if bool_decide (f5 = f6) && cell_is_empty f6 && (length second =? 0)
    then t ← single_row_transaction card_number first;
         Ok (card_number, Some t)
    else if cell_truthy f5 && cell_truthy f6 && (length second =? 9)
    then t ← double_row_transaction card_number first second;
         Ok (card_number, Some t)
    else Raise AssertionError
  else Raise AssertionError.

(** Part 2: the loop over the groups; [groups_end] is the exception that
    ends [group_related_rows], if any. *)
Fixpoint process_groups `{PyLib} (card_number : option str)
    (groups : list (list (list cell))) (groups_end : option exn)
  : list CardTransaction * option exn :=
  match groups with
  | [] => ([], groups_end)
  | g :: rest =>
      match process_group card_number g with
      | Raise e => ([], Some e)
      | Ok (card_number', yielded) =>
          let '(ts, e) := process_groups card_number' rest groups_end in
          (match yielded with Some t => t :: ts | None => ts end, e)
      end
  end.

(** The transactions yielded and the exception that ends the generator,
    if any.  Part 1 runs to its end before the first transaction. *)
Definition get_transactions_from_pages `{PyLib} (pages : list Page)
  : list CardTransaction * option exn :=
  match convert_pages 1 None pages with
  | Raise e => ([], Some e)
  | Ok table =>
      let '(groups, groups_end) := group_related_rows [] table in
      process_groups None groups groups_end
  end.

(** Both fields unset, or both set. *)
Definition both_or_neither `{PyLib} (t : CardTransaction) : Prop :=
  (ct_foreign_amount t = None /\ ct_exchange_rate t = None) \/
  (is_Some (ct_foreign_amount t) /\ is_Some (ct_exchange_rate t)).

(** ** tsvparser.batched (the replacement for [itertools.batched])

    [tuple(islice(it, n))] takes the next [n] items, fewer at the end;
    the loop stops at the first empty batch.  [fuel] bounds the number of
    batches; one more than the number of items is enough.  [islice]
    refuses a stop above [sys.maxsize] with ValueError. *)

(** [sys.maxsize] of a 64-bit interpreter. *)
Definition sys_maxsize : Z := 9223372036854775807.

Fixpoint batched_loop {A} (fuel : nat) (n : nat) (it : list A)
  : list (list A) :=
  match fuel with
  | O => []
  | S fuel' =>
      match take n it with
      | [] => []
      | batch => batch :: batched_loop fuel' n (drop n it)
      end
  end.

Definition batched {A} (iterable : list A) (n : Z) : result (list (list A)) :=
  if (n <? 1)%Z then Raise ValueError
  else if (sys_maxsize <? n)%Z then Raise ValueError
  else Ok (batched_loop (S (length iterable)) (Z.to_nat n) iterable).

(** Whether a row opens a new group: the test
    [isinstance(row[0], datetime.date) or row[0].startswith("Uw Card")]
    of [group_related_rows], on a row that has a first cell. *)
Definition row_starts (row : list cell) : bool :=
  match row with
  | c :: _ => starts_group c
  | [] => false
  end.

(** A card number as the transactions carry it: [None] before the first
    card row, or the digits read from a card row. *)
Definition card_number_ok (cn : option (list ascii)) : Prop :=
  match cn with
  | None => True
  | Some s => s <> [] /\ forallb isdigit s = true
  end.

(** ** icspdfparser.Transaction: the formatted fields *)

(** [Transaction.foreign_amount_formatted] *)
Definition foreign_amount_formatted `{PyLib} (t : CardTransaction) : str :=
  match ct_foreign_amount t with
  | None => []
  | Some m => money_format m
  end.

(** [Transaction.foreign_currency_code] *)
Definition foreign_currency_code `{PyLib} (t : CardTransaction) : str :=
  match ct_foreign_amount t with
  | None => []
  | Some m => currency_code (money_currency m)
  end.

(** ** util.interval, util.first and the column of a text object *)

(** A coordinate of a text object: a finite float, kept as the exact
    ratio [num / den] it denotes. *)
Record coordinate : Set := { num : Z; den : positive }.

(** [n in interval(low, high)], that is [low <= n < high]. *)
Definition interval_contains (low high : Z) (n : coordinate) : bool :=
  ((low * Z.pos (den n) <=? num n)
   && (num n <? high * Z.pos (den n)))%Z.

(** [first(iterable, condition, default)] *)
Fixpoint first {A} (iterable : list A) (condition : A -> bool)
    (default : option A) : option A :=
  match iterable with
  | [] => default
  | x :: rest =>
      if condition x then Some x else first rest condition default
  end.

(** The generator [(n for n, col in enumerate(cols) if x in
    col.x_interval)], from index [n]. *)
Fixpoint matching_columns (n : nat) (cols : list TableColumn)
    (x : coordinate) : list nat :=
  match cols with
  | [] => []
  | col :: rest =>
      if interval_contains (x_low col) (x_high col) x
      then n :: matching_columns (S n) rest x
      else matching_columns (S n) rest x
  end.

(** The column of the main table that [Page.visitor] gives to a text
    object at horizontal position [x]; [None] fails its assertion. *)
Definition column_at (x : coordinate) : option nat :=
  first (matching_columns 0 COLUMNS x) (fun _ => true) None.

(** ** Texts as words and runs of blanks

    A text given by its words, each with the number of blanks written
    before it; and the same words with every run of blanks reduced to a
    single blank.  A word is not empty and holds no blank. *)
Definition spaced (segs : list (nat * list ascii)) : str :=
  concat (map (fun kw => replicate kw.1 " "%char ++ kw.2) segs).

Definition single_spaced (segs : list (nat * list ascii)) : str :=
  concat (map (fun kw => match kw.1 with
                         | O => []
                         | S _ => [" "%char]
                         end ++ kw.2) segs).

Definition word (w : list ascii) : Prop :=
  w <> [] /\ Forall (fun c => is_blank c = false) w.

(* ===================================================================== *)
(** * Part II: lemmas and theorems                                        *)
(* ===================================================================== *)

Example rejoin_doctest :
  rejoin_description
    (str_of "SEPA iDEAL                       IBAN: NL01RABO0123456789        BIC: RABONL2U                    Naam: Next to Pay via Mollie    Omschrijving: M01234567ABCDE0F 0 123456789012345 Foobar Pizza Delivery Order 123456               Kenmerk: 31-12-2023 17:01 0123456789012345                                                       ")
  = Ok (str_of "SEPA iDEAL                      IBAN: NL01RABO0123456789        BIC: RABONL2U                   Naam: Next to Pay via Mollie    Omschrijving: M01234567ABCDE0F 0123456789012345 Foobar Pizza Delivery Order 123456              Kenmerk: 31-12-2023 17:01 0123456789012345").
Proof. vm_compute. reflexivity. Qed.

(** ** Strings: basic facts *)

Lemma chr_eqb_eq a b : chr_eqb a b = true <-> a = b.
Proof. apply Ascii.eqb_eq. Qed.

Lemma chr_eqb_refl a : chr_eqb a a = true.
Proof. apply Ascii.eqb_refl. Qed.

Lemma chr_eqb_neq a b : chr_eqb a b = false <-> a <> b.
Proof. apply Ascii.eqb_neq. Qed.

Lemma startswith_spec s p : startswith s p = true <-> exists t, s = p ++ t.
Proof.
  revert s; induction p as [|b p IH]; intros s; simpl.
  - split; [intros _; by exists s | done].
  - destruct s as [|a s].
    + split; [done | intros [t Ht]; discriminate].
    + rewrite andb_true_iff, chr_eqb_eq, IH. split.
      * intros [-> [t ->]]. by exists t.
      * intros [t Ht]. injection Ht as -> ->. eauto.
Qed.

Lemma startswith_take s p n :
  length p <= n -> startswith (take n s) p = startswith s p.
Proof.
  revert s n; induction p as [|b p IH]; intros s n Hn; simpl in *.
  - by destruct (take n s).
  - destruct n as [|n]; [lia|]. destruct s as [|a s]; simpl; [done|].
    rewrite IH; [done | lia].
Qed.

Lemma rstrip_app a b :
  rstrip (a ++ b) = match rstrip b with [] => rstrip a | t => a ++ t end.
Proof.
  induction a as [|c a IH]; simpl.
  - by destruct (rstrip b).
  - rewrite IH. destruct (rstrip b); [done|].
    by destruct a.
Qed.

Lemma rstrip_prefix s : exists w, s = rstrip s ++ w.
Proof.
  induction s as [|c s [w IH]]; simpl.
  - by exists [].
  - destruct (rstrip s) as [|d t] eqn:E.
    + destruct (isspace c).
      * by exists (c :: s).
      * exists s. done.
    + exists w. simpl in *. by rewrite <- IH.
Qed.

Lemma rstrip_length s : length (rstrip s) <= length s.
Proof.
  destruct (rstrip_prefix s) as [w Hw].
  rewrite Hw at 2. rewrite length_app. lia.
Qed.

Lemma rstrip_Forall (P : ascii -> Prop) s : Forall P s -> Forall P (rstrip s).
Proof.
  intros H. destruct (rstrip_prefix s) as [w Hw].
  rewrite Hw in H. by apply Forall_app in H as [? _].
Qed.

(** ** rejoin_description *)

Lemma insert_breaks_nil_inv room r : insert_breaks room r = [] -> r = [].
Proof. destruct r, room; simpl; congruence. Qed.

Lemma rstrip_insert_breaks room r :
  rstrip (insert_breaks room r) = insert_breaks room (rstrip r).
Proof.
  assert (Hstep : forall c r' k,
    rstrip (insert_breaks k r') = insert_breaks k (rstrip r') ->
    rstrip (c :: insert_breaks k r') =
    insert_breaks (S k) (rstrip (c :: r'))).
  { intros c r' k IH. simpl. rewrite IH.
    destruct (rstrip r') as [|d t] eqn:E; simpl.
    - by destruct (isspace c).
    - by destruct k. }
  revert room; induction r as [|c r IH]; intros room.
  - by destruct room.
  - destruct room as [|k]; [|by apply Hstep].
    change (insert_breaks 0 (c :: r))
      with (" "%char :: c :: insert_breaks 63 r).
    change (rstrip (" "%char :: c :: insert_breaks 63 r))
      with (match rstrip (c :: insert_breaks 63 r) with
            | [] => if isspace " "%char then [] else [" "%char]
            | t => " "%char :: t end).
    rewrite (Hstep c r 63 (IH 63)).
    by destruct (rstrip (c :: r)).
Qed.

Lemma forallb_removelast_cons {A} (p : A -> bool) x l :
  p x = true -> forallb p (removelast l) = true ->
  forallb p (removelast (x :: l)) = true.
Proof.
  intros Hx Hl. destruct l as [|y l]; [done|].
  change (removelast (x :: y :: l)) with (x :: removelast (y :: l)).
  change (p x && forallb p (removelast (y :: l)) = true).
  by rewrite Hx, Hl.
Qed.

Lemma findall_dots_cons n ob cur c s :
  findall_dots n ob cur (c :: s) =
  if is_newline c then emit cur ++ findall_dots n ob [] s
  else if length cur <? n then findall_dots n ob (cur ++ [c]) s
  else if ob && is_blank c then (cur ++ [c]) :: findall_dots n ob [] s
  else cur :: findall_dots n ob [c] s.
Proof. reflexivity. Qed.

Lemma findall_insert_breaks r : forall cur room,
  Forall (fun c => is_newline c = false) r ->
  length cur + room = 64 ->
  let parts := findall_dots 64 true cur (insert_breaks room r) in
  concat (map (take 64) parts) = cur ++ r /\
  forallb (fun p => length p =? 65) (removelast parts) = true.
Proof.
  induction r as [|c r IH]; intros cur room Hnl Hlen; cbv zeta.
  - destruct cur as [|a cur]; [done|].
    cbn [insert_breaks findall_dots emit map concat removelast forallb].
    rewrite take_ge by (simpl in *; lia).
    by rewrite !app_nil_r.
  - apply Forall_cons in Hnl as [Hc Hnl].
    destruct room as [|room].
    + assert (length cur = 64) as Hcur by lia.
      change (insert_breaks 0 (c :: r))
        with (" "%char :: c :: insert_breaks 63 r).
      rewrite !findall_dots_cons.
      change (is_newline " "%char) with false. cbv iota.
      rewrite Hcur. change (64 <? 64) with false. cbv iota.
      change (true && is_blank " "%char) with true. cbv iota.
      rewrite Hc. change (length [] <? 64) with true. cbv iota.
      destruct (IH [c] 63 Hnl eq_refl) as [Hcat Hall].
      split.
      * cbn [map concat]. change ([] ++ [c]) with [c]. rewrite Hcat.
        rewrite take_app_le by lia. rewrite take_ge by lia.
        done.
      * apply forallb_removelast_cons; [|done].
        rewrite length_app, Hcur. done.
    + change (insert_breaks (S room) (c :: r))
        with (c :: insert_breaks room r).
      rewrite findall_dots_cons, Hc.
      assert ((length cur <? 64) = true) as -> by (apply Nat.ltb_lt; lia).
      destruct (IH (cur ++ [c]) room Hnl) as [Hcat Hall].
      { rewrite length_app. simpl. lia. }
      split; [|done]. by rewrite Hcat, <- app_assoc.
Qed.

Lemma rejoin_respace u :
  32 <= length u ->
  startswith u (str_of "/") = false ->
  Forall (fun c => is_newline c = false) (drop 32 u) ->
  rejoin_description (respace u) = Ok (take 32 u ++ rstrip (drop 32 u)).
Proof.
  intros Hlen Hslash Hnl.
  assert (length (take 32 u) = 32) as Htk by (rewrite length_take; lia).
  unfold rejoin_description, respace.
  assert (startswith (take 32 u ++ " "%char :: insert_breaks 64 (drop 32 u))
            (str_of "/") = false) as ->.
  { destruct u as [|a u]; [simpl in Hlen; lia|]. done. }
  rewrite lookup_app_r by lia. rewrite Htk. simpl lookup.
  change (assert (is_blank " "%char)) with (Ok tt). simpl mbind.
  rewrite take_app_length' by done.
  assert (drop 33 (take 32 u ++ " "%char :: insert_breaks 64 (drop 32 u))
          = insert_breaks 64 (drop 32 u)) as ->.
  { change 33 with (32 + 1). rewrite <- drop_drop.
    by rewrite (drop_app_length' (take 32 u) _ 32). }
  rewrite rstrip_insert_breaks.
  destruct (findall_insert_breaks (rstrip (drop 32 u)) [] 64) as [Hcat Hall].
  { by apply rstrip_Forall. }
  { done. }
  cbv zeta in Hcat, Hall. rewrite Hall, Hcat. done.
Qed.

Lemma rejoin_slash s :
  startswith s (str_of "/") = true -> rejoin_description s = Ok s.
Proof. intros H. unfold rejoin_description. by rewrite H. Qed.

(** C2, as stated, fails: trailing whitespace after the head is not
    recovered.  The unspaced text below ends in a blank; rejoining its
    spaced form drops that blank. *)
Lemma rejoin_roundtrip_counterexample :
  let u := str_of "aaaaaaaaaaaaaaaaaaaaaaaaaaaaaaaab " in
  32 <= length u /\ startswith u (str_of "/") = false /\
  rejoin_description (respace u)
    = Ok (str_of "aaaaaaaaaaaaaaaaaaaaaaaaaaaaaaaab") /\
  rejoin_description (respace u) <> Ok u.
Proof. vm_compute. repeat split; try lia; congruence. Qed.

(** C2 (amended): for every text [u] of at least 32 characters that does
    not start with a slash and has no line feed after its 32-character
    head, rejoining the text with the spacing pattern re-inserted returns
    [u] with the trailing whitespace of the part after the head removed;
    in particular it returns [u] itself when that part does not end in
    whitespace.  A text that starts with a slash is returned unchanged. *)
Theorem rejoin_roundtrip :
  (forall u,
     32 <= length u ->
     startswith u (str_of "/") = false ->
     Forall (fun c => is_newline c = false) (drop 32 u) ->
     rejoin_description (respace u) = Ok (take 32 u ++ rstrip (drop 32 u))
     /\ (rstrip (drop 32 u) = drop 32 u ->
         rejoin_description (respace u) = Ok u)) /\
  (forall s, startswith s (str_of "/") = true ->
     rejoin_description s = Ok s).
Proof.
  split; [|apply rejoin_slash].
  intros u Hlen Hslash Hnl.
  pose proof (rejoin_respace u Hlen Hslash Hnl) as H.
  split; [done|]. intros Hr. by rewrite H, Hr, take_drop.
Qed.

Lemma rejoin_roundtrip_witness :
  let u := str_of "SEPA Overboeking                IBAN: NL01ABNA0123456789        BIC: ABNANL2A                   Naam: J SMITH" in
  rejoin_description (respace u) = Ok u /\
  rejoin_description (str_of "/TRTP/iDEAL") = Ok (str_of "/TRTP/iDEAL").
Proof.
  intros u. split.
  - apply (proj1 rejoin_roundtrip u).
    + vm_compute. lia.
    + reflexivity.
    + vm_compute. repeat constructor.
    + reflexivity.
  - apply (proj2 rejoin_roundtrip). reflexivity.
Defined.

(** C10: a text that does not start with a slash and has at most 32
    characters makes [rejoin_description] raise [IndexError] (from
    [s[32]]), not [AssertionError]. *)
Theorem rejoin_short_IndexError s :
  startswith s (str_of "/") = false ->
  length s <= 32 ->
  rejoin_description s = Raise IndexError.
Proof.
  intros Hslash Hlen. unfold rejoin_description. rewrite Hslash.
  rewrite (lookup_ge_None_2 s 32) by lia. done.
Qed.

Lemma rejoin_short_IndexError_witness :
  rejoin_description (str_of "SEPA Overboeking") = Raise IndexError.
Proof.
  apply rejoin_short_IndexError.
  - reflexivity.
  - vm_compute. lia.
Defined.

(** ** parse_description: the fallback *)

Lemma dict_of_two (k1 k2 v1 v2 : list ascii) :
  dict_of [(k1, v1); (k2, v2)] = <[k2 := v2]> (<[k1 := v1]> ∅).
Proof. reflexivity. Qed.

(** C1: a description that does not start with a slash and triggers none
    of the known sub-formats is decoded without an exception into a
    mapping with exactly the two keys ["type"] and ["description"]: the
    first 32 characters and the remainder, each with its trailing
    whitespace removed; the only effect is the printed notice. *)
Theorem parse_description_fallback s :
  let head := rstrip (take 32 s) in
  let tail := rstrip (drop 32 s) in
  startswith s (str_of "/") = false ->
  startswith s (str_of "ABN AMRO Bank") = false ->
  startswith head (str_of "BEA ") = false ->
  startswith head (str_of "BEA, ") = false ->
  startswith head (str_of "GEA, ") = false ->
  startswith head (str_of "SEPA ") = false ->
  startswith head (str_of "CREDIT INTEREST") = false ->
  startswith head (str_of "Basic interest") = false ->
  startswith head (str_of "Maandpremie ") = false ->
  startswith head (str_of "Uitbetaling pakketkorting") = false ->
  startswith head (str_of "PAKKETVERZ. POLISNR.") = false ->
  exists d : gmap (list ascii) (list ascii),
    parse_description s = ([UnexpectedFormat s], Ok d) /\
    dom d = {[ str_of "type"; str_of "description" ]} /\
    size d = 2 /\
    d !! str_of "type" = Some head /\
    d !! str_of "description" = Some tail.
Proof.
  intros head tail H0 H1 H2 H3 H4 H5 H6 H7 H8 H9 H10.
  exists (dict_of [(str_of "type", head); (str_of "description", tail)]).
  assert (str_of "type" <> str_of "description") as Hne by done.
  split; [|rewrite dict_of_two; split; [|split; [|split]]].
  - unfold parse_description. fold head. fold tail.
    by rewrite H0, H1, H2, H3, H4, H5, H6, H7, H8, H9, H10.
  - rewrite !dom_insert_L. set_solver.
  - rewrite map_size_insert_None by (by rewrite lookup_insert_ne).
    by rewrite map_size_insert_None, map_size_empty.
  - rewrite lookup_insert_ne by done. apply lookup_insert_eq.
  - apply lookup_insert_eq.
Qed.

Lemma parse_description_fallback_witness :
  exists d : gmap (list ascii) (list ascii),
    parse_description (str_of "zzz this is not a known format")
      = ([UnexpectedFormat (str_of "zzz this is not a known format")], Ok d)
    /\ dom d = {[ str_of "type"; str_of "description" ]}
    /\ size d = 2
    /\ d !! str_of "type" = Some (str_of "zzz this is not a known format")
    /\ d !! str_of "description" = Some (str_of "").
Proof.
  apply (parse_description_fallback
           (str_of "zzz this is not a known format")); reflexivity.
Defined.

(** ** parse_description: the slash-delimited format *)

Lemma list_pop_app {A} (l : list A) z : list_pop (l ++ [z]) = Some (l, z).
Proof.
  induction l as [|a l IH]; [done|].
  simpl. by rewrite IH.
Qed.

Lemma list_pop_Some {A} (l init : list A) z :
  list_pop l = Some (init, z) -> l = init ++ [z].
Proof.
  revert init; induction l as [|a l IH]; intros init; [done|].
  simpl. destruct (list_pop l) as [[i y]|] eqn:E.
  - intros [= <- <-]. by rewrite (IH i eq_refl).
  - intros [= <- <-]. destruct l as [|b l]; [done|].
    simpl in E. by destruct (list_pop l) as [[? ?]|].
Qed.

Lemma evens_app_one {A} (l : list A) x :
  evens (l ++ [x]) = if Nat.even (length l) then evens l ++ [x] else evens l.
Proof.
  assert (forall n (l : list A), length l <= n ->
    evens (l ++ [x]) =
    if Nat.even (length l) then evens l ++ [x] else evens l) as H.
  { clear l. induction n as [|n IH]; intros l Hl.
    - destruct l; [done | simpl in Hl; lia].
    - destruct l as [|a [|b l]]; [done | done |].
      change (evens ((a :: b :: l) ++ [x])) with (a :: evens (l ++ [x])).
      rewrite (IH l) by (simpl in Hl; lia).
      change (Nat.even (length (a :: b :: l))) with (Nat.even (length l)).
      by destruct (Nat.even (length l)). }
  by apply (H (length l)).
Qed.

Lemma split_on_nonempty sep s : split_on sep s <> [].
Proof.
  destruct s as [|c s]; simpl; [done|].
  destruct (chr_eqb c sep); [done|]. by destruct (split_on sep s).
Qed.

Lemma slash_step_length acc p acc' :
  slash_step acc p = Ok acc' ->
  length acc' = length acc + (if Nat.even (length acc) && negb (is_tag p)
                              then 0 else 1).
Proof.
  unfold slash_step.
  destruct (Nat.even (length acc)) eqn:Hev; simpl.
  - destruct (is_tag p); simpl.
    + intros [= <-]. by rewrite length_app.
    + destruct (list_pop acc) as [[init z]|] eqn:E; [|done].
      intros [= <-]. apply list_pop_Some in E as ->.
      rewrite !length_app. simpl. lia.
  - intros [= <-]. by rewrite length_app.
Qed.

Lemma slash_step_tags acc p acc' :
  Forall (fun t => is_tag t = true) (evens acc) ->
  slash_step acc p = Ok acc' ->
  Forall (fun t => is_tag t = true) (evens acc').
Proof.
  intros Hacc. unfold slash_step.
  destruct (Nat.even (length acc)) eqn:Hev.
  - destruct (is_tag p) eqn:Hp.
    + intros [= <-]. rewrite evens_app_one, Hev.
      apply Forall_app. split; [done | by constructor].
    + destruct (list_pop acc) as [[init z]|] eqn:E; [|done].
      intros [= <-]. apply list_pop_Some in E as ->.
      rewrite evens_app_one in Hacc |- *.
      rewrite length_app in Hev. simpl in Hev.
      rewrite Nat.add_1_r, Nat.even_succ, <- Nat.negb_even in Hev.
      destruct (Nat.even (length init)); [done|]. done.
  - intros [= <-]. by rewrite evens_app_one, Hev.
Qed.

Lemma slash_loop_tags segs : forall acc parts,
  Forall (fun t => is_tag t = true) (evens acc) ->
  slash_loop acc segs = Ok parts ->
  Forall (fun t => is_tag t = true) (evens parts).
Proof.
  induction segs as [|p segs IH]; intros acc parts Hacc; simpl.
  - by intros [= <-].
  - destruct (slash_step acc p) as [acc'|e] eqn:E; [|done].
    simpl. apply IH. by eapply slash_step_tags.
Qed.

Lemma is_tag_key_map t :
  is_tag t = true ->
  exists name, key_map !! t = Some name /\
    (name = str_of "type" <-> t = str_of "TRTP") /\
    (name = [] <-> t = str_of "ORDP" \/ t = str_of "ID").
Proof.
  unfold is_tag. rewrite bool_decide_eq_true. unfold slash_tags.
  rewrite !elem_of_cons, elem_of_nil.
  intros H.
  repeat (destruct H as [-> | H];
    [eexists; split; [vm_compute; reflexivity|];
     split; split; try discriminate; try tauto;
     intros [?|?]; discriminate |]).
  done.
Qed.

(** With a tag at every tag position, the pairing succeeds exactly on an
    even number of segments, and yields a ["type"] entry exactly when a
    tag position holds ["TRTP"]. *)
Lemma slash_pairs_spec n : forall parts,
  length parts <= n ->
  Forall (fun t => is_tag t = true) (evens parts) ->
  if Nat.even (length parts)
  then exists pairs, slash_pairs parts = Ok pairs /\
         (str_of "TRTP" ∈ evens parts <-> str_of "type" ∈ pairs.*1)
  else slash_pairs parts = Raise ValueError.
Proof.
  induction n as [|n IH]; intros parts Hlen Htags.
  - destruct parts; [|simpl in Hlen; lia].
    exists []. split; [done|]. simpl. by rewrite !elem_of_nil.
  - destruct parts as [|k [|v rest]].
    + exists []. split; [done|]. simpl. by rewrite !elem_of_nil.
    + done.
    + change (evens (k :: v :: rest)) with (k :: evens rest) in *.
      apply Forall_cons in Htags as [Hk Hrest].
      destruct (is_tag_key_map k Hk) as (name & Hname & Hty & Hemp).
      specialize (IH rest). simpl in Hlen.
      specialize (IH ltac:(lia) Hrest).
      change (Nat.even (length (k :: v :: rest)))
        with (Nat.even (length rest)).
      change (slash_pairs (k :: v :: rest))
        with (name ← getitem key_map k; pairs ← slash_pairs rest;
              Ok (if bool_decide (name = []) then pairs
                  else (name, rstrip v) :: pairs)).
      unfold getitem. rewrite Hname. simpl.
      destruct (Nat.even (length rest)).
      * destruct IH as (pairs & -> & Hiff). simpl.
        eexists. split; [done|].
        rewrite elem_of_cons, Hiff.
        case_bool_decide as Hn.
        -- split; [|tauto]. intros [<- | ?]; [|done].
           subst name. destruct Hty as [_ Hty]. by specialize (Hty eq_refl).
        -- rewrite fmap_cons, elem_of_cons. simpl.
           split; (intros [?|?]; [left|right]); try done.
           ++ symmetry. by apply Hty.
           ++ symmetry. by apply Hty.
      * by rewrite IH.
Qed.

Lemma dict_update_snoc {V} (d : gmap (list ascii) V) l k v :
  dict_update d (l ++ [(k, v)]) = <[k := v]> (dict_update d l).
Proof. unfold dict_update. by rewrite fold_left_app. Qed.

Lemma dict_update_dom {V} (l : list (list ascii * V)) :
  forall (d : gmap (list ascii) V) k,
  k ∈ dom (dict_update d l) <-> k ∈ dom d \/ k ∈ l.*1.
Proof.
  induction l as [|[k' v'] l IH]; intros d k; simpl.
  - rewrite elem_of_nil. tauto.
  - unfold dict_update in *. simpl.
    rewrite IH, dom_insert, elem_of_cons, elem_of_union, elem_of_singleton.
    tauto.
Qed.

(** C9, as stated, fails: the description ["/IBAN"] is split into the one
    segment ["IBAN"], a recognised tag, and no tag position holds
    ["TRTP"]; yet the exception is [ValueError] (from unpacking the
    incomplete last pair), not a key-lookup error. *)
Lemma parse_slash_partial_counterexample :
  slash_loop [] (split_on "/"%char (drop 1 (str_of "/IBAN")))
    = Ok [str_of "IBAN"] /\
  (str_of "TRTP" ∉ evens [str_of "IBAN"]) /\
  parse_description (str_of "/IBAN") = ([], Raise ValueError) /\
  parse_description (str_of "/IBAN") <> ([], Raise KeyError).
Proof.
  split; [reflexivity|]. split; [|split; [reflexivity|discriminate]].
  simpl. rewrite elem_of_cons, elem_of_nil. intros [?|?]; done.
Qed.

(** C9 (amended): [parse_description] is partial on slash-prefixed
    input.  When the first segment after the leading slash is not one of
    the ten tags, it raises [IndexError] (pop from an empty list).  When
    the segment loop succeeds with an even number of merged segments (a
    value for every tag) and no tag position holds ["TRTP"], the pairs
    are built and [data["type"]] raises [KeyError]. *)
Theorem parse_slash_partial :
  (forall s,
     is_tag (hd [] (split_on "/"%char s)) = false ->
     parse_description ("/"%char :: s) = ([], Raise IndexError)) /\
  (forall s parts,
     slash_loop [] (split_on "/"%char s) = Ok parts ->
     Nat.even (length parts) = true ->
     str_of "TRTP" ∉ evens parts ->
     is_Ok (slash_pairs parts) = true /\
     parse_description ("/"%char :: s) = ([], Raise KeyError)).
Proof.
  split.
  - intros s Hseg. unfold parse_description.
    change (startswith ("/"%char :: s) (str_of "/")) with true. cbv iota.
    unfold parse_slash. change (drop 1 ("/"%char :: s)) with s.
    destruct (split_on "/"%char s) as [|p segs] eqn:E.
    { by apply split_on_nonempty in E. }
    simpl in Hseg. simpl. unfold slash_step. simpl. by rewrite Hseg.
  - intros s parts Hloop Heven Hno.
    pose proof (slash_loop_tags _ [] parts (Forall_nil_2 _) Hloop) as Htags.
    pose proof (slash_pairs_spec (length parts) parts (le_n _) Htags) as Hp.
    rewrite Heven in Hp. destruct Hp as (pairs & Hpairs & Hiff).
    split; [by rewrite Hpairs|].
    unfold parse_description.
    change (startswith ("/"%char :: s) (str_of "/")) with true. cbv iota.
    unfold parse_slash. change (drop 1 ("/"%char :: s)) with s.
    rewrite Hloop. simpl. rewrite Hpairs. simpl.
    unfold getitem.
    destruct (dict_of pairs !! str_of "type") as [ty|] eqn:E; [|done].
    exfalso. apply Hno, Hiff.
    assert (str_of "type" ∈ dom (dict_of pairs)) as Hd.
    { apply elem_of_dom. by rewrite E. }
    unfold dict_of in Hd. apply dict_update_dom in Hd as [Hd|Hd]; [|done].
    by rewrite dom_empty, elem_of_empty in Hd.
Qed.

Lemma parse_slash_partial_witness :
  parse_description (str_of "/XYZ/abc") = ([], Raise IndexError) /\
  parse_description (str_of "/IBAN/NL01ABNA0123456789/BIC/ABNANL2A")
    = ([], Raise KeyError).
Proof.
  split.
  - apply (proj1 parse_slash_partial (str_of "XYZ/abc")). reflexivity.
  - apply (proj2 parse_slash_partial
             (str_of "IBAN/NL01ABNA0123456789/BIC/ABNANL2A")
             [str_of "IBAN"; str_of "NL01ABNA0123456789";
              str_of "BIC"; str_of "ABNANL2A"]).
    + reflexivity.
    + reflexivity.
    + change (evens [str_of "IBAN"; str_of "NL01ABNA0123456789";
                     str_of "BIC"; str_of "ABNANL2A"])
        with [str_of "IBAN"; str_of "BIC"].
      rewrite !elem_of_cons, elem_of_nil.
      intros [?|[?|?]]; done.
Defined.

(** *** Segments of a rendered description *)

Lemma split_on_app_sep sep a b :
  split_on sep (a ++ sep :: b) = split_on sep a ++ split_on sep b.
Proof.
  induction a as [|c a IH]; simpl.
  - by rewrite chr_eqb_refl.
  - destruct (chr_eqb c sep); [by rewrite IH|].
    rewrite IH. pose proof (split_on_nonempty sep a) as Hne.
    by destruct (split_on sep a).
Qed.

Lemma is_tag_elem t : is_tag t = true <-> t ∈ slash_tags.
Proof. unfold is_tag. by rewrite bool_decide_eq_true. Qed.

Lemma split_tag t : is_tag t = true -> split_on "/"%char t = [t].
Proof.
  rewrite is_tag_elem. unfold slash_tags.
  rewrite !elem_of_cons, elem_of_nil.
  intros H. repeat (destruct H as [-> | H]; [reflexivity|]). done.
Qed.

Lemma fold_merge_split v : forall z,
  fold_left merge_seg (tl (split_on "/"%char v))
    (z ++ hd [] (split_on "/"%char v)) = z ++ v.
Proof.
  induction v as [|c v IH]; intros z; simpl.
  - done.
  - pose proof (split_on_nonempty "/"%char v) as Hne.
    destruct (chr_eqb c "/"%char) eqn:Ec.
    + apply chr_eqb_eq in Ec as ->. simpl.
      destruct (split_on "/"%char v) as [|p ps] eqn:E; [done|].
      simpl. specialize (IH (z ++ str_of "/")). simpl in IH.
      unfold merge_seg at 2. rewrite app_nil_r.
      rewrite <- !app_assoc in IH. exact IH.
    + destruct (split_on "/"%char v) as [|p ps] eqn:E; [done|].
      simpl. specialize (IH (z ++ [c])). simpl in IH.
      rewrite <- !app_assoc in IH. exact IH.
Qed.

Lemma slash_loop_merge conts : forall acc z more,
  Nat.even (length (acc ++ [z])) = true ->
  forallb (fun seg => negb (is_tag seg)) conts = true ->
  slash_loop (acc ++ [z]) (conts ++ more)
  = slash_loop (acc ++ [fold_left merge_seg conts z]) more.
Proof.
  induction conts as [|c conts IH]; intros acc z more Hev Hnt; [done|].
  simpl in Hnt. apply andb_true_iff in Hnt as [Hc Hnt].
  apply negb_true_iff in Hc.
  change (slash_loop (acc ++ [z]) ((c :: conts) ++ more))
    with (parts' ← slash_step (acc ++ [z]) c;
          slash_loop parts' (conts ++ more)).
  unfold slash_step. rewrite Hev, Hc, list_pop_app.
  change (slash_loop (acc ++ [merge_seg z c]) (conts ++ more)
          = slash_loop (acc ++ [fold_left merge_seg (c :: conts) z]) more).
  apply IH; [|done]. by rewrite length_app in Hev |- *.
Qed.

Lemma slash_loop_field acc t v more :
  Nat.even (length acc) = true ->
  is_tag t = true -> value_ok v = true ->
  slash_loop acc (t :: split_on "/"%char v ++ more)
  = slash_loop (acc ++ [t; v]) more.
Proof.
  intros Hev Ht Hv.
  change (slash_loop acc (t :: split_on "/"%char v ++ more))
    with (parts' ← slash_step acc t;
          slash_loop parts' (split_on "/"%char v ++ more)).
  unfold slash_step at 1. rewrite Hev, Ht.
  change (slash_loop (acc ++ [t]) (split_on "/"%char v ++ more)
          = slash_loop (acc ++ [t; v]) more).
  pose proof (fold_merge_split v []) as Hv'. unfold value_ok in Hv.
  destruct (split_on "/"%char v) as [|p ps] eqn:E.
  { by apply split_on_nonempty in E. }
  simpl in Hv, Hv'.
  assert (Nat.even (length (acc ++ [t])) = false) as Hodd.
  { rewrite length_app. simpl.
    by rewrite Nat.add_1_r, Nat.even_succ, <- Nat.negb_even, Hev. }
  change (slash_loop (acc ++ [t]) ((p :: ps) ++ more))
    with (parts' ← slash_step (acc ++ [t]) p;
          slash_loop parts' (ps ++ more)).
  unfold slash_step. rewrite Hodd.
  change (slash_loop ((acc ++ [t]) ++ [p]) (ps ++ more)
          = slash_loop (acc ++ [t; v]) more).
  rewrite slash_loop_merge; [|
    rewrite !length_app; simpl; rewrite length_app in Hodd; simpl in Hodd;
    by rewrite Nat.add_1_r, Nat.even_succ, <- Nat.negb_even, Hodd | done].
  by rewrite Hv', <- app_assoc.
Qed.

Lemma flat_fields_length (kvs : list (list ascii * list ascii)) acc :
  Nat.even (length acc) = true ->
  Nat.even (length (acc ++ flat_map (fun kv => [kv.1; kv.2]) kvs)) = true.
Proof.
  intros Hev. rewrite length_app, Nat.even_add, Hev.
  induction kvs as [|kv kvs IH]; [done|]. simpl. exact IH.
Qed.

Lemma slash_loop_fields kvs : forall acc,
  Nat.even (length acc) = true ->
  Forall (fun kv => is_tag kv.1 = true /\ value_ok kv.2 = true) kvs ->
  slash_loop acc (flat_map (fun kv => kv.1 :: split_on "/"%char kv.2) kvs)
  = Ok (acc ++ flat_map (fun kv => [kv.1; kv.2]) kvs).
Proof.
  induction kvs as [|[t v] kvs IH]; intros acc Hev Hok.
  - simpl. by rewrite app_nil_r.
  - apply Forall_cons in Hok as [[Ht Hv] Hok]. simpl in Ht, Hv.
    change (flat_map (fun kv => kv.1 :: split_on "/"%char kv.2)
              ((t, v) :: kvs))
      with (t :: split_on "/"%char v
              ++ flat_map (fun kv => kv.1 :: split_on "/"%char kv.2) kvs).
    rewrite slash_loop_field by done.
    rewrite IH; [|rewrite length_app; simpl;
                  by rewrite Nat.add_comm | done].
    change (flat_map (fun kv => [kv.1; kv.2]) ((t, v) :: kvs))
      with ([t; v] ++ flat_map (fun kv => [kv.1; kv.2]) kvs).
    by rewrite app_assoc.
Qed.

Lemma render_fields_cons t w kvs :
  render_fields ((t, w) :: kvs)
  = "/"%char :: t ++ "/"%char :: w ++ render_fields kvs.
Proof.
  unfold render_fields. simpl. by rewrite <- app_assoc.
Qed.

Lemma split_render kvs : forall v,
  Forall (fun kv => is_tag kv.1 = true /\ value_ok kv.2 = true) kvs ->
  split_on "/"%char (v ++ render_fields kvs)
  = split_on "/"%char v
    ++ flat_map (fun kv => kv.1 :: split_on "/"%char kv.2) kvs.
Proof.
  induction kvs as [|[t w] kvs IH]; intros v Hok.
  - unfold render_fields. simpl. by rewrite !app_nil_r.
  - apply Forall_cons in Hok as [[Ht Hw] Hok]. simpl in Ht.
    rewrite render_fields_cons.
    rewrite split_on_app_sep. f_equal.
    rewrite split_on_app_sep, (split_tag t Ht), (IH w Hok). done.
Qed.

(** *** From segments to the mapping *)

Lemma slash_pairs_fields kvs :
  Forall (fun kv => is_tag kv.1 = true /\ value_ok kv.2 = true) kvs ->
  slash_pairs (flat_map (fun kv => [kv.1; kv.2]) kvs)
  = Ok (flat_map named_field kvs).
Proof.
  induction kvs as [|[t v] kvs IH]; intros Hok; [done|].
  apply Forall_cons in Hok as [[Ht _] Hok]. simpl in Ht.
  destruct (is_tag_key_map t Ht) as (name & Hname & _).
  change (slash_pairs (flat_map (fun kv => [kv.1; kv.2]) ((t, v) :: kvs)))
    with (name ← getitem key_map t;
          pairs ← slash_pairs (flat_map (fun kv => [kv.1; kv.2]) kvs);
          Ok (if bool_decide (name = []) then pairs
              else (name, rstrip v) :: pairs)).
  unfold getitem. rewrite Hname, (IH Hok).
  change (flat_map named_field ((t, v) :: kvs))
    with (named_field (t, v) ++ flat_map named_field kvs).
  unfold named_field. simpl fst. simpl snd. rewrite Hname.
  simpl. by case_bool_decide.
Qed.

Lemma dict_update_lookup_Some {V} (l : list (list ascii * V)) :
  forall (d : gmap (list ascii) V) k v,
  dict_update d l !! k = Some v -> d !! k = Some v \/ (k, v) ∈ l.
Proof.
  induction l as [|[k' v'] l IH]; intros d k v; simpl; [by left|].
  intros H. apply IH in H as [H|H].
  - simpl in H. destruct (decide (k' = k)) as [->|Hne].
    + rewrite lookup_insert_eq in H. injection H as ->.
      right. apply elem_of_cons. by left.
    + rewrite lookup_insert_ne in H by done. by left.
  - right. apply elem_of_cons. by right.
Qed.

Lemma key_map_elem t n :
  key_map !! t = Some n ->
  (t, n) ∈ [(str_of "TRTP", str_of "type");
            (str_of "CSID", str_of "Incassant");
            (str_of "NAME", str_of "Naam");
            (str_of "REMI", str_of "Omschrijving");
            (str_of "MARF", str_of "Machtiging");
            (str_of "EREF", str_of "Kenmerk");
            (str_of "IBAN", str_of "IBAN");
            (str_of "BIC", str_of "BIC");
            (str_of "ORDP", str_of "");
            (str_of "ID", str_of "")].
Proof.
  intros H. apply dict_update_lookup_Some in H as [H|H]; [|done].
  by rewrite lookup_empty in H.
Qed.

Lemma key_map_inj t1 t2 n :
  key_map !! t1 = Some n -> key_map !! t2 = Some n -> n <> [] -> t1 = t2.
Proof.
  intros H1 H2 Hn. apply key_map_elem in H1, H2.
  rewrite !elem_of_cons, elem_of_nil in H1, H2.
  repeat (destruct H1 as [H1|H1]; [injection H1 as -> ->|]); try done.
  all: repeat (destruct H2 as [H2|H2];
        [vm_compute in H2; by simplify_eq |]); try done.
Qed.

Lemma key_map_names t n :
  key_map !! t = Some n -> n <> [] -> n ∈ slash_names.
Proof.
  intros H Hn. apply key_map_elem in H.
  rewrite !elem_of_cons, elem_of_nil in H. unfold slash_names.
  rewrite !elem_of_cons, elem_of_nil.
  repeat (destruct H as [H|H]; [injection H as -> ->; tauto|]). done.
Qed.

Lemma last_value_snoc tag kvs (kv : list ascii * list ascii) :
  last_value tag (kvs ++ [kv])
  = if bool_decide (kv.1 = tag) then Some kv.2 else last_value tag kvs.
Proof. unfold last_value. by rewrite fold_left_app. Qed.

Lemma dict_of_fields kvs :
  Forall (fun kv => is_tag kv.1 = true /\ value_ok kv.2 = true) kvs ->
  let d := dict_of (flat_map named_field kvs) in
  (forall tag name, key_map !! tag = Some name -> name <> [] ->
     d !! name = rstrip <$> last_value tag kvs) /\
  (forall k, is_Some (d !! k) -> k ∈ slash_names).
Proof.
  induction kvs as [|[t v] kvs IH] using rev_ind; intros Hok d.
  - change d with (∅ : gmap (list ascii) (list ascii)).
    split; [intros; apply lookup_empty|].
    intros k [x Hx]. by rewrite lookup_empty in Hx.
  - apply Forall_app in Hok as [Hok Hkv].
    apply Forall_cons in Hkv as [[Ht _] _]. simpl in Ht.
    destruct (IH Hok) as [IHa IHb]. clear IH.
    destruct (is_tag_key_map t Ht) as (n & Hn & _).
    assert (d = dict_update (dict_of (flat_map named_field kvs))
                  (named_field (t, v))) as Hd.
    { unfold d, dict_of, dict_update.
      rewrite flat_map_app, fold_left_app. simpl. by rewrite app_nil_r. }
    unfold named_field in Hd. simpl in Hd. rewrite Hn in Hd.
    split.
    + intros tag name Htag Hname.
      rewrite last_value_snoc. simpl.
      rewrite Hd. case_bool_decide as Hemp.
      * case_bool_decide as Htt.
        -- subst t. rewrite Hn in Htag. by injection Htag as <-.
        -- by apply IHa.
      * unfold dict_update. simpl.
        destruct (decide (n = name)) as [->|Hne].
        -- rewrite lookup_insert_eq.
           rewrite (key_map_inj t tag name Hn Htag Hname).
           by rewrite bool_decide_eq_true_2.
        -- rewrite lookup_insert_ne by done.
           case_bool_decide as Htt.
           ++ subst t. rewrite Hn in Htag. by injection Htag as <-.
           ++ by apply IHa.
    + intros k Hk. rewrite Hd in Hk. case_bool_decide as Hemp.
      * by apply IHb.
      * unfold dict_update in Hk. simpl in Hk.
        destruct (decide (n = k)) as [<-|Hne].
        -- by apply (key_map_names t).
        -- rewrite lookup_insert_ne in Hk by done. by apply IHb.
Qed.

Lemma parse_slash_fields kvs :
  kvs <> [] ->
  Forall (fun kv => is_tag kv.1 = true /\ value_ok kv.2 = true) kvs ->
  parse_description (render_fields kvs)
  = ([], let data := dict_of (flat_map named_field kvs) in
         ty ← getitem data (str_of "type");
         Ok (if bool_decide (ty = str_of "iDEAL")
             then <[str_of "type" := str_of "SEPA iDEAL"]> data
             else data)).
Proof.
  intros Hne Hok. destruct kvs as [|[t v] kvs]; [done|].
  pose proof Hok as Hok'.
  apply Forall_cons in Hok' as [[Ht Hv] Hrest]. simpl in Ht, Hv.
  unfold parse_description. rewrite render_fields_cons.
  change (startswith ("/"%char :: t ++ "/"%char :: v ++ render_fields kvs)
            (str_of "/")) with true.
  cbv iota. unfold parse_slash.
  change (drop 1 ("/"%char :: t ++ "/"%char :: v ++ render_fields kvs))
    with (t ++ "/"%char :: v ++ render_fields kvs).
  rewrite split_on_app_sep, (split_tag t Ht), (split_render kvs v Hrest).
  change ([t] ++ split_on "/"%char v
            ++ flat_map (fun kv => kv.1 :: split_on "/"%char kv.2) kvs)
    with (flat_map (fun kv => kv.1 :: split_on "/"%char kv.2)
            ((t, v) :: kvs)).
  rewrite (slash_loop_fields _ [] eq_refl Hok).
  change ([] ++ flat_map (fun kv => [kv.1; kv.2]) ((t, v) :: kvs))
    with (flat_map (fun kv => [kv.1; kv.2]) ((t, v) :: kvs)).
  change (?m ≫= ?f) with (result_bind _ _ f m). unfold result_bind at 1.
  by rewrite (slash_pairs_fields _ Hok).
Qed.

(** C3: the slash-delimited format.  A description written as
    [/tag/value/tag/value...] with tags among the ten recognised ones,
    whose values may contain slashes as long as no segment after such a
    slash is itself a tag (those segments are merged back into the value
    with a literal slash), and with a [TRTP] field, is decoded without an
    exception: every field other than [ORDP] and [ID] is found under its
    name with the value of the last field of that tag, trailing
    whitespace removed; ["type"] holds the [TRTP] value, rewritten to
    ["SEPA iDEAL"] when it is ["iDEAL"]; and no other key is present, so
    the [ORDP] and [ID] values are dropped.  The spec's example yields the
    stated type, Incassant and BIC. *)
Theorem parse_description_slash :
  (forall kvs trtp,
     Forall (fun kv => is_tag kv.1 = true /\ value_ok kv.2 = true) kvs ->
     last_value (str_of "TRTP") kvs = Some trtp ->
     exists d : gmap (list ascii) (list ascii),
       parse_description (render_fields kvs) = ([], Ok d) /\
       d !! str_of "type"
         = Some (if bool_decide (rstrip trtp = str_of "iDEAL")
                 then str_of "SEPA iDEAL" else rstrip trtp) /\
       (forall tag name,
          key_map !! tag = Some name -> name <> [] ->
          name <> str_of "type" ->
          d !! name = rstrip <$> last_value tag kvs) /\
       (forall k, is_Some (d !! k) -> k ∈ slash_names)) /\
  (exists d : gmap (list ascii) (list ascii),
     parse_description
       (str_of "/TRTP/SEPA Incasso algemeen doorlopend/CSID/NL00ZZZ123456789012/NAME/Albert Heijn B.V./MARF/AH0.../REMI/Foobarment/IBAN/NL00INGB0123456789/BIC/INGBNL2A/EREF/AB0123456789")
       = ([], Ok d) /\
     d !! str_of "type" = Some (str_of "SEPA Incasso algemeen doorlopend") /\
     d !! str_of "Incassant" = Some (str_of "NL00ZZZ123456789012") /\
     d !! str_of "BIC" = Some (str_of "INGBNL2A")).
Proof.
  assert (forall kvs trtp,
     Forall (fun kv => is_tag kv.1 = true /\ value_ok kv.2 = true) kvs ->
     last_value (str_of "TRTP") kvs = Some trtp ->
     exists d : gmap (list ascii) (list ascii),
       parse_description (render_fields kvs) = ([], Ok d) /\
       d !! str_of "type"
         = Some (if bool_decide (rstrip trtp = str_of "iDEAL")
                 then str_of "SEPA iDEAL" else rstrip trtp) /\
       (forall tag name,
          key_map !! tag = Some name -> name <> [] ->
          name <> str_of "type" ->
          d !! name = rstrip <$> last_value tag kvs) /\
       (forall k, is_Some (d !! k) -> k ∈ slash_names)) as Hgen.
  - intros kvs trtp Hok Htrtp.
    assert (kvs <> []) as Hne by (by intros ->).
    rewrite (parse_slash_fields kvs Hne Hok).
    destruct (dict_of_fields kvs Hok) as [Hlook Hdom].
    assert (key_map !! str_of "TRTP" = Some (str_of "type")) as Hk
      by reflexivity.
    pose proof (Hlook _ _ Hk ltac:(done)) as Hty.
    rewrite Htrtp in Hty. cbv zeta. unfold getitem. rewrite Hty.
    eexists. split; [reflexivity|].
    simpl fmap. case_bool_decide as Hideal.
    + split; [apply lookup_insert_eq|]. split.
      * intros tag name Htag Hn Hnt.
        rewrite lookup_insert_ne by done. by apply Hlook.
      * intros k Hk'. destruct (decide (str_of "type" = k)) as [<-|Hkn].
        -- unfold slash_names. apply elem_of_cons. by left.
        -- rewrite lookup_insert_ne in Hk' by done. by apply Hdom.
    + split; [done|]. split; [|done].
      intros tag name Htag Hn Hnt. by apply Hlook.
  - split; [exact Hgen|].
    destruct (Hgen
      [(str_of "TRTP", str_of "SEPA Incasso algemeen doorlopend");
       (str_of "CSID", str_of "NL00ZZZ123456789012");
       (str_of "NAME", str_of "Albert Heijn B.V.");
       (str_of "MARF", str_of "AH0...");
       (str_of "REMI", str_of "Foobarment");
       (str_of "IBAN", str_of "NL00INGB0123456789");
       (str_of "BIC", str_of "INGBNL2A");
       (str_of "EREF", str_of "AB0123456789")]
      (str_of "SEPA Incasso algemeen doorlopend"))
      as (d & Hd & Hty & Hlook & _).
    + repeat constructor.
    + reflexivity.
    + exists d. split; [exact Hd|]. split; [exact Hty|]. split.
      * apply (Hlook (str_of "CSID") (str_of "Incassant")); done.
      * apply (Hlook (str_of "BIC") (str_of "BIC")); done.
Qed.

Lemma parse_description_slash_witness :
  exists d : gmap (list ascii) (list ascii),
    parse_description
      (str_of "/TRTP/iDEAL /REMI/FOO/BAR 01-01-23/31-01-23 /ORDP//ID/99  ")
      = ([], Ok d) /\
    d !! str_of "type" = Some (str_of "SEPA iDEAL") /\
    d !! str_of "Omschrijving" = Some (str_of "FOO/BAR 01-01-23/31-01-23").
Proof.
  destruct (proj1 parse_description_slash
              [(str_of "TRTP", str_of "iDEAL ");
               (str_of "REMI", str_of "FOO/BAR 01-01-23/31-01-23 ");
               (str_of "ORDP", str_of "");
               (str_of "ID", str_of "99  ")]
              (str_of "iDEAL "))
    as (d & Hd & Hty & Hlook & _).
  - repeat constructor.
  - reflexivity.
  - exists d. split; [exact Hd|]. split; [exact Hty|].
    apply (Hlook (str_of "REMI") (str_of "Omschrijving")); done.
Defined.

(** ** money_format *)

Lemma uint_to_str_digits u :
  Forall (fun c => isdigit c = true) (uint_to_str u).
Proof. induction u; simpl; constructor; done. Qed.

Lemma str_to_uint_to_str u : str_to_uint (uint_to_str u) = Some u.
Proof. induction u; simpl; [done|..]; by rewrite IHu. Qed.

Lemma digits_value_N_to_str n : digits_value (N_to_str n) = Some n.
Proof.
  unfold digits_value, N_to_str. rewrite str_to_uint_to_str. simpl.
  by rewrite DecimalN.Unsigned.of_to.
Qed.

Lemma digits_value_zero s :
  digits_value ("0"%char :: s) = digits_value s.
Proof.
  unfold digits_value. simpl. by destruct (str_to_uint s).
Qed.

Lemma N_to_str_nonempty n : N_to_str n <> [].
Proof.
  unfold N_to_str. destruct n as [|p]; [done|].
  simpl. pose proof (DecimalPos.Unsigned.to_uint_nonnil p) as H.
  by destruct (Pos.to_uint p).
Qed.


Lemma format_2f_shape neg c e :
  exists ip fp,
    format_2f (Dec neg c e) = (if neg then str_of "-" else [])
                                ++ ip ++ "."%char :: fp /\
    ip <> [] /\ length fp = 2 /\
    Forall (fun c => isdigit c = true) (ip ++ fp) /\
    digits_value (ip ++ fp) = Some (cents c e).
Proof.
  unfold format_2f.
  pose proof (N_to_str_nonempty (cents c e)) as Hne.
  pose proof (digits_value_N_to_str (cents c e)) as Hval.
  assert (Forall (fun c => isdigit c = true) (N_to_str (cents c e))) as Hdig
    by apply uint_to_str_digits.
  set (digits := N_to_str (cents c e)) in *.
  destruct digits as [|a [|b digits']] eqn:E; [done| |].
  - (* one digit *)
    exists (str_of "0"), ["0"%char; a]. simpl.
    repeat split; try done.
    + repeat constructor. by apply Forall_cons in Hdig as [? _].
    + change (digits_value ("0"%char :: "0"%char :: [a]) = Some (cents c e)).
      by rewrite !digits_value_zero.
  - (* two digits or more *)
    set (n := length digits').
    assert (Z.to_nat (Z.of_nat (length (a :: b :: digits')) - 2) = n) as Hn.
    { simpl length. fold n. lia. }
    assert ((Z.of_nat (length (a :: b :: digits')) - 2 <? 0)%Z = false) as ->.
    { apply Z.ltb_ge. simpl length. lia. }
    rewrite Hn.
    assert (length (drop n (a :: b :: digits')) = 2) as Hfp.
    { rewrite length_drop. simpl. fold n. lia. }
    destruct (take n (a :: b :: digits')) as [|i0 ip] eqn:Etk.
    + assert (n = 0) as Hn0.
      { destruct n; [done|]. simpl in Etk. discriminate. }
      exists (str_of "0"), (a :: b :: digits').
      rewrite Hn0 in *. rewrite drop_0 in *.
      repeat split; try done.
      * by constructor.
      * change (digits_value ("0"%char :: a :: b :: digits')
                = Some (cents c e)).
        by rewrite digits_value_zero.
    + exists (i0 :: ip), (drop n (a :: b :: digits')).
      repeat split; try done.
      * by rewrite <- Etk, take_drop.
      * by rewrite <- Etk, take_drop.
Qed.




(** ** Transaction.__eq__ *)

Lemma py_and_true x y :
  py_and x y = Ok true <-> x = Ok true /\ y = Ok true.
Proof.
  unfold py_and. destruct x as [[|]|e]; simpl.
  - split; [done | by intros [_ ?]].
  - split; [done | by intros [? _]].
  - split; [done | by intros [? _]].
Qed.

Lemma Decimal_eqb_refl d :
  Decimal_eqb d d = Ok true <-> is_nan d = false.
Proof.
  destruct d as [neg c e|neg|neg [|] p]; unfold Decimal_eqb; simpl;
    split; try done; intros _; f_equal.
  - apply Z.eqb_refl.
  - by destruct neg.
Qed.

Lemma Currency_eqb_refl c : Currency_eqb c c = true.
Proof. unfold Currency_eqb. by apply bool_decide_eq_true_2. Qed.

Lemma Money_eqb_refl m :
  Money_eqb m m = Ok true <-> is_nan (amount m) = false.
Proof.
  unfold Money_eqb. rewrite py_and_true, Decimal_eqb_refl,
    Currency_eqb_refl. tauto.
Qed.

Lemma Money_eqb_not_snan m :
  is_snan (amount m) = false ->
  Money_eqb m m = Ok (negb (is_nan (amount m))).
Proof.
  unfold Money_eqb, py_and, Decimal_eqb.
  destruct (amount m) as [neg c e|neg|neg [|] p]; simpl; try done;
    intros _; rewrite ?Currency_eqb_refl.
  - by rewrite Z.eqb_refl.
  - by destruct neg.
Qed.

Lemma Transaction_eq_iff a b :
  Transaction_eq a b = Ok true <->
  tx_account a = tx_account b /\ tx_date a = tx_date b /\
  Currency_eqb (tx_currency a) (tx_currency b) = true /\
  Money_eqb (tx_amount a) (tx_amount b) = Ok true /\
  Money_eqb (tx_start_saldo a) (tx_start_saldo b) = Ok true /\
  Money_eqb (tx_end_saldo a) (tx_end_saldo b) = Ok true.
Proof.
  unfold Transaction_eq. rewrite !py_and_true.
  split.
  - intros ([= H1] & [= H2] & [= H3] & H4 & H5 & H6).
    apply Z.eqb_eq in H1. apply bool_decide_eq_true in H2. done.
  - intros (H1 & H2 & H3 & H4 & H5 & H6).
    rewrite (proj2 (Z.eqb_eq _ _) H1), (bool_decide_eq_true_2 _ H2), H3.
    done.
Qed.

Lemma Transaction_eq_refl a :
  Transaction_eq a a = Ok true <->
  is_nan (amount (tx_amount a)) = false /\
  is_nan (amount (tx_start_saldo a)) = false /\
  is_nan (amount (tx_end_saldo a)) = false.
Proof.
  rewrite Transaction_eq_iff, Currency_eqb_refl, !Money_eqb_refl. tauto.
Qed.

(** C7, as stated, fails: a transaction whose amount is NaN is not equal
    to the same transaction with another [order] or another
    [description], nor to itself, since a NaN is not equal to itself.
    Such a transaction is what [read_tsv] yields for a row whose amount
    column reads [NaN]. *)
Lemma Transaction_eq_counterexample :
  let eur := {| currency_code := str_of "EUR" |} in
  let a := {| tx_account := 1234; tx_date := Date 2024 1 1; tx_order := 1;
              tx_currency := eur;
              tx_amount := {| amount := NaN false false 0;
                              money_currency := eur |};
              tx_start_saldo := {| amount := Dec false 11234 (-2);
                                   money_currency := eur |};
              tx_end_saldo := {| amount := Dec false 10000 (-2);
                                 money_currency := eur |};
              tx_description := str_of "SEPA whatever" |} in
  Transaction_eq a (set_order 2 a) = Ok false /\
  Transaction_eq a (set_description (str_of "/TRTP/SEPA whatever/") a)
    = Ok false /\
  Transaction_eq a a = Ok false /\
  exists t,
    (@read_tsv simple_lib
       [str_of "123456789	EUR	20231120	112,34	100,00	20231120	NaN	/TRTP/iDEAL/NAME/Tikkie"]).1
    = [t] /\
    Transaction_eq t (set_order 2 t) = Ok false.
Proof.
  repeat split. eexists. split; [reflexivity|]. reflexivity.
Qed.

(** C7 (amended): equality of TSV transactions is decided by the six
    fields account, date, currency, amount, start_saldo and end_saldo,
    each compared with its own equality (numbers, dates, currency codes,
    and amounts as numbers with their currency), and [order] and
    [description] play no part: replacing only one of them never changes
    the outcome of the comparison with the original, which is true
    exactly when none of the three amounts is NaN (a NaN is unequal to
    itself, and a signaling NaN makes the comparison raise
    InvalidOperation).  Replacing any one of the six fields by a value
    unequal to the old one makes the two transactions unequal, for the
    two balances provided no earlier amount is a signaling NaN. *)
Theorem Transaction_eq_fields :
  (forall a b,
     Transaction_eq a b = Ok true <->
     tx_account a = tx_account b /\ tx_date a = tx_date b /\
     Currency_eqb (tx_currency a) (tx_currency b) = true /\
     Money_eqb (tx_amount a) (tx_amount b) = Ok true /\
     Money_eqb (tx_start_saldo a) (tx_start_saldo b) = Ok true /\
     Money_eqb (tx_end_saldo a) (tx_end_saldo b) = Ok true) /\
  (forall a v, Transaction_eq a (set_order v a) = Transaction_eq a a) /\
  (forall a v,
     Transaction_eq a (set_description v a) = Transaction_eq a a) /\
  (forall a,
     Transaction_eq a a = Ok true <->
     is_nan (amount (tx_amount a)) = false /\
     is_nan (amount (tx_start_saldo a)) = false /\
     is_nan (amount (tx_end_saldo a)) = false) /\
  (forall a,
     is_snan (amount (tx_amount a)) = true ->
     Transaction_eq a a = Raise InvalidOperation) /\
  (forall a v, v <> tx_account a ->
     Transaction_eq a (set_account v a) = Ok false) /\
  (forall a v, v <> tx_date a ->
     Transaction_eq a (set_date v a) = Ok false) /\
  (forall a v, Currency_eqb (tx_currency a) v = false ->
     Transaction_eq a (set_currency v a) = Ok false) /\
  (forall a v, Money_eqb (tx_amount a) v = Ok false ->
     Transaction_eq a (set_amount v a) = Ok false) /\
  (forall a v,
     is_snan (amount (tx_amount a)) = false ->
     Money_eqb (tx_start_saldo a) v = Ok false ->
     Transaction_eq a (set_start_saldo v a) = Ok false) /\
  (forall a v,
     is_snan (amount (tx_amount a)) = false ->
     is_snan (amount (tx_start_saldo a)) = false ->
     Money_eqb (tx_end_saldo a) v = Ok false ->
     Transaction_eq a (set_end_saldo v a) = Ok false).
Proof.
  split; [exact Transaction_eq_iff|].
  split; [done|]. split; [done|].
  split; [exact Transaction_eq_refl|].
  split.
  { intros a Hs. unfold Transaction_eq, py_and, Money_eqb, Decimal_eqb.
    simpl. rewrite Z.eqb_refl. simpl.
    rewrite bool_decide_eq_true_2 by done. simpl.
    rewrite Currency_eqb_refl. simpl. by rewrite Hs. }
  split.
  { intros a v Hv. unfold Transaction_eq, py_and. simpl.
    destruct (Z.eqb_spec (tx_account a) v); [congruence | done]. }
  split.
  { intros a v Hv. unfold Transaction_eq, py_and. simpl.
    rewrite Z.eqb_refl. simpl.
    rewrite bool_decide_eq_false_2 by congruence. done. }
  split.
  { intros a v Hv. unfold Transaction_eq, py_and. simpl.
    rewrite Z.eqb_refl. simpl.
    rewrite bool_decide_eq_true_2 by done. simpl. by rewrite Hv. }
  split.
  { intros a v Hv. unfold Transaction_eq, py_and. simpl.
    rewrite Z.eqb_refl. simpl.
    rewrite bool_decide_eq_true_2 by done. simpl.
    rewrite Currency_eqb_refl. simpl. by rewrite Hv. }
  split.
  { intros a v Hs Hv. unfold Transaction_eq, py_and. simpl.
    rewrite Z.eqb_refl. simpl.
    rewrite bool_decide_eq_true_2 by done. simpl.
    rewrite Currency_eqb_refl. simpl.
    rewrite (Money_eqb_not_snan _ Hs), Hv.
    by destruct (is_nan (amount (tx_amount a))). }
  intros a v Hs1 Hs2 Hv. unfold Transaction_eq, py_and. simpl.
  rewrite Z.eqb_refl. simpl.
  rewrite bool_decide_eq_true_2 by done. simpl.
  rewrite Currency_eqb_refl. simpl.
  rewrite (Money_eqb_not_snan _ Hs1), (Money_eqb_not_snan _ Hs2), Hv.
  by destruct (is_nan (amount (tx_amount a))),
       (is_nan (amount (tx_start_saldo a))).
Qed.

Lemma Transaction_eq_fields_witness :
  let eur := {| currency_code := str_of "EUR" |} in
  let usd := {| currency_code := str_of "USD" |} in
  let a := {| tx_account := 1234; tx_date := Date 2024 1 1; tx_order := 1;
              tx_currency := eur;
              tx_amount := {| amount := Dec true 1234 (-2);
                              money_currency := eur |};
              tx_start_saldo := {| amount := Dec false 11234 (-2);
                                   money_currency := eur |};
              tx_end_saldo := {| amount := Dec false 10000 (-2);
                                 money_currency := eur |};
              tx_description := str_of "SEPA whatever" |} in
  Transaction_eq a (set_order 2 a) = Ok true /\
  Transaction_eq a (set_description (str_of "/TRTP/SEPA whatever/") a)
    = Ok true /\
  Transaction_eq a (set_account 5678 a) = Ok false /\
  Transaction_eq a (set_date (Date 2024 1 2) a) = Ok false /\
  Transaction_eq a (set_currency usd a) = Ok false /\
  Transaction_eq a
    (set_amount {| amount := Dec false 1234 (-2); money_currency := usd |} a)
    = Ok false /\
  Transaction_eq a
    (set_start_saldo {| amount := Dec false 10000 (-2);
                        money_currency := usd |} a) = Ok false /\
  Transaction_eq a
    (set_end_saldo {| amount := Dec false 11234 (-2);
                      money_currency := usd |} a) = Ok false.
Proof.
  intros eur usd a.
  destruct Transaction_eq_fields
    as (_ & Ho & Hd & Hrefl & _ & Hacc & Hdate & Hcur & Ham & Hst & Hen).
  split; [rewrite Ho; by apply Hrefl|].
  split; [rewrite Hd; by apply Hrefl|].
  split; [apply Hacc; done|]. split; [apply Hdate; done|].
  split; [apply Hcur; reflexivity|]. split; [apply Ham; reflexivity|].
  split; [apply Hst; reflexivity|]. apply Hen; reflexivity.
Defined.

(** ** read_tsv *)

Section read_tsv.
Context `{PyLib}.

Lemma make_transaction_order k r t :
  make_transaction k r = Ok t -> tx_order t = k.
Proof.
  unfold make_transaction.
  destruct r as [|c1 [|c2 [|c3 [|c4 [|c5 [|c6 [|c7 [|c8 [|c9 r]]]]]]]]];
    try done.
  destruct (py_int c1); simpl; [|done].
  destruct (strptime_Ymd c3); simpl; [|done].
  unfold Money_of_str.
  destruct (Decimal_of_str (replace_chr _ _ c7)); simpl; [|done].
  destruct (Decimal_of_str (replace_chr _ _ c4)); simpl; [|done].
  destruct (Decimal_of_str (replace_chr _ _ c5)); simpl; [|done].
  destruct (rejoin_description c8); simpl; [|done].
  by intros [= <-].
Qed.

Lemma read_rows_spec rows : forall k e,
  let ts := (read_rows k rows e).1 in
  length ts <= length rows /\
  forall i t, ts !! i = Some t ->
    tx_order t = (k + 1 + Z.of_nat i)%Z /\
    exists r, rows !! i = Some r /\
              make_transaction (k + 1 + Z.of_nat i) r = Ok t.
Proof.
  induction rows as [|r rows IH]; intros k e; simpl.
  - split; [done|]. intros i t Hi. by rewrite lookup_nil in Hi.
  - destruct (make_transaction (k + 1) r) as [t0|e0] eqn:E.
    + specialize (IH (k + 1)%Z e).
      destruct (read_rows (k + 1) rows e) as [ts e'].
      simpl in *. destruct IH as [Hlen IH]. split; [lia|].
      intros [|i] t Hi; simpl in Hi.
      * injection Hi as <-. rewrite Z.add_0_r.
        split; [by apply make_transaction_order in E|]. by exists r.
      * destruct (IH i t Hi) as [Ho (r' & Hr' & Hm)].
        replace (k + 1 + Z.of_nat (S i))%Z with (k + 1 + 1 + Z.of_nat i)%Z
          by lia.
        split; [done|]. by exists r'.
    + simpl. split; [lia|]. intros i t Hi. by rewrite lookup_nil in Hi.
Qed.

Lemma filter_comments_skip l1 line l2 :
  skipped_line line = true ->
  filter_comments (l1 ++ line :: l2) = filter_comments (l1 ++ l2).
Proof.
  intros Hs. induction l1 as [|x l1 IH].
  - change (filter_comments ([] ++ line :: l2))
      with (if startswith (lstrip line) (str_of "#")
            then filter_comments l2
            else if bool_decide (strip line = []) then filter_comments l2
                 else line :: filter_comments l2).
    unfold skipped_line in Hs. apply orb_true_iff in Hs as [->|Hs]; [done|].
    rewrite Hs. by destruct (startswith _ _).
  - change (filter_comments ((x :: l1) ++ line :: l2))
      with (if startswith (lstrip x) (str_of "#")
            then filter_comments (l1 ++ line :: l2)
            else if bool_decide (strip x = [])
                 then filter_comments (l1 ++ line :: l2)
                 else x :: filter_comments (l1 ++ line :: l2)).
    by rewrite IH.
Qed.

Lemma filter_comments_keep l :
  Forall (fun line => skipped_line line = false) l ->
  filter_comments l = l.
Proof.
  induction 1 as [|x l Hx _ IH]; [done|].
  change (filter_comments (x :: l))
    with (if startswith (lstrip x) (str_of "#") then filter_comments l
          else if bool_decide (strip x = []) then filter_comments l
               else x :: filter_comments l).
  unfold skipped_line in Hx. apply orb_false_iff in Hx as [-> ->].
  by rewrite IH.
Qed.

(** C5: the transactions [read_tsv] yields are numbered 1, 2, 3, ... in
    the order yielded: the [i]-th one (from 0) has [order] [i + 1] and is
    built from the [i]-th row the CSV reader produces from the lines left
    by [filter_comments], so the sequence of [order] values is strictly
    increasing.  A comment line or a blank line anywhere in the input
    changes nothing, and three yielded transactions are numbered exactly
    1, 2, 3. *)
Theorem read_tsv_order :
  (forall file,
     let ts := (read_tsv file).1 in
     let rows := (csv_reader (filter_comments file)).1 in
     map tx_order ts = map (fun i => Z.of_nat (S i)) (seq 0 (length ts)) /\
     StronglySorted Z.lt (map tx_order ts) /\
     (forall i t, ts !! i = Some t ->
        tx_order t = Z.of_nat (S i) /\
        exists r, rows !! i = Some r /\
                  make_transaction (Z.of_nat (S i)) r = Ok t) /\
     (length ts = 3 -> map tx_order ts = [1; 2; 3]%Z)) /\
  (forall l1 line l2,
     skipped_line line = true ->
     read_tsv (l1 ++ line :: l2) = read_tsv (l1 ++ l2)).
Proof.
  split.
  - intros file ts rows.
    assert (forall i t, ts !! i = Some t ->
              tx_order t = Z.of_nat (S i) /\
              exists r, rows !! i = Some r /\
                        make_transaction (Z.of_nat (S i)) r = Ok t) as Hspec.
    { intros i t Hi. unfold ts, rows, read_tsv in *.
      destruct (csv_reader (filter_comments file)) as [rs e]. simpl.
      destruct (read_rows_spec rs 0 e) as [_ Hs].
      specialize (Hs i t Hi).
      replace (0 + 1 + Z.of_nat i)%Z with (Z.of_nat (S i)) in Hs by lia.
      exact Hs. }
    assert (map tx_order ts
            = map (fun i => Z.of_nat (S i)) (seq 0 (length ts))) as Hmap.
    { apply list_eq. intros i. rewrite !list_lookup_fmap.
      destruct (ts !! i) as [t|] eqn:Hi; simpl.
      - rewrite lookup_seq_lt by (by eapply lookup_lt_Some).
        simpl. f_equal. by apply Hspec.
      - rewrite lookup_seq_ge; [done|]. by apply lookup_ge_None. }
    split; [exact Hmap|]. split; [|split; [exact Hspec|]].
    + rewrite Hmap. generalize 0 as s. generalize (length ts) as n.
      induction n as [|n IHn]; intros s; simpl; constructor.
      * apply IHn.
      * apply Forall_forall. intros x Hx.
        apply list_elem_of_fmap in Hx as (j & -> & Hj).
        apply elem_of_seq in Hj. lia.
    + intros Hlen. rewrite Hmap, Hlen. reflexivity.
  - intros l1 line l2 Hs. unfold read_tsv.
    by rewrite filter_comments_skip.
Qed.

End read_tsv.

Lemma read_tsv_order_witness :
  let file :=
    [str_of "# exported 2023-11-22";
     str_of "123456789	EUR	20231120	112,34	100,00	20231120	-12,34	/TRTP/iDEAL/NAME/Tikkie";
     str_of "";
     str_of "123456789	EUR	20231121	100,00	90,00	20231121	-10,00	/TRTP/SEPA OVERBOEKING/NAME/Foo";
     str_of "     # a comment";
     str_of "   ";
     str_of "123456789	EUR	20231122	90,00	95,50	20231122	5,50	/TRTP/SEPA OVERBOEKING/NAME/Bar"] in
  map tx_order (@read_tsv simple_lib file).1 = [1; 2; 3]%Z.
Proof.
  intros file.
  apply (proj2 (proj2 (proj2 (proj1 (@read_tsv_order simple_lib) file)))).
  vm_compute. reflexivity.
Defined.

(** ** Page.convert_date *)

Example convert_date_doctests :
  convert_date (Some (Date 2023 1 1)) (str_of "01 jan")
    = Ok (Date 2023 1 1) /\
  convert_date (Some (Date 2023 1 1)) (str_of "1 jan")
    = Ok (Date 2023 1 1) /\
  convert_date (Some (Date 2023 1 1)) (str_of "31 dec")
    = Ok (Date 2022 12 31) /\
  convert_date (Some (Date 2023 1 1)) (str_of "25 nov")
    = Ok (Date 2022 11 25) /\
  convert_date (Some (Date 2023 2 2)) (str_of "20 jan")
    = Ok (Date 2023 1 20) /\
  convert_date (Some (Date 2023 2 2)) (str_of "9 dec")
    = Ok (Date 2022 12 9) /\
  convert_date (Some (Date 2023 6 1)) (str_of "20 mei")
    = Ok (Date 2023 5 20) /\
  convert_date (Some (Date 2023 6 1)) (str_of "8 apr")
    = Ok (Date 2023 4 8) /\
  convert_date (Some (Date 2023 2 1)) (str_of "09 dec")
    = Ok (Date 2022 12 9).
Proof. repeat split; reflexivity. Qed.

(** Whenever both candidate dates exist, the result is one of them and no
    farther from the statement date than the other; on a tie it is the
    candidate of the year before. *)
Lemma convert_date_nearest page_date text dd mmm d m dt1 dt2 :
  split_ws [] text = [dd; mmm] ->
  py_int dd = Ok d ->
  MONTHS_SHORT !! mmm = Some m ->
  mk_date (year page_date) m d = Ok dt1 ->
  mk_date (year page_date - 1) m d = Ok dt2 ->
  exists r, convert_date (Some page_date) text = Ok r /\
    (r = dt1 \/ r = dt2) /\
    (Z.abs (days_between page_date r)
     <= Z.abs (days_between page_date dt1))%Z /\
    (Z.abs (days_between page_date r)
     <= Z.abs (days_between page_date dt2))%Z /\
    (Z.abs (days_between page_date dt1)
     = Z.abs (days_between page_date dt2) -> r = dt2).
Proof.
  intros Hs Hd Hm H1 H2. unfold convert_date, getitem.
  rewrite Hs, Hd, Hm. simpl. rewrite H1. simpl. rewrite H2. simpl.
  eexists. split; [reflexivity|].
  destruct (Z.ltb_spec (Z.abs (days_between page_date dt1))
                       (Z.abs (days_between page_date dt2)));
    repeat split; auto; lia.
Qed.

(** C6 (code defect): with statement date 2024-03-01, a leap year, the
    short date ["29 feb"] names a valid day and month and its candidate
    in the statement's year, 2024-02-29, exists and is one day before the
    statement date; [convert_date] still raises [ValueError], because it
    builds the candidate of the year before, 2023-02-29, first. *)
Theorem convert_date_leap_day :
  mk_date 2024 2 29 = Ok (Date 2024 2 29) /\
  days_between (Date 2024 3 1) (Date 2024 2 29) = 1%Z /\
  mk_date 2023 2 29 = Raise ValueError /\
  convert_date (Some (Date 2024 3 1)) (str_of "29 feb")
    = Raise ValueError.
Proof. repeat split; reflexivity. Qed.

(** ** get_transactions_from_pages *)

Lemma bind_Ok_inv {A B} (m : result A) (f : A -> result B) b :
  m ≫= f = Ok b -> exists a, m = Ok a /\ f a = Ok b.
Proof. destruct m; simpl; [eauto | done]. Qed.

Ltac inv_bind H := apply bind_Ok_inv in H as (? & ? & H).

Ltac case_if H :=
  match type of H with
  | (if ?c then _ else _) = _ => destruct c eqn:?
  end.

Section get_transactions.
Context `{PyLib}.

Lemma single_row_unset cn first t :
  single_row_transaction cn first = Ok t ->
  ct_foreign_amount t = None /\ ct_exchange_rate t = None.
Proof.
  unfold single_row_transaction. intros Ht.
  repeat inv_bind Ht. injection Ht as <-. done.
Qed.

Lemma double_row_set cn first second t :
  double_row_transaction cn first second = Ok t ->
  is_Some (ct_foreign_amount t) /\ is_Some (ct_exchange_rate t).
Proof.
  unfold double_row_transaction. intros Ht.
  repeat inv_bind Ht. injection Ht as <-. simpl. eauto.
Qed.

Lemma process_group_yield cn rows cn' t :
  process_group cn rows = Ok (cn', Some t) ->
  let second := match rows with _ :: s :: _ => s | _ => [] end in
  (length second = 0 /\
   ct_foreign_amount t = None /\ ct_exchange_rate t = None) \/
  (length second = 9 /\
   is_Some (ct_foreign_amount t) /\ is_Some (ct_exchange_rate t)).
Proof.
  intros Ht. cbv zeta. unfold process_group in Ht.
  inv_bind Ht. inv_bind Ht. cbv zeta in Ht.
  set (second := match rows with _ :: s :: _ => s | _ => [] end) in *.
  case_if Ht.
  { repeat inv_bind Ht. discriminate. }
  case_if Ht; [|done].
  inv_bind Ht. inv_bind Ht.
  case_if Ht.
  { inv_bind Ht. injection Ht as <- <-. left.
    repeat match goal with
           | E : _ && _ = true |- _ => apply andb_true_iff in E as [? ?]
           end.
    split; [by apply Nat.eqb_eq|]. by eapply single_row_unset. }
  case_if Ht; [|done].
  inv_bind Ht. injection Ht as <- <-. right.
  repeat match goal with
         | E : _ && _ = true |- _ => apply andb_true_iff in E as [? ?]
         end.
  split; [by apply Nat.eqb_eq|]. by eapply double_row_set.
Qed.

Lemma process_groups_inv groups : forall cn e t,
  t ∈ (process_groups cn groups e).1 -> both_or_neither t.
Proof.
  induction groups as [|g groups IH]; intros cn e t; simpl.
  - by rewrite elem_of_nil.
  - destruct (process_group cn g) as [[cn' y]|e0] eqn:E;
      [|simpl; by rewrite elem_of_nil].
    specialize (IH cn' e t).
    destruct (process_groups cn' groups e) as [ts e'].
    simpl in *. destruct y as [t0|]; [|exact IH].
    rewrite elem_of_cons. intros [->|Ht]; [|by apply IH].
    apply process_group_yield in E. unfold both_or_neither.
    destruct E as [(_ & ? & ?)|(_ & ? & ?)]; [by left | by right].
Qed.

(** C8: every transaction yielded by [get_transactions_from_pages] has
    [foreign_amount] and [exchange_rate] both unset or both set.  A group
    yields a transaction with both unset exactly when it has no second
    row (the single-row transaction), and with both set when its second
    row has nine cells (the foreign-currency transaction). *)
Theorem foreign_amount_exchange_rate :
  (forall cn rows cn' t,
     process_group cn rows = Ok (cn', Some t) ->
     let second := match rows with _ :: s :: _ => s | _ => [] end in
     (length second = 0 /\
      ct_foreign_amount t = None /\ ct_exchange_rate t = None) \/
     (length second = 9 /\
      is_Some (ct_foreign_amount t) /\ is_Some (ct_exchange_rate t))) /\
  (forall pages t,
     t ∈ (get_transactions_from_pages pages).1 ->
     (ct_foreign_amount t = None /\ ct_exchange_rate t = None) \/
     (is_Some (ct_foreign_amount t) /\ is_Some (ct_exchange_rate t))).
Proof.
  split; [exact process_group_yield|].
  intros pages t. unfold get_transactions_from_pages.
  destruct (convert_pages 1 None pages) as [tbl|e];
    [|simpl; by rewrite elem_of_nil].
  destruct (group_related_rows [] tbl) as [groups e].
  apply process_groups_inv.
Qed.

End get_transactions.

Lemma foreign_amount_exchange_rate_witness :
  let first :=
    [CDate (Date 2023 1 3); CDate (Date 2023 1 3);
     CStr (str_of "Foreign purchase"); CStr (str_of "Whatever");
     CStr (str_of "USA"); CStr (str_of "6.05"); CStr (str_of "USD");
     CStr (str_of "5.59"); CStr (str_of "-")] in
  let second :=
    [CStr []; CStr []; CStr (str_of "Wisselkoers USD");
     CStr (str_of "1,08229"); CStr []; CStr []; CStr []; CStr [];
     CStr []] in
  let page := {|
    nr := 1; p_date := Some (Date 2023 2 1); page_nr := Some 1%Z;
    total_pages := Some 1%Z;
    table := {[ 456%Z :=
                [str_of "02 jan"; str_of "03 jan";
                 str_of "Description here"; str_of "Foobar"; str_of "NLD";
                 str_of ""; str_of ""; str_of "100,00"; str_of "Af"] ]}
  |} in
  (exists t : @CardTransaction simple_lib,
     @process_group simple_lib None [first; second] = Ok (None, Some t) /\
     is_Some (ct_foreign_amount t) /\ is_Some (ct_exchange_rate t)) /\
  (exists t : @CardTransaction simple_lib,
     (@get_transactions_from_pages simple_lib [page]).1 !! 0%nat = Some t /\
     ((ct_foreign_amount t = None /\ ct_exchange_rate t = None) \/
      (is_Some (ct_foreign_amount t) /\ is_Some (ct_exchange_rate t)))).
Proof.
  intros first second page. split.
  - assert (exists t : @CardTransaction simple_lib,
              @process_group simple_lib None [first; second]
              = Ok (None, Some t)) as [t E].
    { eexists. reflexivity. }
    exists t. split; [exact E|].
    destruct (proj1 (@foreign_amount_exchange_rate simple_lib) _ _ _ _ E)
      as [(Hl & _)|(_ & ? & ?)]; [discriminate Hl | done].
  - assert (exists t : @CardTransaction simple_lib,
              (@get_transactions_from_pages simple_lib [page]).1 !! 0%nat
              = Some t) as [t E].
    { eexists. reflexivity. }
    exists t. split; [exact E|].
    apply (proj2 (@foreign_amount_exchange_rate simple_lib) [page] t).
    by eapply list_elem_of_lookup_2.
Defined.

(* ===================================================================== *)
(** * Part III: further properties of the code                            *)
(* ===================================================================== *)

(** ** batched *)

Lemma batched_loop_spec {A} (n : nat) : forall fuel (l : list A),
  1 <= n -> length l < fuel ->
  concat (batched_loop fuel n l) = l /\
  Forall (fun b => 1 <= length b <= n) (batched_loop fuel n l) /\
  Forall (fun b => length b = n) (removelast (batched_loop fuel n l)).
Proof.
  induction fuel as [|fuel IH]; intros l Hn Hlen; [lia|].
  simpl. destruct (take n l) as [|x batch] eqn:E.
  - assert (l = []) as ->.
    { destruct l; [done|]. destruct n; [lia | discriminate]. }
    repeat split; constructor.
  - assert (length (x :: batch) = n `min` length l) as Hb
      by (by rewrite <- E, length_take).
    assert (l <> []) as Hl by (intros ->; by rewrite take_nil in E).
    assert (0 < length l) by (destruct l; [done | simpl; lia]).
    destruct (IH (drop n l) Hn) as (Hcat & Hall & Hfull).
    { rewrite length_drop. lia. }
    split; [|split].
    + rewrite concat_cons, Hcat, <- E. apply take_drop.
    + constructor; [lia | done].
    + destruct (batched_loop fuel n (drop n l)) as [|b bs] eqn:Eb.
      * constructor.
      * change (removelast ((x :: batch) :: b :: bs))
          with ((x :: batch) :: removelast (b :: bs)).
        constructor; [|done].
        assert (drop n l <> []) as Hd.
        { intros Hd. rewrite Hd in Hcat. simpl in Hcat.
          apply (f_equal length) in Hcat.
          rewrite length_app in Hcat. simpl in Hcat.
          apply Forall_cons in Hall as [? _]. lia. }
        assert (n < length l).
        { destruct (decide (n < length l)); [done|].
          rewrite drop_ge in Hd by lia. done. }
        lia.
Qed.

(** X1: [batched] refuses a batch size below one with [ValueError], and
    so does [islice] for a size above [sys.maxsize]; for every size in
    between it cuts the input into consecutive batches that together are
    the input, each holding between one and [n] items and all but the
    last holding exactly [n]. *)
Theorem batched_spec {A} (l : list A) (n : Z) :
  ((n < 1 \/ sys_maxsize < n)%Z -> batched l n = Raise ValueError) /\
  ((1 <= n <= sys_maxsize)%Z ->
   exists bs, batched l n = Ok bs /\
     concat bs = l /\
     Forall (fun b => 1 <= length b <= Z.to_nat n) bs /\
     Forall (fun b => length b = Z.to_nat n) (removelast bs)).
Proof.
  unfold batched. split; intros Hn.
  - destruct (Z.ltb_spec n 1); [done|].
    destruct (Z.ltb_spec sys_maxsize n); [done | lia].
  - destruct (Z.ltb_spec n 1); [lia|].
    destruct (Z.ltb_spec sys_maxsize n); [lia|].
    eexists. split; [done|].
    apply batched_loop_spec; lia.
Qed.

Lemma batched_spec_witness :
  batched [1; 2; 3; 4; 5; 6; 7]%Z 0 = Raise ValueError /\
  batched [1; 2; 3; 4; 5; 6; 7]%Z 9223372036854775808 = Raise ValueError /\
  exists bs, batched [1; 2; 3; 4; 5; 6; 7]%Z 3 = Ok bs /\
    concat bs = [1; 2; 3; 4; 5; 6; 7]%Z.
Proof.
  split; [|split].
  - apply (proj1 (batched_spec [1; 2; 3; 4; 5; 6; 7]%Z 0)). left. lia.
  - apply (proj1 (batched_spec [1; 2; 3; 4; 5; 6; 7]%Z
                    9223372036854775808)).
    right. unfold sys_maxsize. lia.
  - destruct (proj2 (batched_spec [1; 2; 3; 4; 5; 6; 7]%Z 3))
      as (bs & Hbs & Hcat & _); [unfold sys_maxsize; lia|].
    exists bs. by split.
Defined.

(** ** filter_comments *)

Lemma filter_comments_cons line rest :
  filter_comments (line :: rest)
  = if skipped_line line then filter_comments rest
    else line :: filter_comments rest.
Proof.
  change (filter_comments (line :: rest))
    with (if startswith (lstrip line) (str_of "#")
          then filter_comments rest
          else if bool_decide (strip line = []) then filter_comments rest
               else line :: filter_comments rest).
  unfold skipped_line.
  destruct (startswith (lstrip line) (str_of "#")); [done|].
  by destruct (bool_decide (strip line = [])).
Qed.

(** X2: [filter_comments] yields, in their order, exactly the lines that
    are neither a comment (first non-blank character [#]) nor blank: what
    it yields is a sublist of the input without such a line, every other
    line of the input is yielded, and filtering twice changes nothing. *)
Theorem filter_comments_spec (l : list (list ascii)) :
  sublist (filter_comments l) l /\
  Forall (fun line => startswith (lstrip line) (str_of "#") = false /\
                      strip line <> []) (filter_comments l) /\
  (forall line, line ∈ l -> skipped_line line = false ->
                line ∈ filter_comments l) /\
  filter_comments (filter_comments l) = filter_comments l.
Proof.
  induction l as [|line l (Hs & Hf & Hk & Hi)].
  - repeat split; try constructor. intros line Hl.
    by rewrite elem_of_nil in Hl.
  - rewrite filter_comments_cons.
    destruct (skipped_line line) eqn:E.
    + split; [by apply sublist_cons|]. split; [done|]. split; [|done].
      intros x Hx Hsk. apply elem_of_cons in Hx as [->|Hx]; [congruence|].
      by apply Hk.
    + split; [by apply sublist_skip|]. split; [|split].
      * constructor; [|done]. unfold skipped_line in E.
        apply orb_false_iff in E as [? E]. split; [done|].
        by apply bool_decide_eq_false in E.
      * intros x Hx Hsk. apply elem_of_cons.
        apply elem_of_cons in Hx as [->|Hx]; [by left|].
        right. by apply Hk.
      * by rewrite filter_comments_cons, E, Hi.
Qed.

(** ** rejoin_description: the boundary checks *)

Lemma findall_dots_run n ob a : forall cur rest,
  Forall (fun c => is_newline c = false) a ->
  length cur + length a <= n ->
  findall_dots n ob cur (a ++ rest) = findall_dots n ob (cur ++ a) rest.
Proof.
  induction a as [|c a IH]; intros cur rest Hnl Hlen.
  - by rewrite app_nil_r.
  - apply Forall_cons in Hnl as [Hc Hnl]. simpl in Hlen.
    change ((c :: a) ++ rest) with (c :: (a ++ rest)).
    rewrite findall_dots_cons, Hc.
    assert ((length cur <? n) = true) as -> by (apply Nat.ltb_lt; lia).
    rewrite IH; [|done|rewrite length_app; simpl; lia].
    by rewrite <- app_assoc.
Qed.

Lemma findall_dots_nonempty n ob s : forall cur,
  cur <> [] -> findall_dots n ob cur s <> [].
Proof.
  induction s as [|c s IH]; intros cur Hcur.
  - by destruct cur.
  - rewrite findall_dots_cons.
    destruct (is_newline c); [by destruct cur|].
    destruct (length cur <? n); [apply IH; by destruct cur|].
    by destruct (ob && is_blank c).
Qed.

(** X3: [rejoin_description] fails loudly on a broken spacing pattern.
    For a text that does not start with a slash: when the character after
    the 32-character head is not a blank, it raises [AssertionError]; and
    when, after the head and its blank, the text (trailing whitespace
    removed, no line feed in it) has more than 64 characters of which the
    65th is not a blank, it raises [AssertionError] as well. *)
Theorem rejoin_bad_boundary (s : list ascii) :
  startswith s (str_of "/") = false ->
  (forall c, s !! 32%nat = Some c -> is_blank c = false ->
     rejoin_description s = Raise AssertionError) /\
  (forall c, s !! 32%nat = Some " "%char ->
     Forall (fun c => is_newline c = false) (rstrip (drop 33 s)) ->
     rstrip (drop 33 s) !! 64%nat = Some c -> is_blank c = false ->
     rejoin_description s = Raise AssertionError).
Proof.
  intros Hslash. split.
  - intros c Hc Hb. unfold rejoin_description. by rewrite Hslash, Hc, Hb.
  - intros c H32 Hnl Hc Hb. unfold rejoin_description.
    rewrite Hslash, H32.
    change (assert (is_blank " "%char)) with (Ok tt).
    change (Ok tt ≫= ?f) with (f tt). cbv beta.
    set (r := rstrip (drop 33 s)) in *.
    assert (r = take 64 r ++ c :: drop 65 r) as Hr.
    { rewrite <- (take_drop 64 r) at 1. f_equal.
      by apply drop_S. }
    assert (length (take 64 r) = 64) as Hlen.
    { rewrite length_take. apply lookup_lt_Some in Hc. lia. }
    assert (findall_dots 64 true [] r
            = take 64 r :: findall_dots 64 true [c] (drop 65 r)) as Hparts.
    { rewrite Hr at 1. rewrite findall_dots_run.
      - rewrite findall_dots_cons. simpl app.
        assert (is_newline c = false) as ->.
        { rewrite Forall_forall in Hnl. apply Hnl.
          eapply list_elem_of_lookup_2. exact Hc. }
        rewrite Hlen. change (64 <? 64) with false. cbv iota.
        by rewrite Hb.
      - rewrite Hr in Hnl. by apply Forall_app in Hnl as [? _].
      - simpl. lia. }
    rewrite Hparts.
    pose proof (findall_dots_nonempty 64 true (drop 65 r) [c]
                  ltac:(done)) as Hne.
    destruct (findall_dots 64 true [c] (drop 65 r)) as [|p ps]; [done|].
    change (removelast (take 64 r :: p :: ps))
      with (take 64 r :: removelast (p :: ps)).
    simpl forallb. rewrite Hlen. done.
Qed.

Lemma rejoin_bad_boundary_witness :
  rejoin_description
    (str_of "SEPA Overboeking                IBAN: NL01ABNA0123456789")
    = Raise AssertionError /\
  rejoin_description
    (str_of "SEPA Overboeking                 IBAN: NL01ABNA0123456789        BIC: ABNANL2A                   Naam: J SMITH")
    = Raise AssertionError.
Proof.
  split.
  - apply (proj1 (rejoin_bad_boundary
       (str_of "SEPA Overboeking                IBAN: NL01ABNA0123456789")
       eq_refl) "I"%char); reflexivity.
  - apply (proj2 (rejoin_bad_boundary
       (str_of "SEPA Overboeking                 IBAN: NL01ABNA0123456789        BIC: ABNANL2A                   Naam: J SMITH")
       eq_refl) "N"%char); try reflexivity.
    vm_compute. repeat constructor.
Defined.

Lemma filter_comments_spec_witness :
  str_of "second" ∈
    filter_comments [str_of ""; str_of "first"; str_of "# foo";
                     str_of "second"; str_of "     # foo"; str_of "last"].
Proof.
  apply (proj1 (proj2 (proj2 (filter_comments_spec
           [str_of ""; str_of "first"; str_of "# foo";
            str_of "second"; str_of "     # foo"; str_of "last"])))).
  - rewrite !elem_of_cons. tauto.
  - reflexivity.
Defined.

(** ** parse_description: what every branch returns *)

Lemma dict_update_is_Some {V} (l : list (list ascii * V))
    (d : gmap (list ascii) V) k :
  is_Some (d !! k) -> is_Some (dict_update d l !! k).
Proof.
  intros Hk. apply elem_of_dom, dict_update_dom. left.
  by apply elem_of_dom.
Qed.

Lemma dict_of_is_Some {V} (l : list (list ascii * V)) k :
  k ∈ l.*1 -> is_Some (dict_of l !! k).
Proof.
  intros Hk. apply elem_of_dom. unfold dict_of.
  apply dict_update_dom. by right.
Qed.

Lemma dict_of_dom {V} (l : list (list ascii * V)) :
  dom (dict_of l) = list_to_set l.*1.
Proof.
  apply set_eq. intros k. unfold dict_of.
  rewrite dict_update_dom, dom_empty, elem_of_list_to_set.
  split; [intros [[]%elem_of_empty|?]; done | by right].
Qed.

Lemma parse_slash_type s d :
  parse_slash s = Ok d -> is_Some (d !! str_of "type").
Proof.
  unfold parse_slash. intros Hd. inv_bind Hd. inv_bind Hd.
  cbv zeta in Hd. inv_bind Hd. injection Hd as <-.
  case_bool_decide.
  - rewrite lookup_insert_eq. eauto.
  - unfold getitem in *.
    destruct (dict_of _ !! str_of "type"); [eauto | done].
Qed.

Lemma parse_bank_fees_type head tail d :
  parse_bank_fees head tail = Ok d -> is_Some (d !! str_of "type").
Proof.
  unfold parse_bank_fees. intros Hd. inv_bind Hd. injection Hd as <-.
  apply dict_update_is_Some. rewrite lookup_singleton_eq. eauto.
Qed.

Lemma parse_sepa_type head tail d :
  parse_sepa head tail = Ok d -> is_Some (d !! str_of "type").
Proof.
  unfold parse_sepa. intros Hd. inv_bind Hd. injection Hd as <-.
  apply dict_update_is_Some. rewrite lookup_singleton_eq. eauto.
Qed.

Lemma parse_bea_legacy_inv head tail d :
  parse_bea_legacy head tail = Ok d ->
  exists nr dtstr dt name pas,
    bea_head_groups head = Some (str_of "BEA", nr, dtstr) /\
    parse_nr_datetime dtstr = Ok dt /\
    d = dict_of
          [(str_of "type", str_of "BEA");
           (str_of "datetime", datetime_isoformat dt);
           (str_of "NR", nr);
           (str_of "Naam", rstrip name);
           (str_of "card", rstrip pas);
           (str_of "location", rstrip (take 32 (drop 32 tail)));
           (str_of "suffix", rstrip (drop 64 tail))].
Proof.
  unfold parse_bea_legacy. intros Hd. inv_bind Hd.
  destruct x as [[ty nr] dtstr].
  destruct (partition (str_of ",PAS") (take 32 tail)) as [[name sep] pas].
  inv_bind Hd. injection Hd as <-.
  assert (ty = str_of "BEA") as ->.
  { unfold groups, bea_head_groups in H.
    repeat case_match; simplify_eq; done. }
  exists nr, dtstr, x, name, pas. split; [|done].
  unfold groups in H. by destruct (bea_head_groups head); simplify_eq.
Qed.

Lemma parse_bea_gea_inv head tail d :
  parse_bea_gea head tail = Ok d ->
  exists nr dtstr dt name pas,
    nr_date_groups (take 32 (drop 32 tail)) = Some (nr, dtstr) /\
    parse_nr_datetime dtstr = Ok dt /\
    d = dict_of
          [(str_of "type", head);
           (str_of "datetime", datetime_isoformat dt);
           (str_of "NR", nr);
           (str_of "Naam", rstrip name);
           (str_of "card", rstrip pas);
           (str_of "location", rstrip (take 32 (drop 64 tail)));
           (str_of "suffix", rstrip (drop 96 tail))].
Proof.
  unfold parse_bea_gea. intros Hd.
  destruct (partition (str_of ",PAS") (take 32 tail)) as [[name sep] pas].
  inv_bind Hd. destruct x as [nr dtstr].
  inv_bind Hd. injection Hd as <-.
  exists nr, dtstr, x, name, pas. split; [|done].
  unfold groups in H. by destruct (nr_date_groups _); simplify_eq.
Qed.

(** X4: whatever the sub-format, a mapping returned by
    [parse_description] has a ["type"] key. *)
Theorem parse_description_type_key (s : list ascii)
    (d : gmap (list ascii) (list ascii)) :
  (parse_description s).2 = Ok d -> is_Some (d !! str_of "type").
Proof.
  unfold parse_description.
  destruct (startswith s (str_of "/"));
    [by apply parse_slash_type|].
  destruct (startswith s (str_of "ABN AMRO Bank"));
    [by apply parse_bank_fees_type|].
  destruct (startswith _ (str_of "BEA ")).
  { simpl. intros Hd. apply parse_bea_legacy_inv in Hd
      as (? & ? & ? & ? & ? & _ & _ & ->).
    apply dict_of_is_Some. simpl. apply elem_of_cons. by left. }
  destruct (startswith _ (str_of "BEA, ") || startswith _ (str_of "GEA, ")).
  { simpl. intros Hd. apply parse_bea_gea_inv in Hd
      as (? & ? & ? & ? & ? & _ & _ & ->).
    apply dict_of_is_Some. simpl. apply elem_of_cons. by left. }
  destruct (startswith _ (str_of "SEPA "));
    [by apply parse_sepa_type|].
  destruct (startswith _ (str_of "CREDIT INTEREST")).
  { simpl. intros [= <-]. apply dict_of_is_Some. simpl.
    apply elem_of_cons. by left. }
  destruct (startswith _ (str_of "Basic interest")).
  { simpl. intros [= <-]. apply dict_of_is_Some. simpl.
    apply elem_of_cons. by left. }
  destruct (_ || _ || _); simpl; intros [= <-];
    apply dict_of_is_Some; simpl; apply elem_of_cons; by left.
Qed.

Lemma parse_description_type_key_witness :
  is_Some
    (dict_of [(str_of "type", str_of "Basic interest");
              (str_of "description", str_of "")] !! str_of "type").
Proof.
  apply (parse_description_type_key
           (str_of "CREDIT INTEREST                 ")).
  reflexivity.
Defined.

(** X5: when [parse_description] prints.  A description is recognised
    when it starts with a slash or with [ABN AMRO Bank], or when its head
    (the first 32 characters without trailing whitespace) starts with one
    of [BEA ], [BEA, ], [GEA, ], [SEPA ], [CREDIT INTEREST],
    [Basic interest], [Maandpremie ], [Uitbetaling pakketkorting] and
    [PAKKETVERZ. POLISNR.].  For a recognised description nothing is
    printed, whether the call then returns or raises; for any other one
    the single notice is printed and the head and the tail are returned
    without an exception. *)
Theorem parse_description_notice (s : list ascii) :
  let head := rstrip (take 32 s) in
  let recognised :=
    startswith s (str_of "/") || startswith s (str_of "ABN AMRO Bank")
    || startswith head (str_of "BEA ")
    || startswith head (str_of "BEA, ")
    || startswith head (str_of "GEA, ")
    || startswith head (str_of "SEPA ")
    || startswith head (str_of "CREDIT INTEREST")
    || startswith head (str_of "Basic interest")
    || startswith head (str_of "Maandpremie ")
    || startswith head (str_of "Uitbetaling pakketkorting")
    || startswith head (str_of "PAKKETVERZ. POLISNR.") in
  (recognised = true -> (parse_description s).1 = []) /\
  (recognised = false ->
   parse_description s
   = ([UnexpectedFormat s],
      Ok (dict_of [(str_of "type", head);
                   (str_of "description", rstrip (drop 32 s))]))).
Proof.
  intros head recognised. unfold recognised, parse_description. fold head.
  destruct (startswith s (str_of "/")); [by split|].
  destruct (startswith s (str_of "ABN AMRO Bank")); [by split|].
  destruct (startswith head (str_of "BEA ")); [by split|].
  destruct (startswith head (str_of "BEA, ")); [by split|].
  destruct (startswith head (str_of "GEA, ")); [by split|].
  destruct (startswith head (str_of "SEPA ")); [by split|].
  destruct (startswith head (str_of "CREDIT INTEREST")); [by split|].
  destruct (startswith head (str_of "Basic interest")); [by split|].
  destruct (startswith head (str_of "Maandpremie ")); [by split|].
  destruct (startswith head (str_of "Uitbetaling pakketkorting"));
    [by split|].
  destruct (startswith head (str_of "PAKKETVERZ. POLISNR.")); by split.
Qed.

Lemma parse_description_notice_witness :
  (parse_description
     (str_of "Basic interest                  over the period")).1 = [] /\
  (parse_description (str_of "Something else")).1
  = [UnexpectedFormat (str_of "Something else")].
Proof.
  split.
  - apply (proj1 (parse_description_notice
             (str_of "Basic interest                  over the period"))).
    reflexivity.
  - rewrite (proj2 (parse_description_notice (str_of "Something else")));
      reflexivity.
Defined.

Lemma dict_of_seven (v1 v2 v3 v4 v5 v6 v7 : list ascii) :
  let d := dict_of
        [(str_of "type", v1); (str_of "datetime", v2); (str_of "NR", v3);
         (str_of "Naam", v4); (str_of "card", v5);
         (str_of "location", v6); (str_of "suffix", v7)] in
  dom d = {[ str_of "type"; str_of "datetime"; str_of "NR";
             str_of "Naam"; str_of "card"; str_of "location";
             str_of "suffix" ]} /\
  d !! str_of "type" = Some v1 /\ d !! str_of "datetime" = Some v2 /\
  d !! str_of "NR" = Some v3 /\ d !! str_of "Naam" = Some v4 /\
  d !! str_of "card" = Some v5 /\ d !! str_of "location" = Some v6 /\
  d !! str_of "suffix" = Some v7.
Proof.
  intros d. split.
  { unfold d. rewrite dict_of_dom. simpl. set_solver. }
  unfold d, dict_of, dict_update. simpl.
  repeat split; rewrite ?lookup_insert_ne by done; apply lookup_insert_eq.
Qed.

(** X6: the two card-payment formats.  When the legacy [BEA] block
    decodes a description without an exception, the head has the form
    [BEA], blanks, [NR:] and a number, blanks and a date text, and the
    mapping has exactly the seven keys type, datetime, NR, Naam, card,
    location and suffix: the type is ["BEA"], the NR is the number of the
    head, the datetime is the 19-character ISO form of the moment
    [parse_nr_datetime] reads from the date text of the head, Naam and
    card are the texts before and after [,PAS] in the first 32
    characters of the tail, location the next 32 and suffix the rest,
    each without trailing whitespace.  The modern [BEA,]/[GEA,] block
    gives the same seven keys with the head as type, the number and the
    date text read from the second 32 characters of the tail, location
    the third 32 and suffix the rest. *)
Theorem parse_bea_keys (head tail : list ascii)
    (d : gmap (list ascii) (list ascii)) :
  let keys : gset (list ascii) :=
    {[ str_of "type"; str_of "datetime"; str_of "NR"; str_of "Naam";
       str_of "card"; str_of "location"; str_of "suffix" ]} in
  let name_and_card := partition (str_of ",PAS") (take 32 tail) in
  (parse_bea_legacy head tail = Ok d ->
   exists nr dtstr dt,
     bea_head_groups head = Some (str_of "BEA", nr, dtstr) /\
     parse_nr_datetime dtstr = Ok dt /\
     length (datetime_isoformat dt) = 19 /\
     dom d = keys /\
     d !! str_of "type" = Some (str_of "BEA") /\
     d !! str_of "datetime" = Some (datetime_isoformat dt) /\
     d !! str_of "NR" = Some nr /\
     d !! str_of "Naam" = Some (rstrip name_and_card.1.1) /\
     d !! str_of "card" = Some (rstrip name_and_card.2) /\
     d !! str_of "location" = Some (rstrip (take 32 (drop 32 tail))) /\
     d !! str_of "suffix" = Some (rstrip (drop 64 tail))) /\
  (parse_bea_gea head tail = Ok d ->
   exists nr dtstr dt,
     nr_date_groups (take 32 (drop 32 tail)) = Some (nr, dtstr) /\
     parse_nr_datetime dtstr = Ok dt /\
     length (datetime_isoformat dt) = 19 /\
     dom d = keys /\
     d !! str_of "type" = Some head /\
     d !! str_of "datetime" = Some (datetime_isoformat dt) /\
     d !! str_of "NR" = Some nr /\
     d !! str_of "Naam" = Some (rstrip name_and_card.1.1) /\
     d !! str_of "card" = Some (rstrip name_and_card.2) /\
     d !! str_of "location" = Some (rstrip (take 32 (drop 64 tail))) /\
     d !! str_of "suffix" = Some (rstrip (drop 96 tail))).
Proof.
  intros keys name_and_card. split; intros Hd.
  - unfold parse_bea_legacy in Hd.
    apply bind_Ok_inv in Hd as ([[ty nr] dtstr] & Hg & Hd).
    fold name_and_card in Hd.
    destruct name_and_card as [[name sep] pas].
    apply bind_Ok_inv in Hd as (dt & Hdt & Hd). injection Hd as <-.
    assert (bea_head_groups head = Some (str_of "BEA", nr, dtstr)
            /\ ty = str_of "BEA") as [Hgroups ->].
    { unfold groups in Hg.
      destruct (bea_head_groups head) as [g|] eqn:Eg; [|done].
      injection Hg as ->. unfold bea_head_groups in Eg.
      repeat case_match; simplify_eq; done. }
    exists nr, dtstr, dt. split; [done|]. split; [done|]. split; [done|].
    apply dict_of_seven.
  - unfold parse_bea_gea in Hd. fold name_and_card in Hd.
    destruct name_and_card as [[name sep] pas].
    apply bind_Ok_inv in Hd as ([nr dtstr] & Hg & Hd).
    apply bind_Ok_inv in Hd as (dt & Hdt & Hd). injection Hd as <-.
    exists nr, dtstr, dt. split.
    { unfold groups in Hg. by destruct (nr_date_groups _); simplify_eq. }
    split; [done|]. split; [done|]. apply dict_of_seven.
Qed.

Lemma parse_bea_keys_witness :
  exists d,
    parse_bea_legacy (str_of "BEA   NR:AB012345 31.12.21/12.34")
      (str_of "CCV TRAVERSE P1,PAS123          LUCHTH SCHIPH") = Ok d /\
    d !! str_of "datetime" = Some (str_of "2021-12-31T12:34:00") /\
    d !! str_of "NR" = Some (str_of "AB012345") /\
    d !! str_of "Naam" = Some (str_of "CCV TRAVERSE P1") /\
    d !! str_of "card" = Some (str_of "123") /\
    d !! str_of "location" = Some (str_of "LUCHTH SCHIPH").
Proof.
  eexists. split; [reflexivity|].
  destruct (proj1 (parse_bea_keys
                     (str_of "BEA   NR:AB012345 31.12.21/12.34")
                     (str_of "CCV TRAVERSE P1,PAS123          LUCHTH SCHIPH")
                     _) eq_refl)
    as (nr & dtstr & dt & Hg & Hdt & _ & _ & _ & Hdatetime & Hnr
        & Hnaam & Hcard & Hloc & _).
  injection Hg as <- <-. injection Hdt as <-.
  repeat split; assumption.
Defined.

(** ** parse_description: the SEPA block *)

Lemma sepa_key_match_elem keys chunk k v :
  sepa_key_match keys chunk = Some (k, v) -> k ∈ keys.
Proof.
  induction keys as [|k' keys IH]; simpl; [done|].
  destruct (_ && _ && _).
  - intros [= <- _]. apply elem_of_cons. by left.
  - intros Hm. apply elem_of_cons. right. by apply IH.
Qed.

Lemma sepa_step_keys parts chunk :
  parts <> [] -> Forall (fun k => k ∈ sepa_keys) parts.*1 ->
  exists parts', sepa_step parts chunk = Ok parts' /\ parts' <> [] /\
                 Forall (fun k => k ∈ sepa_keys) parts'.*1.
Proof.
  intros Hne Hkeys. unfold sepa_step.
  destruct (sepa_key_match sepa_keys chunk) as [[k v]|] eqn:Em.
  - eexists. split; [done|]. split; [by destruct parts|].
    rewrite fmap_app. apply Forall_app. split; [done|].
    apply Forall_singleton. by eapply sepa_key_match_elem.
  - destruct (list_pop parts) as [[init [key value]]|] eqn:Ep.
    + apply list_pop_Some in Ep as ->.
      eexists. split; [done|]. split; [by destruct init|].
      rewrite fmap_app in *. apply Forall_app in Hkeys as [Hi Hk].
      apply Forall_app. by split.
    + by destruct parts as [|p [|q parts]]; simpl in Ep;
        [|discriminate | destruct (list_pop _) as [[? ?]|] ].
Qed.

Lemma sepa_loop_keys chunks : forall parts,
  parts <> [] -> Forall (fun k => k ∈ sepa_keys) parts.*1 ->
  exists parts', sepa_loop parts chunks = Ok parts' /\
                 Forall (fun k => k ∈ sepa_keys) parts'.*1.
Proof.
  induction chunks as [|c chunks IH]; intros parts Hne Hkeys; simpl.
  - by exists parts.
  - destruct (sepa_step_keys parts c Hne Hkeys) as (p' & -> & Hne' & Hk').
    simpl. by apply IH.
Qed.

(** X7: the SEPA block of [parse_description].  The tail is read in
    chunks of 32 characters.  With no chunk the mapping holds the type
    only; when the first chunk does not open with one of the eight field
    names and a colon, the block raises IndexError (there is no field to
    continue); otherwise it returns, and the mapping has the head as its
    type and only field names among its other keys. *)
Theorem parse_sepa_spec (head tail : list ascii) :
  match findall_dots 32 false [] tail with
  | [] => parse_sepa head tail = Ok {[ str_of "type" := head ]}
  | c :: _ =>
      match sepa_key_match sepa_keys c with
      | None => parse_sepa head tail = Raise IndexError
      | Some _ =>
          exists d, parse_sepa head tail = Ok d /\
                    d !! str_of "type" = Some head /\
                    forall k, is_Some (d !! k) ->
                              k = str_of "type" \/ k ∈ sepa_keys
      end
  end.
Proof.
  unfold parse_sepa.
  destruct (findall_dots 32 false [] tail) as [|c chunks]; [done|].
  change (sepa_loop [] (c :: chunks))
    with (sepa_step [] c ≫= fun parts' => sepa_loop parts' chunks).
  unfold sepa_step.
  destruct (sepa_key_match sepa_keys c) as [[k v]|] eqn:Em; [|done].
  simpl.
  destruct (sepa_loop_keys chunks [(k, v)]) as (parts & -> & Hkeys);
    [done | | ].
  { apply Forall_singleton. by eapply sepa_key_match_elem. }
  simpl. eexists. split; [done|].
  assert (forall k, k ∈ (map (fun kv : list ascii * list ascii =>
                                (kv.1, strip kv.2)) parts).*1 ->
                    k ∈ sepa_keys) as Hin.
  { intros k' Hk'. rewrite Forall_forall in Hkeys. apply Hkeys.
    revert Hk'. rewrite !list_elem_of_fmap.
    intros ([k1 v1] & -> & ([k2 v2] & [= -> ->] & Hin)%list_elem_of_fmap).
    by exists (k2, v2). }
  split.
  - destruct (dict_update {[str_of "type" := head]}
                (map (fun kv : list ascii * list ascii =>
                        (kv.1, strip kv.2)) parts) !! str_of "type")
      as [v'|] eqn:El.
    + apply dict_update_lookup_Some in El as [El|El].
      * by rewrite lookup_singleton_eq in El.
      * exfalso. assert (str_of "type" ∈ sepa_keys) as Hty.
        { apply Hin. apply list_elem_of_fmap. by exists (str_of "type", v'). }
        revert Hty. unfold sepa_keys. rewrite !elem_of_cons, elem_of_nil.
        intros [?|[?|[?|[?|[?|[?|[?|[?|[]]]]]]]]]; discriminate.
    + exfalso. apply eq_None_not_Some in El. apply El.
      apply dict_update_is_Some. rewrite lookup_singleton_eq. eauto.
  - intros k' [v' Hv']. apply dict_update_lookup_Some in Hv' as [Hv'|Hv'].
    + left. apply lookup_singleton_Some in Hv' as [<- _]. done.
    + right. apply Hin. apply list_elem_of_fmap. by exists (k', v').
Qed.

(** ** parse_description: the bank-fee block *)

Lemma mapR_Ok_elem {A B} (f : A -> result B) l bs b :
  mapR f l = Ok bs -> b ∈ bs -> exists a, a ∈ l /\ f a = Ok b.
Proof.
  revert bs; induction l as [|a l IH]; intros bs; simpl.
  - intros [= <-] Hb. by apply elem_of_nil in Hb.
  - intros Hm. inv_bind Hm. inv_bind Hm. injection Hm as <-.
    intros [->|Hb]%elem_of_cons.
    + exists a. split; [apply elem_of_cons; by left | done].
    + destruct (IH _ H0 Hb) as (a' & Ha' & Hf).
      exists a'. split; [apply elem_of_cons; by right | done].
Qed.

Lemma span_forallb p s a b :
  span p s = (a, b) -> forallb p a = true.
Proof.
  revert a b; induction s as [|c s IH]; intros a b; simpl.
  - by intros [= <- <-].
  - destruct (p c) eqn:Ec; [|by intros [= <- <-]].
    destruct (span p s) as [a' b']. intros [= <- <-]. simpl.
    rewrite Ec. by eapply IH.
Qed.

Lemma forallb_rev_true {A} (p : A -> bool) l :
  forallb p l = true -> forallb p (rev l) = true.
Proof.
  rewrite !forallb_forall. intros Hl x Hx. apply Hl. by apply in_rev.
Qed.

Lemma replace_comma_chars v :
  forallb (in_chars "-0123456789,.") v = true ->
  forallb (in_chars "-0123456789.") (replace_chr ","%char (str_of ".") v)
  = true.
Proof.
  unfold replace_chr. induction v as [|c v IH]; [done|].
  cbn [forallb map concat]. rewrite andb_true_iff. intros [Hc Hv].
  rewrite forallb_app, (IH Hv), andb_true_r.
  destruct (chr_eqb c ","%char) eqn:Ec; [done|].
  cbn [forallb]. rewrite andb_true_r.
  revert Hc. unfold in_chars. cbn [list_ascii_of_string existsb].
  rewrite Ec. cbn [orb]. done.
Qed.

(** X8: the bank-fee block of [parse_description].  In a mapping it
    returns, every entry is either the type, holding the head, or a fee:
    a non-empty label with a non-empty amount written with digits, [-] and
    [.] only, every comma having been replaced. *)
Theorem parse_bank_fees_values (head tail : list ascii)
    (d : gmap (list ascii) (list ascii)) (k v : list ascii) :
  parse_bank_fees head tail = Ok d -> d !! k = Some v ->
  (k = str_of "type" /\ v = head) \/
  (k <> [] /\ v <> [] /\ forallb (in_chars "-0123456789.") v = true).
Proof.
  unfold parse_bank_fees. intros Hd Hk. inv_bind Hd. injection Hd as <-.
  apply dict_update_lookup_Some in Hk as [Hk|Hk].
  { left. by apply lookup_singleton_Some in Hk as [<- <-]. }
  right. destruct (mapR_Ok_elem _ _ _ _ H Hk) as (p & _ & Hp).
  inv_bind Hp. destruct x0 as [k0 v0]. injection Hp as <- <-.
  unfold groups, fee_line_groups in H0.
  destruct (span _ (rev p)) as [amount_rev r1] eqn:Ea.
  destruct (span is_blank r1) as [blanks label_rev].
  destruct amount_rev as [|a amount_rev]; [done|].
  destruct blanks as [|b blanks]; [done|].
  destruct label_rev as [|l label_rev]; [done|].
  destruct (forallb _ label_rev); [|done].
  injection H0 as <- <-.
  apply span_forallb, forallb_rev_true, replace_comma_chars in Ea.
  split; [|split; [|done]].
  - simpl. by destruct (rev label_rev).
  - intros Hnil. unfold replace_chr in Hnil. simpl in Hnil.
    rewrite map_app, concat_app in Hnil.
    apply app_eq_nil in Hnil as [_ Hnil]. simpl in Hnil.
    by destruct (chr_eqb a ","%char).
Qed.

Lemma parse_bank_fees_values_witness :
  str_of "Debit card" <> [] /\ str_of "1.40" <> [] /\
  forallb (in_chars "-0123456789.") (str_of "1.40") = true.
Proof.
  destruct (parse_bank_fees_values (str_of "ABN AMRO Bank N.V.")
              (str_of "Debit card                  1,40")
              ({[ str_of "type" := str_of "ABN AMRO Bank N.V." ]}
               ∪ {[ str_of "Debit card" := str_of "1.40" ]})
              (str_of "Debit card") (str_of "1.40")) as [[Hk _]|Hfee].
  - vm_compute. reflexivity.
  - vm_compute. reflexivity.
  - discriminate Hk.
  - exact Hfee.
Defined.

(** ** parse_nr_datetime *)

Lemma dec_digit_class k :
  isspace (dec_digit k) = false /\ in_chars "-:./" (dec_digit k) = false.
Proof.
  unfold dec_digit.
  assert (k mod 10 = 0 \/ k mod 10 = 1 \/ k mod 10 = 2 \/ k mod 10 = 3 \/
          k mod 10 = 4 \/ k mod 10 = 5 \/ k mod 10 = 6 \/ k mod 10 = 7 \/
          k mod 10 = 8 \/ k mod 10 = 9)%Z as Hr
    by (pose proof (Z.mod_pos_bound k 10); lia).
  destruct Hr as [->|[->|[->|[->|[->|[->|[->|[->|[->| ->]]]]]]]]];
    by vm_compute.
Qed.

Lemma py_int_two_digits n : (0 <= n < 100)%Z -> py_int (two_digits n) = Ok n.
Proof.
  intros Hn.
  assert (forallb (fun k => match py_int (two_digits (Z.of_nat k)) with
                            | Ok m => (m =? Z.of_nat k)%Z
                            | Raise _ => false
                            end) (seq 0 100) = true) as Hall by by vm_compute.
  rewrite forallb_forall in Hall.
  specialize (Hall (Z.to_nat n)). rewrite Z2Nat.id in Hall by lia.
  destruct (py_int (two_digits n)) as [m|e].
  - f_equal. apply Z.eqb_eq, Hall, in_seq. lia.
  - discriminate Hall. apply in_seq. lia.
Qed.

Lemma re_split_last sep f :
  forallb (fun c => negb (sep c)) f = true -> re_split sep f = [f].
Proof.
  induction f as [|c f IH]; simpl; [done|].
  rewrite andb_true_iff, negb_true_iff. intros [-> Hf]. by rewrite IH.
Qed.

Lemma re_split_field sep f c rest :
  forallb (fun c => negb (sep c)) f = true -> sep c = true ->
  re_split sep (f ++ c :: rest) = f :: re_split sep rest.
Proof.
  intros Hf Hc. induction f as [|a f IH]; simpl.
  - by rewrite Hc.
  - simpl in Hf. apply andb_true_iff in Hf as [Ha Hf].
    apply negb_true_iff in Ha. by rewrite Ha, IH.
Qed.

Lemma c_int_small z :
  (-2147483648 <= z <= 2147483647)%Z -> c_int z = Ok z.
Proof.
  intros Hz. unfold c_int.
  destruct (Z.leb_spec (-2147483648) z); [|lia].
  destruct (Z.leb_spec z 2147483647); [done | lia].
Qed.

Lemma days_in_month_le y m : (days_in_month y m <= 31)%Z.
Proof. unfold days_in_month. repeat case_match; lia. Qed.

(** X9: [parse_nr_datetime] reads day, month, two-digit year, hour and
    minute written with two digits each, whichever of the separators
    [-], [:], [.] and [/] stands between them, and returns that moment
    in the years 2000 to 2099. *)
Theorem parse_nr_datetime_separators (dd mm yy HH MM : Z)
    (s1 s2 s3 s4 : ascii) :
  (0 <= yy < 100)%Z -> valid_date (2000 + yy) mm dd = true ->
  (0 <= HH <= 23)%Z -> (0 <= MM <= 59)%Z ->
  in_chars "-:./" s1 = true -> in_chars "-:./" s2 = true ->
  in_chars "-:./" s3 = true -> in_chars "-:./" s4 = true ->
  parse_nr_datetime
    (two_digits dd ++ s1 :: two_digits mm ++ s2 :: two_digits yy
     ++ s3 :: two_digits HH ++ s4 :: two_digits MM)
  = Ok (DateTime (Date (2000 + yy) mm dd) HH MM).
Proof.
  intros Hyy Hvalid HHH HMM H1 H2 H3 H4.
  assert (1 <= mm <= 12 /\ 1 <= dd <= 31)%Z as [Hmm Hdd].
  { unfold valid_date in Hvalid. pose proof (days_in_month_le (2000 + yy) mm).
    rewrite !andb_true_iff, !Z.leb_le in Hvalid. lia. }
  assert (forall n, forallb (fun c => negb (in_chars "-:./" c)) (two_digits n)
                    = true) as Hf.
  { intros n. unfold two_digits. cbn [forallb].
    destruct (dec_digit_class (n / 10)) as [_ ->].
    by destruct (dec_digit_class n) as [_ ->]. }
  unfold parse_nr_datetime.
  assert (strip (two_digits dd ++ s1 :: two_digits mm ++ s2 :: two_digits yy
                 ++ s3 :: two_digits HH ++ s4 :: two_digits MM)
          = two_digits dd ++ s1 :: two_digits mm ++ s2 :: two_digits yy
            ++ s3 :: two_digits HH ++ s4 :: two_digits MM) as ->.
  { unfold strip, two_digits at 1. cbn [app lstrip].
    destruct (dec_digit_class (dd / 10)) as [-> _].
    change (?a :: ?b :: s1 :: two_digits mm ++ s2 :: two_digits yy
            ++ s3 :: two_digits HH ++ s4 :: two_digits MM)
      with ((a :: b :: s1 :: two_digits mm ++ s2 :: two_digits yy
             ++ s3 :: two_digits HH ++ [s4; dec_digit (MM / 10)])
            ++ [dec_digit MM]).
    rewrite rstrip_app. cbn [rstrip].
    by destruct (dec_digit_class MM) as [-> _]. }
  rewrite !re_split_field, re_split_last by done.
  cbn [mapR]. rewrite !py_int_two_digits by lia. cbn [mbind result_bind].
  unfold mk_datetime. rewrite !c_int_small by lia. cbn [mbind result_bind].
  rewrite Hvalid.
  destruct (Z.leb_spec 0 HH); [|lia]. destruct (Z.leb_spec HH 23); [|lia].
  destruct (Z.leb_spec 0 MM); [|lia]. destruct (Z.leb_spec MM 59); [|lia].
  done.
Qed.

Lemma parse_nr_datetime_separators_witness :
  parse_nr_datetime (str_of "31.12.23/23:59")
  = Ok (DateTime (Date 2023 12 31) 23 59).
Proof.
  apply (parse_nr_datetime_separators 31 12 23 23 59
           "."%char "."%char "/"%char ":"%char);
    solve [lia | reflexivity].
Defined.

(** ** icspdfparser.group_related_rows *)

Lemma group_related_rows_inv table : forall buffer,
  Forall (fun r => r <> []) table ->
  Forall (fun r => row_starts r = false) (tail buffer) ->
  exists groups,
    group_related_rows buffer table = (groups, None) /\
    concat groups = buffer ++ table /\
    Forall (fun g => g <> []) groups /\
    Forall (fun g => Forall (fun r => row_starts r = false) (tail g)) groups /\
    Forall (fun g => exists r, head g = Some r /\ row_starts r = true)
           (tail groups) /\
    (forall r, head buffer = Some r ->
               exists g, head groups = Some g /\ head g = Some r).
Proof.
  induction table as [|row rest IH]; intros buffer Hrows Hbuf.
  - simpl. exists (yield_buffer buffer). rewrite app_nil_r.
    destruct buffer as [|r b]; simpl.
    + repeat split; auto. by intros r [=].
    + rewrite app_nil_r. repeat split; auto.
      intros r' [= <-]. by exists (r :: b).
  - apply Forall_cons in Hrows as [Hrow Hrest].
    destruct row as [|c row]; [done|]. cbn [group_related_rows].
    destruct (starts_group c) eqn:Ec.
    + destruct (IH [c :: row] Hrest) as (groups & -> & Hcat & Hne & Htl & Hst & Hhd);
        [by constructor|].
      destruct (Hhd (c :: row) eq_refl) as (g & Hg & Hgr).
      destruct buffer as [|r b]; simpl.
      * exists groups. repeat split; auto. by intros r [=].
      * exists ((r :: b) :: groups). simpl. rewrite Hcat.
        repeat split; auto.
        -- destruct groups as [|g' groups]; [done|].
           injection Hg as ->. constructor; [|done].
           exists (c :: row). by split.
        -- intros r' [= <-]. by exists (r :: b).
    + destruct (IH (buffer ++ [c :: row]) Hrest) as
        (groups & -> & Hcat & Hne & Htl & Hst & Hhd).
      { destruct buffer as [|r b]; simpl; [done|].
        apply Forall_app. split; [done|]. apply Forall_singleton.
        exact Ec. }
      exists groups. rewrite Hcat, <- app_assoc. repeat split; auto.
      intros r Hr. apply Hhd. by destruct buffer.
Qed.

Lemma group_related_rows_empty_row table : forall buffer,
  Exists (fun r => r = []) table ->
  (group_related_rows buffer table).2 = Some IndexError.
Proof.
  induction table as [|row rest IH]; intros buffer Hex.
  - by apply Exists_nil in Hex.
  - destruct row as [|c row]; [done|].
    apply Exists_cons in Hex as [Hex|Hex]; [done|].
    cbn [group_related_rows]. destruct (starts_group c).
    + specialize (IH [c :: row] Hex).
      by destruct (group_related_rows [c :: row] rest).
    + by apply IH.
Qed.

(** X10: [group_related_rows] cuts the table into consecutive groups.
    When every row has a first cell, the generator ends normally, the
    groups put end to end give back the table, no group is empty, a row
    that opens a group (a date or ["Uw Card"] in its first cell) is
    always the first of its group, and every group except possibly the
    first opens with such a row.  A row without cells ends the generator
    with IndexError. *)
Theorem group_related_rows_spec (table : list (list cell)) :
  (Forall (fun r => r <> []) table ->
   exists groups,
     group_related_rows [] table = (groups, None) /\
     concat groups = table /\
     Forall (fun g => g <> []) groups /\
     Forall (fun g => Forall (fun r => row_starts r = false) (tail g))
            groups /\
     Forall (fun g => exists r, head g = Some r /\ row_starts r = true)
            (tail groups)) /\
  (Exists (fun r => r = []) table ->
   (group_related_rows [] table).2 = Some IndexError).
Proof.
  split.
  - intros Hrows.
    destruct (group_related_rows_inv table [] Hrows)
      as (groups & Hg & Hcat & Hne & Htl & Hst & _); [done|].
    exists groups. by repeat split.
  - apply group_related_rows_empty_row.
Qed.

Lemma group_related_rows_spec_witness :
  exists groups,
    group_related_rows []
      [[CDate (Date 2023 1 1); CStr (str_of "foobar3")];
       [CStr []; CStr (str_of "Wisselkoers USD")];
       [CDate (Date 2023 1 1); CStr (str_of "foobar4")]] = (groups, None) /\
    length groups = 2.
Proof.
  destruct (proj1 (group_related_rows_spec
      [[CDate (Date 2023 1 1); CStr (str_of "foobar3")];
       [CStr []; CStr (str_of "Wisselkoers USD")];
       [CDate (Date 2023 1 1); CStr (str_of "foobar4")]]))
    as (groups & Hg & _).
  - repeat constructor; discriminate.
  - exists groups. split; [exact Hg|].
    vm_compute in Hg. by injection Hg as <-.
Defined.

(** ** icspdfparser.Page.table_as_list *)

#[local] Instance item_ge_trans : Transitive item_ge.
Proof. intros a b c. unfold item_ge. lia. Qed.

#[local] Instance item_ge_total : Total item_ge.
Proof. intros a b. unfold item_ge. lia. Qed.

Lemma sorted_strict (l : list (Z * list (list ascii))) :
  StronglySorted item_ge l -> NoDup l.*1 ->
  StronglySorted (fun a b => (b.1 < a.1)%Z) l.
Proof.
  induction 1 as [|a l Hl IH Ha]; intros Hnd; [constructor|].
  simpl in Hnd. apply NoDup_cons in Hnd as [Hnotin Hnd].
  constructor; [by apply IH|].
  rewrite Forall_forall in *. intros b Hb.
  specialize (Ha b Hb). unfold item_ge in Ha.
  assert (b.1 <> a.1); [|lia].
  intros Heq. apply Hnotin. rewrite <- Heq.
  apply list_elem_of_fmap. by exists b.
Qed.

(** X11: [table_as_list] returns the rows of the page's table from the
    largest vertical coordinate to the smallest, each row of the table
    exactly once: the rows are those of a list of the table's items
    whose coordinates strictly decrease. *)
Theorem table_as_list_spec (page : Page) :
  exists items : list (Z * list (list ascii)),
    table_as_list page = items.*2 /\
    (forall k row, (k, row) ∈ items <-> table page !! k = Some row) /\
    StronglySorted (fun a b => (b.1 < a.1)%Z) items.
Proof.
  exists (merge_sort item_ge (map_to_list (table page))).
  split; [done|]. split.
  - intros k row. rewrite merge_sort_Permutation.
    apply elem_of_map_to_list.
  - apply sorted_strict.
    + apply (StronglySorted_merge_sort item_ge).
    + rewrite merge_sort_Permutation. apply NoDup_fst_map_to_list.
Qed.

(** ** icspdfparser.get_transactions_from_pages *)

Lemma convert_pages_later pages : forall n sd t i page,
  (1 < n)%Z -> convert_pages n sd pages = Ok t ->
  pages !! i = Some page ->
  page_nr page = Some (n + Z.of_nat i)%Z /\ p_date page = sd.
Proof.
  induction pages as [|p pages IH]; intros n sd t i page Hn Hc Hi; [done|].
  cbn [convert_pages] in Hc.
  apply bind_Ok_inv in Hc as (u & Hnr & Hc).
  destruct (Z.eqb_spec n 1) as [->|_]; [lia|].
  apply bind_Ok_inv in Hc as (sd' & Hsd & Hc).
  apply bind_Ok_inv in Hsd as (u' & Hdate & Hsd). injection Hsd as <-.
  apply bind_Ok_inv in Hc as (rows & Hrows & Hc).
  apply bind_Ok_inv in Hc as (more & Hmore & Hc).
  unfold assert in Hnr, Hdate.
  case_bool_decide; [|done]. case_bool_decide; [|done].
  destruct i as [|i]; simpl in Hi.
  - injection Hi as <-. split; [|done]. rewrite Z.add_0_r. done.
  - assert (1 < n + 1)%Z as Hn' by lia.
    destruct (IH _ _ _ _ _ Hn' Hmore Hi) as [-> ->].
    split; [f_equal; lia | done].
Qed.

Lemma card_number_match_digits s number :
  card_number_match s = Some number -> card_number_ok (Some number).
Proof.
  unfold card_number_match. case_match; [|done].
  destruct (span isdigit _) as [digits rest] eqn:Es. simpl.
  apply span_forallb in Es.
  destruct digits as [|c digits]; [done|]. by intros [= <-].
Qed.

Section card_transactions.
Context `{PyLib}.

Lemma Money_of_code_currency text code_text m :
  Money_of_code text code_text = Ok m ->
  get_currency code_text = Ok (money_currency m).
Proof.
  unfold Money_of_code. intros Hm. inv_bind Hm. inv_bind Hm.
  by injection Hm as <-.
Qed.

Lemma single_row_shape cn first t :
  single_row_transaction cn first = Ok t ->
  ct_card_number t = cn /\ length (ct_descriptions t) = 2 /\
  get_currency (str_of "EUR") = Ok (money_currency (ct_amount t)).
Proof.
  unfold single_row_transaction. intros Ht.
  repeat inv_bind Ht. injection Ht as <-. simpl.
  repeat split. by eapply Money_of_code_currency.
Qed.

Lemma double_row_shape cn first second t :
  double_row_transaction cn first second = Ok t ->
  ct_card_number t = cn /\ length (ct_descriptions t) = 2 /\
  get_currency (str_of "EUR") = Ok (money_currency (ct_amount t)).
Proof.
  unfold double_row_transaction. intros Ht.
  repeat inv_bind Ht. injection Ht as <-. simpl.
  repeat split. by eapply Money_of_code_currency.
Qed.

Lemma process_group_shape cn rows cn' y :
  process_group cn rows = Ok (cn', y) -> card_number_ok cn ->
  card_number_ok cn' /\
  forall t, y = Some t ->
    ct_card_number t = cn /\ length (ct_descriptions t) = 2 /\
    get_currency (str_of "EUR") = Ok (money_currency (ct_amount t)).
Proof.
  intros Ht Hcn. unfold process_group in Ht.
  inv_bind Ht. inv_bind Ht. cbv zeta in Ht.
  set (second := match rows with _ :: s :: _ => s | _ => [] end) in *.
  case_if Ht.
  { repeat inv_bind Ht. injection Ht as <- <-. split; [|done].
    unfold groups in *.
    destruct (card_number_match x2) eqn:Em; [|done].
    simplify_eq. by eapply card_number_match_digits. }
  case_if Ht; [|done].
  inv_bind Ht. inv_bind Ht.
  case_if Ht.
  { inv_bind Ht. injection Ht as <- <-. split; [done|].
    intros t [= <-]. by eapply single_row_shape. }
  case_if Ht; [|done].
  inv_bind Ht. injection Ht as <- <-. split; [done|].
  intros t [= <-]. by eapply double_row_shape.
Qed.

Lemma process_groups_shape groups : forall cn e t,
  card_number_ok cn -> t ∈ (process_groups cn groups e).1 ->
  card_number_ok (ct_card_number t) /\ length (ct_descriptions t) = 2 /\
  get_currency (str_of "EUR") = Ok (money_currency (ct_amount t)).
Proof.
  induction groups as [|g groups IH]; intros cn e t Hcn; simpl.
  - by rewrite elem_of_nil.
  - destruct (process_group cn g) as [[cn' y]|e0] eqn:E;
      [|simpl; by rewrite elem_of_nil].
    destruct (process_group_shape _ _ _ _ E Hcn) as [Hcn' Hy].
    specialize (IH cn' e t Hcn').
    destruct (process_groups cn' groups e) as [ts e'].
    simpl in *. destruct y as [t0|]; [|exact IH].
    rewrite elem_of_cons. intros [->|Ht]; [|by apply IH].
    destruct (Hy t0 eq_refl) as (-> & ? & ?). done.
Qed.

(** X12: [get_transactions_from_pages] never yields a transaction of an
    inconsistent document.  If it yields anything, or ends without an
    exception, then the pages are numbered 1, 2, 3, ... in the order
    given and all carry the statement date of the first page: a wrong
    number or date on any page, even the last, ends the generator before
    its first transaction. *)
Theorem get_transactions_consistent (pages : list Page)
    (ts : list CardTransaction) (e : option exn) :
  get_transactions_from_pages pages = (ts, e) ->
  ts <> [] \/ e = None ->
  forall i page first_page,
    pages !! i = Some page -> pages !! 0%nat = Some first_page ->
    page_nr page = Some (Z.of_nat i + 1)%Z /\
    p_date page = p_date first_page.
Proof.
  unfold get_transactions_from_pages. intros Hg Hok.
  destruct (convert_pages 1 None pages) as [tbl|e0] eqn:Ec.
  2: { injection Hg as <- <-. by destruct Hok. }
  clear Hg Hok. intros i page first_page Hi H0.
  destruct pages as [|p0 pages]; [done|]. injection H0 as ->.
  cbn [convert_pages] in Ec.
  apply bind_Ok_inv in Ec as (u & Hnr & Ec).
  change (1 =? 1)%Z with true in Ec. cbn [mbind result_bind] in Ec.
  apply bind_Ok_inv in Ec as (rows & Hrows & Ec).
  apply bind_Ok_inv in Ec as (more & Hmore & Ec).
  unfold assert in Hnr. case_bool_decide; [|done].
  destruct i as [|i]; simpl in Hi.
  - injection Hi as <-. done.
  - assert (1 < 1 + 1)%Z as Hn by lia.
    destruct (convert_pages_later _ _ _ _ _ _ Hn Hmore Hi) as [-> ->].
    split; [f_equal; lia | done].
Qed.

(** X13: every transaction yielded by [get_transactions_from_pages]
    carries either no card number (before the first card row) or a
    non-empty string of digits, has exactly two descriptions, and has its
    amount in the currency that the code ["EUR"] denotes. *)
Theorem yielded_transaction_shape (pages : list Page)
    (t : CardTransaction) :
  t ∈ (get_transactions_from_pages pages).1 ->
  card_number_ok (ct_card_number t) /\
  length (ct_descriptions t) = 2 /\
  get_currency (str_of "EUR") = Ok (money_currency (ct_amount t)).
Proof.
  unfold get_transactions_from_pages.
  destruct (convert_pages 1 None pages) as [tbl|e];
    [|simpl; by rewrite elem_of_nil].
  destruct (group_related_rows [] tbl) as [groups e].
  by apply process_groups_shape.
Qed.

End card_transactions.

Lemma get_transactions_consistent_witness :
  let page1 := {|
    nr := 1; p_date := Some (Date 2023 2 1); page_nr := Some 1%Z;
    total_pages := Some 2%Z;
    table := {[ 456%Z :=
                [str_of "02 jan"; str_of "03 jan";
                 str_of "Description here"; str_of "Foobar"; str_of "NLD";
                 str_of ""; str_of ""; str_of "100,00"; str_of "Af"] ]}
  |} in
  let page2 := {|
    nr := 2; p_date := Some (Date 2023 2 1); page_nr := Some 2%Z;
    total_pages := Some 2%Z;
    table := {[ 123%Z :=
                [str_of "05 jan"; str_of "05 jan";
                 str_of "Is it over"; str_of "Yet"; str_of "NLD";
                 str_of ""; str_of ""; str_of "1,99"; str_of "Af"] ]}
  |} in
  exists ts,
    @get_transactions_from_pages simple_lib [page1; page2] = (ts, None) /\
    page_nr page2 = Some 2%Z /\ p_date page2 = p_date page1.
Proof.
  intros page1 page2.
  assert (exists ts, @get_transactions_from_pages simple_lib [page1; page2]
                     = (ts, None)) as [ts E].
  { eexists. reflexivity. }
  exists ts. split; [exact E|].
  apply (@get_transactions_consistent simple_lib [page1; page2] ts None E
           (or_intror eq_refl) 1%nat page2 page1); reflexivity.
Defined.

Lemma yielded_transaction_shape_witness :
  let page := {|
    nr := 1; p_date := Some (Date 2023 2 1); page_nr := Some 1%Z;
    total_pages := Some 1%Z;
    table := {[ 456%Z :=
                [str_of "02 jan"; str_of "03 jan";
                 str_of "Description here"; str_of "Foobar"; str_of "NLD";
                 str_of ""; str_of ""; str_of "100,00"; str_of "Af"] ]}
  |} in
  exists t : @CardTransaction simple_lib,
    (@get_transactions_from_pages simple_lib [page]).1 !! 0%nat = Some t /\
    card_number_ok (ct_card_number t) /\
    length (ct_descriptions t) = 2 /\
    @get_currency simple_lib (str_of "EUR")
    = Ok (money_currency (ct_amount t)).
Proof.
  intros page.
  assert (exists t : @CardTransaction simple_lib,
            (@get_transactions_from_pages simple_lib [page]).1 !! 0%nat
            = Some t) as [t E].
  { eexists. reflexivity. }
  exists t. split; [exact E|].
  apply (@yielded_transaction_shape simple_lib [page] t).
  by eapply list_elem_of_lookup_2.
Defined.

(** ** icspdfparser.Page.convert_date *)

Lemma mk_date_Ok y m d dt :
  mk_date y m d = Ok dt -> dt = Date y m d /\ valid_date y m d = true.
Proof.
  unfold mk_date, c_int. intros Hd.
  apply bind_Ok_inv in Hd as (y' & Hy & Hd).
  apply bind_Ok_inv in Hd as (m' & Hm & Hd).
  apply bind_Ok_inv in Hd as (d' & Hd' & Hd).
  destruct (_ && _) in Hy; [|done]. injection Hy as <-.
  destruct (_ && _) in Hm; [|done]. injection Hm as <-.
  destruct (_ && _) in Hd'; [|done]. injection Hd' as <-.
  destruct (valid_date y m d); [|done]. by injection Hd as <-.
Qed.

Lemma days_before_year_succ y :
  days_before_year (y + 1)
  = (days_before_year y + 365 + (if is_leap y then 1 else 0))%Z.
Proof.
  unfold days_before_year, is_leap. cbv zeta.
  replace (y + 1 - 1)%Z with y by lia.
  destruct (Z.eqb_spec (y mod 4) 0); destruct (Z.eqb_spec (y mod 100) 0);
    destruct (Z.eqb_spec (y mod 400) 0); cbn [andb orb negb];
    Z.div_mod_to_equations; lia.
Qed.

Lemma days_before_month_cases y m :
  (1 <= m <= 12)%Z ->
  (0 <= days_before_month y m)%Z /\
  (days_before_month y m + days_in_month y m
   <= 365 + (if is_leap y then 1 else 0))%Z /\
  forall y',
    (days_before_month y' m
       - (if (2 <? m)%Z && is_leap y' then 1 else 0)
     = days_before_month y m
       - (if (2 <? m)%Z && is_leap y then 1 else 0))%Z.
Proof.
  intros Hm.
  assert (m = 1 \/ m = 2 \/ m = 3 \/ m = 4 \/ m = 5 \/ m = 6 \/ m = 7 \/
          m = 8 \/ m = 9 \/ m = 10 \/ m = 11 \/ m = 12)%Z as Hc by lia.
  unfold days_before_month.
  destruct Hc as [->|[->|[->|[->|[->|[->|[->|[->|[->|[->|[->| ->]]]]]]]]]]];
    (split; [|split; [|intros y']]);
    vm_compute Z.to_nat; cbn [days_before_month_aux];
    unfold days_in_month;
    destruct (is_leap y); try destruct (is_leap y');
    vm_compute; first [reflexivity | intros Hgt; discriminate Hgt].
Qed.

Lemma toordinal_range y m d :
  valid_date y m d = true ->
  (days_before_year y + 1 <= toordinal (Date y m d)
   <= days_before_year y + 365 + (if is_leap y then 1 else 0))%Z.
Proof.
  unfold valid_date. rewrite !andb_true_iff, !Z.leb_le.
  intros [[[[[_ _] Hm1] Hm2] Hd1] Hd2].
  destruct (days_before_month_cases y m) as (H0 & Hlen & _); [lia|].
  unfold toordinal. simpl. lia.
Qed.

(** X14: the window of [Page.convert_date].  For a page dated [D], a
    date text that is converted gives a date of the year of [D] or of the
    year before, at most 182 days after [D] and at most 365 days before
    it; a date of the year before is 1 to 183 days before [D]. *)
Theorem convert_date_window (D : date) (text : list ascii) (r : date) :
  valid_date (year D) (month D) (day D) = true ->
  convert_date (Some D) text = Ok r ->
  (year r = year D \/ year r = (year D - 1)%Z) /\
  (-182 <= days_between D r <= 365)%Z /\
  (year r = (year D - 1)%Z -> (1 <= days_between D r <= 183)%Z).
Proof.
  intros Hvalid Hc. unfold convert_date in Hc.
  destruct (split_ws [] text) as [|dd [|mmm [|? ?]]]; try done.
  apply bind_Ok_inv in Hc as (d & _ & Hc).
  apply bind_Ok_inv in Hc as (m & _ & Hc).
  cbn [mbind result_bind] in Hc.
  apply bind_Ok_inv in Hc as (dt1 & H1 & Hc).
  apply bind_Ok_inv in Hc as (dt2 & H2 & Hc).
  apply mk_date_Ok in H1 as [-> Hv1]. apply mk_date_Ok in H2 as [-> Hv2].
  pose proof (toordinal_range _ _ _ Hv1) as R1.
  pose proof (toordinal_range _ _ _ Hv2) as R2.
  assert (toordinal D = toordinal (Date (year D) (month D) (day D))) as ED
    by by destruct D.
  pose proof (toordinal_range _ _ _ Hvalid) as RD. rewrite <- ED in RD.
  assert (1 <= m <= 12)%Z as Hm.
  { unfold valid_date in Hv1. rewrite !andb_true_iff, !Z.leb_le in Hv1. lia. }
  destruct (days_before_month_cases (year D) m Hm) as (_ & _ & Hshift).
  specialize (Hshift (year D - 1)%Z).
  pose proof (days_before_year_succ (year D - 1)) as Hy.
  replace (year D - 1 + 1)%Z with (year D) in Hy by lia.
  unfold days_between in *.
  set (oD := toordinal D) in *. clearbody oD. unfold toordinal in *.
  simpl in Hc, R1, R2.
  destruct (Z.ltb_spec
              (Z.abs (oD - (days_before_year (year D)
                            + days_before_month (year D) m + d)))
              (Z.abs (oD - (days_before_year (year D - 1)
                            + days_before_month (year D - 1) m + d))));
    injection Hc as <-; simpl;
    destruct ((2 <? m)%Z); destruct (is_leap (year D));
    destruct (is_leap (year D - 1)); cbn [andb] in Hshift;
    (split; [auto|]); lia.
Qed.

Lemma convert_date_window_witness :
  (-182 <= days_between (Date 2023 1 1) (Date 2022 12 9) <= 365)%Z.
Proof.
  apply (convert_date_window (Date 2023 1 1) (str_of "09 dec")
           (Date 2022 12 9)); reflexivity.
Defined.

(** ** tsvparser.read_tsv: rows and failures *)

Section tsv_rows.
Context `{PyLib}.

Lemma read_rows_all_ok rows : forall k e,
  (forall i r, rows !! i = Some r ->
     is_Ok (make_transaction (k + 1 + Z.of_nat i) r) = true) ->
  length (read_rows k rows e).1 = length rows /\
  (read_rows k rows e).2 = e.
Proof.
  induction rows as [|r rows IH]; intros k e Hok; [done|].
  cbn [read_rows].
  pose proof (Hok 0%nat r eq_refl) as H0. rewrite Z.add_0_r in H0.
  destruct (make_transaction (k + 1) r) as [t|e0]; [|done].
  destruct (IH (k + 1)%Z e) as [Hlen Hend].
  { intros i r' Hi. specialize (Hok (S i) r' Hi).
    by replace (k + 1 + 1 + Z.of_nat i)%Z
         with (k + 1 + Z.of_nat (S i))%Z by lia. }
  destruct (read_rows (k + 1) rows e) as [ts e']. simpl in *.
  by rewrite Hlen.
Qed.

Lemma read_rows_failure rows : forall k e i r err,
  rows !! i = Some r ->
  make_transaction (k + 1 + Z.of_nat i) r = Raise err ->
  (forall j r', j < i -> rows !! j = Some r' ->
     is_Ok (make_transaction (k + 1 + Z.of_nat j) r') = true) ->
  length (read_rows k rows e).1 = i /\
  (read_rows k rows e).2 = Some err.
Proof.
  induction rows as [|r0 rows IH]; intros k e i r err Hi Hfail Hok;
    [done|].
  cbn [read_rows]. destruct i as [|i].
  - injection Hi as ->. rewrite Z.add_0_r in Hfail. by rewrite Hfail.
  - pose proof (Hok 0%nat r0 ltac:(lia) eq_refl) as H0.
    rewrite Z.add_0_r in H0.
    destruct (make_transaction (k + 1) r0) as [t|e0]; [|done].
    destruct (IH (k + 1)%Z e i r err) as [Hlen Hend].
    + exact Hi.
    + by replace (k + 1 + 1 + Z.of_nat i)%Z
        with (k + 1 + Z.of_nat (S i))%Z by lia.
    + intros j r' Hj Hr'. specialize (Hok (S j) r' ltac:(lia) Hr').
      by replace (k + 1 + 1 + Z.of_nat j)%Z
           with (k + 1 + Z.of_nat (S j))%Z by lia.
    + destruct (read_rows (k + 1) rows e) as [ts e']. simpl in *.
      by rewrite Hlen.
Qed.

Lemma make_transaction_fields k r t :
  make_transaction k r = Ok t ->
  money_currency (tx_amount t) = tx_currency t /\
  money_currency (tx_start_saldo t) = tx_currency t /\
  money_currency (tx_end_saldo t) = tx_currency t /\
  length r = 8 /\
  r !! 1%nat = Some (currency_code (tx_currency t)) /\
  exists text, r !! 7%nat = Some text /\
               rejoin_description text = Ok (tx_description t).
Proof.
  unfold make_transaction.
  destruct r as [|c1 [|c2 [|c3 [|c4 [|c5 [|c6 [|c7 [|c8 [|c9 r]]]]]]]]];
    try done.
  destruct (py_int c1); simpl; [|done].
  destruct (strptime_Ymd c3); simpl; [|done].
  unfold Money_of_str.
  destruct (Decimal_of_str (replace_chr _ _ c7)); simpl; [|done].
  destruct (Decimal_of_str (replace_chr _ _ c4)); simpl; [|done].
  destruct (Decimal_of_str (replace_chr _ _ c5)); simpl; [|done].
  destruct (rejoin_description c8) eqn:Er; simpl; [|done].
  intros [= <-]. simpl. repeat split. by exists c8.
Qed.

(** X15: how [read_tsv] ends.  If every row the CSV reader produces can
    be made into a transaction, one transaction is yielded per row and
    the generator ends as the reader does.  Otherwise the generator stops
    at the first row that cannot: the transactions of the rows before it
    have been yielded, and the exception of that row ends it.  A row that
    does not have exactly eight columns is such a row (TypeError). *)
Theorem read_tsv_first_failure (file : list (list ascii))
    (rows : list (list (list ascii))) (reader_end : option exn) :
  csv_reader (filter_comments file) = (rows, reader_end) ->
  ((forall i r, rows !! i = Some r ->
      is_Ok (make_transaction (Z.of_nat (S i)) r) = true) ->
   length (read_tsv file).1 = length rows /\
   (read_tsv file).2 = reader_end) /\
  (forall i r err,
     rows !! i = Some r ->
     make_transaction (Z.of_nat (S i)) r = Raise err ->
     (forall j r', j < i -> rows !! j = Some r' ->
        is_Ok (make_transaction (Z.of_nat (S j)) r') = true) ->
     length (read_tsv file).1 = i /\ (read_tsv file).2 = Some err) /\
  (forall k r, length r <> 8 -> make_transaction k r = Raise TypeError).
Proof.
  intros Hrows. unfold read_tsv. rewrite Hrows.
  split; [|split].
  - intros Hok. apply read_rows_all_ok. intros i r Hi.
    replace (0 + 1 + Z.of_nat i)%Z with (Z.of_nat (S i)) by lia. eauto.
  - intros i r err Hi Hfail Hok.
    apply (read_rows_failure rows 0 reader_end i r err Hi).
    + by replace (0 + 1 + Z.of_nat i)%Z with (Z.of_nat (S i)) by lia.
    + intros j r' Hj Hr'.
      replace (0 + 1 + Z.of_nat j)%Z with (Z.of_nat (S j)) by lia. eauto.
  - intros k r Hlen. unfold make_transaction.
    by destruct r as [|c1 [|c2 [|c3 [|c4 [|c5 [|c6 [|c7 [|c8 [|c9 r]]]]]]]]].
Qed.

(** X16: every transaction [read_tsv] yields comes from a row of eight
    columns; its amount, start balance and end balance all carry the
    transaction's currency, whose code is the second column, and its
    description is the last column put through [rejoin_description]. *)
Theorem read_tsv_fields (file : list (list ascii)) (t : Transaction) :
  t ∈ (read_tsv file).1 ->
  money_currency (tx_amount t) = tx_currency t /\
  money_currency (tx_start_saldo t) = tx_currency t /\
  money_currency (tx_end_saldo t) = tx_currency t /\
  exists r, r ∈ (csv_reader (filter_comments file)).1 /\
    length r = 8 /\
    r !! 1%nat = Some (currency_code (tx_currency t)) /\
    exists text, r !! 7%nat = Some text /\
                 rejoin_description text = Ok (tx_description t).
Proof.
  unfold read_tsv.
  destruct (csv_reader (filter_comments file)) as [rows e]. simpl.
  intros (i & Hi)%list_elem_of_lookup_1.
  destruct (read_rows_spec rows 0 e) as [_ Hs].
  destruct (Hs i t Hi) as (_ & r & Hr & Hm).
  apply make_transaction_fields in Hm as (? & ? & ? & ? & ? & ?).
  repeat (split; [done|]). exists r. split; [|done].
  by eapply list_elem_of_lookup_2.
Qed.

End tsv_rows.

Lemma read_tsv_first_failure_witness :
  let file :=
    [str_of "123456789	EUR	20231120	112,34	100,00	20231120	-12,34	/TRTP/iDEAL/NAME/Tikkie";
     str_of "# a comment";
     str_of "123456789	EUR	20231121"] in
  length (@read_tsv simple_lib file).1 = 1 /\
  (@read_tsv simple_lib file).2 = Some TypeError.
Proof.
  intros file.
  apply (proj1 (proj2 (@read_tsv_first_failure simple_lib file
           [[str_of "123456789"; str_of "EUR"; str_of "20231120";
             str_of "112,34"; str_of "100,00"; str_of "20231120";
             str_of "-12,34"; str_of "/TRTP/iDEAL/NAME/Tikkie"];
            [str_of "123456789"; str_of "EUR"; str_of "20231121"]]
           None eq_refl)) 1%nat
           [str_of "123456789"; str_of "EUR"; str_of "20231121"] TypeError).
  - reflexivity.
  - reflexivity.
  - intros j r' Hj Hr'. destruct j as [|j]; [|lia].
    injection Hr' as <-. reflexivity.
Defined.

Lemma read_tsv_fields_witness :
  let file :=
    [str_of "123456789	EUR	20231120	112,34	100,00	20231120	-12,34	/TRTP/iDEAL/NAME/Tikkie"] in
  exists t, (@read_tsv simple_lib file).1 !! 0%nat = Some t /\
            money_currency (tx_amount t) = tx_currency t.
Proof.
  intros file.
  assert (exists t, (@read_tsv simple_lib file).1 !! 0%nat = Some t)
    as [t E].
  { eexists. reflexivity. }
  exists t. split; [exact E|].
  apply (@read_tsv_fields simple_lib file t).
  by eapply list_elem_of_lookup_2.
Defined.

(** ** Equal amounts and their formatting *)







(** ** icspdfparser.Transaction: the formatted foreign amount *)

Lemma money_format_nonempty m : money_format m <> [].
Proof.
  unfold money_format.
  destruct (amount m) as [neg c e|neg|neg signaling payload].
  - destruct (format_2f_shape neg c e) as (ip & fp & -> & _).
    intros Hnil. apply app_eq_nil in Hnil as [_ Hnil].
    apply app_eq_nil in Hnil as [_ Hnil]. discriminate Hnil.
  - by destruct neg.
  - by destruct neg, signaling.
Qed.

Section card_transaction_fields.
Context `{PyLib}.

(** X18: the formatted foreign amount of a card transaction is the empty
    string exactly when there is no foreign amount, and then the foreign
    currency code is empty as well; for a transaction yielded by
    [get_transactions_from_pages] it is empty exactly when there is no
    exchange rate. *)
Theorem foreign_amount_formatted_empty :
  (forall t : CardTransaction,
     (foreign_amount_formatted t = [] <-> ct_foreign_amount t = None) /\
     (ct_foreign_amount t = None -> foreign_currency_code t = [])) /\
  (forall pages t,
     t ∈ (get_transactions_from_pages pages).1 ->
     (foreign_amount_formatted t = [] <-> ct_exchange_rate t = None)).
Proof.
  assert (forall t : CardTransaction,
            foreign_amount_formatted t = [] <-> ct_foreign_amount t = None)
    as Hempty.
  { intros t. unfold foreign_amount_formatted.
    destruct (ct_foreign_amount t) as [m|]; [|done].
    split; [|done]. intros Hm. by apply money_format_nonempty in Hm. }
  split.
  - intros t. split; [apply Hempty|].
    unfold foreign_currency_code. by intros ->.
  - intros pages t Ht. rewrite Hempty.
    assert (both_or_neither t) as Hboth.
    { revert Ht. unfold get_transactions_from_pages.
      destruct (convert_pages 1 None pages) as [tbl|e];
        [|simpl; by rewrite elem_of_nil].
      destruct (group_related_rows [] tbl) as [groups e].
      apply process_groups_inv. }
    destruct Hboth as [[-> ->]|[[m Hm] [x Hx]]]; [done|].
    rewrite Hm, Hx. done.
Qed.

End card_transaction_fields.

Lemma foreign_amount_formatted_empty_witness :
  let page := {|
    nr := 1; p_date := Some (Date 2023 2 1); page_nr := Some 1%Z;
    total_pages := Some 1%Z;
    table := {[ 456%Z :=
                [str_of "02 jan"; str_of "03 jan";
                 str_of "Description here"; str_of "Foobar"; str_of "NLD";
                 str_of ""; str_of ""; str_of "100,00"; str_of "Af"] ]}
  |} in
  exists t : @CardTransaction simple_lib,
    (@get_transactions_from_pages simple_lib [page]).1 !! 0%nat = Some t /\
    (@foreign_amount_formatted simple_lib t = [] <->
     ct_exchange_rate t = None).
Proof.
  intros page.
  assert (exists t : @CardTransaction simple_lib,
            (@get_transactions_from_pages simple_lib [page]).1 !! 0%nat
            = Some t) as [t E].
  { eexists. reflexivity. }
  exists t. split; [exact E|].
  apply (proj2 (@foreign_amount_formatted_empty simple_lib) [page] t).
  by eapply list_elem_of_lookup_2.
Defined.

(** ** The column of a text object *)

Lemma matching_columns_elem cols : forall n x k,
  k ∈ matching_columns n cols x <->
  exists i col, k = n + i /\ cols !! i = Some col /\
                interval_contains (x_low col) (x_high col) x = true.
Proof.
  induction cols as [|c cols IH]; intros n x k; simpl.
  - rewrite elem_of_nil. split; [done|]. by intros (i & col & _ & ? & _).
  - destruct (interval_contains (x_low c) (x_high c) x) eqn:Ec.
    + rewrite elem_of_cons, IH. split.
      * intros [->|(i & col & -> & Hi & Hx)].
        -- exists 0, c. split; [lia | done].
        -- exists (S i), col. split; [lia | done].
      * intros ([|i] & col & -> & Hi & Hx).
        -- left. lia.
        -- right. exists i, col. split; [lia | done].
    + rewrite IH. split.
      * intros (i & col & -> & Hi & Hx).
        exists (S i), col. split; [lia | done].
      * intros ([|i] & col & -> & Hi & Hx).
        -- simpl in Hi. injection Hi as <-. congruence.
        -- exists i, col. split; [lia | done].
Qed.

Lemma matching_columns_none cols : forall n x,
  Forall (fun col => interval_contains (x_low col) (x_high col) x = false)
         cols ->
  matching_columns n cols x = [].
Proof.
  induction cols as [|c cols IH]; intros n x Hall; [done|].
  apply Forall_cons in Hall as [Hc Hall]. simpl. rewrite Hc. by apply IH.
Qed.

Lemma matching_columns_one cols : forall n x,
  StronglySorted (fun a b => (x_high a <= x_low b)%Z) cols ->
  length (matching_columns n cols x) <= 1.
Proof.
  induction cols as [|c cols IH]; intros n x Hs; simpl; [lia|].
  apply StronglySorted_inv in Hs as [Hs Hc].
  destruct (interval_contains (x_low c) (x_high c) x) eqn:Ec;
    [|by apply IH].
  rewrite matching_columns_none; [simpl; lia|].
  eapply Forall_impl; [exact Hc|]. intros b Hb. simpl in Hb.
  unfold interval_contains in *.
  apply andb_true_iff in Ec as [_ Ehigh]. apply Z.ltb_lt in Ehigh.
  apply andb_false_iff. left. apply Z.leb_gt. nia.
Qed.

Lemma COLUMNS_separated :
  StronglySorted (fun a b => (x_high a <= x_low b)%Z) COLUMNS.
Proof. unfold COLUMNS. repeat constructor; simpl; lia. Qed.

(** X19: a text object of the main table belongs to at most one column.
    The intervals of [Page.COLUMNS] do not overlap, so the column that
    [visitor] finds with [first] for a horizontal position [x] is the
    only column whose interval contains [x]; the assertion on the column
    fails exactly when no interval contains [x]. *)
Theorem column_at_spec (x : coordinate) :
  (forall n,
     column_at x = Some n <->
     exists col, COLUMNS !! n = Some col /\
                 interval_contains (x_low col) (x_high col) x = true) /\
  (column_at x = None <->
   Forall (fun col => interval_contains (x_low col) (x_high col) x = false)
          COLUMNS).
Proof.
  unfold column_at.
  pose proof (matching_columns_one COLUMNS 0 x COLUMNS_separated) as Hone.
  pose proof (matching_columns_elem COLUMNS 0 x) as Helem.
  destruct (matching_columns 0 COLUMNS x) as [|k [|k' l]] eqn:Em;
    [| |simpl in Hone; lia].
  - simpl. split.
    + intros n. split; [done|]. intros (col & Hcol & Hx).
      exfalso. apply (elem_of_nil n), Helem. by exists n, col.
    + split; [|done]. intros _. apply Forall_forall. intros col Hcol.
      apply list_elem_of_lookup_1 in Hcol as [i Hi].
      destruct (interval_contains (x_low col) (x_high col) x) eqn:Ex;
        [|done].
      exfalso. apply (elem_of_nil i), Helem. by exists i, col.
  - simpl. split.
    + intros n. split.
      * intros [= <-].
        destruct (proj1 (Helem k)) as (i & col & -> & Hi & Hx);
          [apply elem_of_cons; by left|]. by exists col.
      * intros (col & Hcol & Hx). f_equal.
        assert (n ∈ [k]) as Hn by (apply Helem; by exists n, col).
        apply elem_of_cons in Hn as [->|Hn]; [done|].
        by apply elem_of_nil in Hn.
    + split; [done|]. intros Hall. exfalso.
      destruct (proj1 (Helem k)) as (i & col & _ & Hi & Hx);
        [apply elem_of_cons; by left|].
      rewrite Forall_forall in Hall.
      rewrite Hall in Hx; [done|]. by eapply list_elem_of_lookup_2.
Qed.

Lemma column_at_spec_witness :
  column_at {| num := 15622; den := 100 |} = None /\
  column_at {| num := 1505; den := 10 |} = Some 2.
Proof.
  split.
  - apply (proj2 (column_at_spec {| num := 15622; den := 100 |})).
    unfold COLUMNS. repeat constructor.
  - apply (proj1 (column_at_spec {| num := 1505; den := 10 |}) 2).
    eexists. split; reflexivity.
Defined.

(** ** rejoin_description: what it keeps *)

Lemma findall_dots_length n b s : forall cur,
  length (concat (findall_dots n b cur s)) <= length cur + length s.
Proof.
  induction s as [|c s IH]; intros cur.
  - simpl. destruct cur; simpl; [lia|]. rewrite app_nil_r. simpl. lia.
  - rewrite findall_dots_cons. destruct (is_newline c).
    + rewrite concat_app, length_app. specialize (IH []).
      assert (length (concat (emit cur)) <= length cur).
      { destruct cur; simpl; [lia|]. rewrite app_nil_r. simpl. lia. }
      simpl in *. lia.
    + destruct (length cur <? n).
      * specialize (IH (cur ++ [c])). rewrite length_app in IH.
        simpl in *. lia.
      * destruct (b && is_blank c).
        -- specialize (IH []). simpl in *.
           rewrite !length_app in *. simpl in *. lia.
        -- specialize (IH [c]). simpl in *.
           rewrite !length_app in *. simpl in *. lia.
Qed.

Lemma concat_map_take_length k (l : list (list ascii)) :
  length (concat (map (take k) l)) <= length (concat l).
Proof.
  induction l as [|x l IH]; simpl; [lia|].
  rewrite !length_app, length_take. lia.
Qed.

(** X20: what [rejoin_description] keeps.  When it returns, the first
    32 characters of the result are those of the input, so the head that
    [parse_description] reads is unchanged; the result is never longer
    than the input, and it is strictly shorter unless the input starts
    with a slash (at least the blank after the head is removed). *)
Theorem rejoin_keeps_head (s r : list ascii) :
  rejoin_description s = Ok r ->
  take 32 r = take 32 s /\
  length r <= length s /\
  (startswith s (str_of "/") = false -> length r < length s).
Proof.
  unfold rejoin_description.
  destruct (startswith s (str_of "/")).
  { intros [= <-]. by repeat split. }
  destruct (s !! 32%nat) as [c|] eqn:Ec; [|done].
  apply lookup_lt_Some in Ec. intros Hr.
  apply bind_Ok_inv in Hr as (u & _ & Hr).
  apply bind_Ok_inv in Hr as (u' & _ & Hr). injection Hr as <-.
  assert (length (take 32 s) = 32) as Hhead by (rewrite length_take; lia).
  pose proof (concat_map_take_length 64
                (findall_dots 64 true [] (rstrip (drop 33 s)))) as H1.
  pose proof (findall_dots_length 64 true (rstrip (drop 33 s)) []) as H2.
  pose proof (rstrip_length (drop 33 s)) as H3.
  rewrite length_drop in H3. simpl in H2.
  split; [|rewrite length_app; lia].
  rewrite take_app_le by lia. by rewrite take_ge by lia.
Qed.

Lemma rejoin_keeps_head_witness :
  take 32 (str_of "SEPA iDEAL                      IBAN: NL01RABO0123456789") = take 32 (str_of "SEPA iDEAL                       IBAN: NL01RABO0123456789").
Proof.
  apply (rejoin_keeps_head (str_of "SEPA iDEAL                       IBAN: NL01RABO0123456789") (str_of "SEPA iDEAL                      IBAN: NL01RABO0123456789")).
  reflexivity.
Defined.

(** ** The sign of a card transaction's amount *)

Lemma mapR_Ok_lookup {A B} (f : A -> result B) l : forall bs i b,
  mapR f l = Ok bs -> bs !! i = Some b ->
  exists a, l !! i = Some a /\ f a = Ok b.
Proof.
  induction l as [|a l IH]; intros bs i b; simpl.
  - intros [= <-]. by rewrite lookup_nil.
  - intros Hm. apply bind_Ok_inv in Hm as (b0 & Hb0 & Hm).
    apply bind_Ok_inv in Hm as (bs0 & Hbs0 & Hm). injection Hm as <-.
    destruct i as [|i]; simpl.
    + intros [= <-]. by exists a.
    + intros Hi. by apply (IH bs0).
Qed.

Lemma getcell_Ok row i c : getcell row i = Ok c -> row !! i = Some c.
Proof. unfold getcell. destruct (row !! i); by intros [= <-]. Qed.

Lemma convert_bij_af_Ok text v :
  convert_bij_af text = Ok v ->
  (text = str_of "Af" /\ v = str_of "-") \/
  (text = str_of "Bij" /\ v = str_of "+").
Proof.
  unfold convert_bij_af, getitem.
  destruct (dict_of _ !! text) as [v'|] eqn:El; [|done].
  intros [= <-]. unfold dict_of in El.
  apply dict_update_lookup_Some in El as [El|El]; [done|].
  apply elem_of_cons in El as [[= -> ->]|El]; [by right|].
  apply elem_of_cons in El as [[= -> ->]|El]; [by left|].
  by apply elem_of_nil in El.
Qed.

Section amount_sign.
Context `{PyLib}.

Lemma single_row_amount cn first t :
  single_row_transaction cn first = Ok t ->
  exists f7 f8 text,
    first !! 7%nat = Some f7 /\ first !! 8%nat = Some f8 /\
    cell_add f8 f7 = Ok text /\
    Money_of_code text (str_of "EUR") = Ok (ct_amount t).
Proof.
  unfold single_row_transaction. intros Ht.
  apply bind_Ok_inv in Ht as (f0 & _ & Ht).
  apply bind_Ok_inv in Ht as (f2 & _ & Ht).
  apply bind_Ok_inv in Ht as (f3 & _ & Ht).
  apply bind_Ok_inv in Ht as (f4 & _ & Ht).
  apply bind_Ok_inv in Ht as (f8 & H8 & Ht).
  apply bind_Ok_inv in Ht as (f7 & H7 & Ht).
  apply bind_Ok_inv in Ht as (text & Htext & Ht).
  apply bind_Ok_inv in Ht as (am & Ham & Ht).
  injection Ht as <-. exists f7, f8, text.
  by repeat split; try apply getcell_Ok.
Qed.

Lemma double_row_amount cn first second t :
  double_row_transaction cn first second = Ok t ->
  exists f7 f8 text,
    first !! 7%nat = Some f7 /\ first !! 8%nat = Some f8 /\
    cell_add f8 f7 = Ok text /\
    Money_of_code text (str_of "EUR") = Ok (ct_amount t).
Proof.
  unfold double_row_transaction. intros Ht.
  apply bind_Ok_inv in Ht as (blanks & _ & Ht).
  apply bind_Ok_inv in Ht as (u1 & _ & Ht).
  apply bind_Ok_inv in Ht as (s2 & _ & Ht).
  apply bind_Ok_inv in Ht as (f6 & _ & Ht).
  apply bind_Ok_inv in Ht as (u2 & _ & Ht).
  apply bind_Ok_inv in Ht as (f0 & _ & Ht).
  apply bind_Ok_inv in Ht as (f2 & _ & Ht).
  apply bind_Ok_inv in Ht as (f3 & _ & Ht).
  apply bind_Ok_inv in Ht as (f4 & _ & Ht).
  apply bind_Ok_inv in Ht as (f8 & H8 & Ht).
  apply bind_Ok_inv in Ht as (f7 & H7 & Ht).
  apply bind_Ok_inv in Ht as (text & Htext & Ht).
  apply bind_Ok_inv in Ht as (am & Ham & Ht).
  apply bind_Ok_inv in Ht as (f5 & _ & Ht).
  apply bind_Ok_inv in Ht as (foreign & _ & Ht).
  apply bind_Ok_inv in Ht as (s3 & _ & Ht).
  apply bind_Ok_inv in Ht as (rate_text & _ & Ht).
  apply bind_Ok_inv in Ht as (rate & _ & Ht).
  injection Ht as <-. exists f7, f8, text.
  by repeat split; try apply getcell_Ok.
Qed.

Lemma process_group_amount cn row rest cn' t :
  process_group cn (row :: rest) = Ok (cn', Some t) ->
  length row = 9 /\
  exists f7 f8 text,
    row !! 7%nat = Some f7 /\ row !! 8%nat = Some f8 /\
    cell_add f8 f7 = Ok text /\
    Money_of_code text (str_of "EUR") = Ok (ct_amount t).
Proof.
  intros Ht. unfold process_group in Ht.
  apply bind_Ok_inv in Ht as (u & _ & Ht).
  apply bind_Ok_inv in Ht as (first & Hfirst & Ht).
  simpl in Hfirst. injection Hfirst as <-. cbv zeta in Ht.
  set (second := match row :: rest with _ :: s :: _ => s | _ => [] end) in *.
  case_if Ht.
  { apply bind_Ok_inv in Ht as (f0 & _ & Ht).
    apply bind_Ok_inv in Ht as (s & _ & Ht).
    apply bind_Ok_inv in Ht as (number & _ & Ht).
    apply bind_Ok_inv in Ht as (c & _ & Ht). discriminate Ht. }
  case_if Ht; [|done].
  match goal with
  | E : _ && _ = true |- _ => apply andb_true_iff in E as [Hlen _]
  end.
  apply Nat.eqb_eq in Hlen. split; [exact Hlen|].
  apply bind_Ok_inv in Ht as (f5 & _ & Ht).
  apply bind_Ok_inv in Ht as (f6 & _ & Ht).
  case_if Ht.
  { apply bind_Ok_inv in Ht as (t0 & Ht0 & Ht). injection Ht as _ ->.
    by eapply single_row_amount. }
  case_if Ht; [|done].
  apply bind_Ok_inv in Ht as (t0 & Ht0 & Ht). injection Ht as _ ->.
  by eapply double_row_amount.
Qed.

(** X21: the sign of the amount.  When a converted row opens a group
    that yields a transaction, the amount of the transaction is the money
    value built from the text of the row's euro amount, without its
    thousands separators and with a dot for the decimal comma, preceded
    by [-] when the row's Bij/Af cell is [Af], by [+] when it is [Bij],
    and by nothing when that cell is blank. *)
Theorem amount_sign (page_date : option date) (raw : list (list ascii))
    (row : list cell) (rest : list (list cell)) (cn cn' : option (list ascii))
    (t : CardTransaction) :
  convert_row page_date raw = Ok row ->
  process_group cn (row :: rest) = Ok (cn', Some t) ->
  exists amount_text bij_af sign,
    raw !! 7%nat = Some amount_text /\ raw !! 8%nat = Some bij_af /\
    ((strip bij_af = str_of "Af" /\ sign = str_of "-") \/
     (strip bij_af = str_of "Bij" /\ sign = str_of "+") \/
     (strip bij_af = [] /\ sign = [])) /\
    Money_of_code (sign ++ convert_amount (strip amount_text))
                  (str_of "EUR") = Ok (ct_amount t).
Proof.
  intros Hc Hg.
  apply process_group_amount in Hg
    as (Hlen & f7 & f8 & text & H7 & H8 & Hadd & Hmoney).
  unfold convert_row in Hc. destruct raw as [|first others]; [done|].
  destruct (6 <? length first).
  { apply bind_Ok_inv in Hc as (u & _ & Hc). injection Hc as <-.
    discriminate Hlen. }
  destruct (mapR_Ok_lookup _ _ _ _ _ Hc H7) as ([a c7] & Hz7 & Hcell7).
  destruct (mapR_Ok_lookup _ _ _ _ _ Hc H8) as ([b c8] & Hz8 & Hcell8).
  apply lookup_zip_with_Some in Hz7 as (a' & c7' & [= <- <-] & Ha & Hc7).
  apply lookup_zip_with_Some in Hz8 as (b' & c8' & [= <- <-] & Hb & Hc8).
  injection Hc7 as <-. injection Hc8 as <-.
  exists a, b. simpl in Hcell7, Hcell8.
  unfold convert_cell_text in Hcell7, Hcell8.
  assert (f7 = CStr (convert_amount (strip a))) as ->.
  { destruct (bool_decide (strip a = [])) eqn:Ea;
      injection Hcell7 as <-; [|done].
    apply bool_decide_eq_true in Ea. by rewrite Ea. }
  destruct (bool_decide (strip b = [])) eqn:Eb.
  - apply bool_decide_eq_true in Eb.
    injection Hcell8 as <-. exists []. simpl in Hadd.
    injection Hadd as <-. repeat split; auto.
  - destruct (convert_bij_af (strip b)) as [v|] eqn:Ev; [|done].
    injection Hcell8 as <-. simpl in Hadd. injection Hadd as <-.
    exists v. apply convert_bij_af_Ok in Ev as [[-> ->]|[-> ->]];
      repeat split; auto.
Qed.

End amount_sign.

Lemma amount_sign_witness :
  let raw :=
    [str_of "02 jan"; str_of "03 jan"; str_of "Description here";
     str_of "Foobar"; str_of "NLD"; str_of ""; str_of "";
     str_of "1.100,00"; str_of "Af"] in
  exists t : @CardTransaction simple_lib,
    @Money_of_code simple_lib (str_of "-1100.00") (str_of "EUR")
    = Ok (ct_amount t).
Proof.
  intros raw.
  assert (exists row, convert_row (Some (Date 2023 2 1)) raw = Ok row)
    as [row Hrow].
  { eexists. reflexivity. }
  assert (exists t : @CardTransaction simple_lib,
            @process_group simple_lib None [row] = Ok (None, Some t))
    as [t Ht].
  { injection Hrow as <-. eexists. reflexivity. }
  exists t.
  destruct (@amount_sign simple_lib _ _ _ _ _ _ _ Hrow Ht)
    as (a & b & sign & Ha & Hb & Hsign & Hm).
  injection Ha as <-. injection Hb as <-.
  destruct Hsign as [[_ ->]|[[Hs _]|[Hs _]]];
    [exact Hm | discriminate Hs | discriminate Hs].
Defined.

(** ** parse_description: the interest descriptions *)

Lemma collapse_blanks_cons c s :
  collapse_blanks (c :: s)
  = if is_blank c
    then match s with
         | c' :: _ => if is_blank c' then collapse_blanks s
                      else c :: collapse_blanks s
         | [] => [c]
         end
    else c :: collapse_blanks s.
Proof. reflexivity. Qed.

Lemma collapse_blanks_word w rest :
  Forall (fun c => is_blank c = false) w ->
  collapse_blanks (w ++ rest) = w ++ collapse_blanks rest.
Proof.
  induction 1 as [|c w Hc _ IH]; [done|].
  rewrite <- !app_comm_cons, collapse_blanks_cons, Hc. by rewrite IH.
Qed.

Lemma collapse_blanks_run k c rest :
  is_blank c = false ->
  collapse_blanks (replicate (S k) " "%char ++ c :: rest)
  = " "%char :: collapse_blanks (c :: rest).
Proof.
  intros Hc. induction k as [|k IH].
  - change (replicate 1 " "%char ++ c :: rest) with (" "%char :: c :: rest).
    rewrite collapse_blanks_cons. change (is_blank " "%char) with true.
    cbv iota. by rewrite Hc.
  - change (replicate (S (S k)) " "%char ++ c :: rest)
      with (" "%char :: replicate (S k) " "%char ++ c :: rest).
    rewrite collapse_blanks_cons. change (is_blank " "%char) with true.
    cbv iota.
    change (replicate (S k) " "%char ++ c :: rest)
      with (" "%char :: replicate k " "%char ++ c :: rest) at 1.
    cbv iota. change (is_blank " "%char) with true. cbv iota.
    exact IH.
Qed.

Lemma collapse_blanks_spaced segs :
  Forall (fun kw => word kw.2) segs ->
  collapse_blanks (spaced segs) = single_spaced segs.
Proof.
  unfold spaced, single_spaced.
  induction 1 as [|[k w] segs [Hne Hw] _ IH]; [done|].
  cbn [map concat fst snd]. rewrite <- !app_assoc.
  destruct w as [|c w]; [done|]. apply Forall_cons in Hw as [Hc Hw].
  destruct k as [|k].
  - cbn [replicate app]. rewrite collapse_blanks_cons, Hc.
    by rewrite (collapse_blanks_word w _ Hw), IH.
  - rewrite <- app_comm_cons, (collapse_blanks_run k c _ Hc).
    rewrite collapse_blanks_cons, Hc.
    by rewrite (collapse_blanks_word w _ Hw), IH.
Qed.

Lemma rstrip_last_not_blank s :
  match last (rstrip s) with
  | Some c => is_blank c = false
  | None => True
  end.
Proof.
  induction s as [|c s IH]; [done|]. simpl.
  destruct (rstrip s) as [|d t] eqn:Er.
  - destruct (isspace c) eqn:Ec; [done|]. simpl.
    destruct (is_blank c) eqn:Eb; [|done].
    apply chr_eqb_eq in Eb. by subst c.
  - change (last (c :: d :: t)) with (last (d :: t)). exact IH.
Qed.

Lemma spaced_exists t :
  match last t with
  | Some c => is_blank c = false
  | None => True
  end ->
  exists segs, Forall (fun kw => word kw.2) segs /\ t = spaced segs.
Proof.
  induction t as [|c t IH]; intros Hlast.
  - by exists [].
  - destruct t as [|c' t'].
    + simpl in Hlast. exists [(0, [c])]. split; [|done].
      constructor; [|done]. split; [done|]. by constructor.
    + destruct (IH Hlast) as (segs & Hwords & Ht).
      destruct segs as [|[k w] segs]; [done|].
      apply Forall_cons in Hwords as [[Hne Hw] Hwords].
      destruct (is_blank c) eqn:Ec.
      * apply chr_eqb_eq in Ec as ->.
        exists ((S k, w) :: segs). split; [by constructor|].
        rewrite Ht. reflexivity.
      * destruct k as [|k].
        -- exists ((0, c :: w) :: segs). split.
           ++ constructor; [|done]. split; [done|]. by constructor.
           ++ rewrite Ht. reflexivity.
        -- exists ((0, [c]) :: (S k, w) :: segs). split.
           ++ constructor; [|by constructor].
              split; [done|]. by constructor.
           ++ rewrite Ht. reflexivity.
Qed.

Lemma head_first_char s c p :
  startswith (rstrip (take 32 s)) (c :: p) = true -> exists s', s = c :: s'.
Proof.
  intros [t Ht]%startswith_spec.
  destruct (rstrip_prefix (take 32 s)) as [w Hw].
  rewrite Ht in Hw. rewrite <- (take_drop 32 s), Hw. simpl. eauto.
Qed.

(** X22: the interest descriptions.  A description whose head starts
    with [CREDIT INTEREST] is returned with the type renamed to
    ["Basic interest"] and the tail as its description.  A description
    whose head starts with [Basic interest] keeps its head as the type,
    and its description is the tail with every run of blanks reduced to
    one blank: the tail can always be written as words, each after a run
    of blanks (possibly none), and however it is written so, the
    description is the same words, each after one blank where the run
    was not empty and after nothing where it was.  Neither prints a
    notice. *)
Theorem interest_descriptions (s : list ascii) :
  (startswith (rstrip (take 32 s)) (str_of "CREDIT INTEREST") = true ->
   parse_description s
   = ([], Ok (dict_of [(str_of "type", str_of "Basic interest");
                       (str_of "description", rstrip (drop 32 s))]))) /\
  (exists segs, Forall (fun kw => word kw.2) segs /\
                rstrip (drop 32 s) = spaced segs) /\
  (forall segs,
     startswith (rstrip (take 32 s)) (str_of "Basic interest") = true ->
     Forall (fun kw => word kw.2) segs ->
     rstrip (drop 32 s) = spaced segs ->
     parse_description s
     = ([], Ok (dict_of [(str_of "type", rstrip (take 32 s));
                         (str_of "description", single_spaced segs)]))).
Proof.
  split; [|split].
  - intros Hh. unfold parse_description.
    destruct (head_first_char _ _ _ Hh) as [s' Hs].
    assert (startswith s (str_of "/") = false) as ->
      by (rewrite Hs; reflexivity).
    assert (startswith s (str_of "ABN AMRO Bank") = false) as ->
      by (rewrite Hs; reflexivity).
    cbv zeta. revert Hh. generalize (rstrip (take 32 s)) as head.
    intros head Hh. pose proof Hh as [t ->]%startswith_spec.
    assert (startswith (str_of "CREDIT INTEREST" ++ t) (str_of "BEA ")
            = false) as -> by reflexivity.
    assert (startswith (str_of "CREDIT INTEREST" ++ t) (str_of "BEA, ")
            = false) as -> by reflexivity.
    assert (startswith (str_of "CREDIT INTEREST" ++ t) (str_of "GEA, ")
            = false) as -> by reflexivity.
    assert (startswith (str_of "CREDIT INTEREST" ++ t) (str_of "SEPA ")
            = false) as -> by reflexivity.
    by rewrite Hh.
  - apply spaced_exists, rstrip_last_not_blank.
  - intros segs Hh Hwords Htail. unfold parse_description.
    destruct (head_first_char _ _ _ Hh) as [s' Hs].
    assert (startswith s (str_of "/") = false) as ->
      by (rewrite Hs; reflexivity).
    assert (startswith s (str_of "ABN AMRO Bank") = false) as ->
      by (rewrite Hs; reflexivity).
    cbv zeta. rewrite Htail, (collapse_blanks_spaced segs Hwords).
    revert Hh. generalize (rstrip (take 32 s)) as head.
    intros head Hh. pose proof Hh as [t Ht]%startswith_spec.
    assert (startswith head (str_of "BEA ") = false) as ->
      by (rewrite Ht; reflexivity).
    assert (startswith head (str_of "BEA, ") = false) as ->
      by (rewrite Ht; reflexivity).
    assert (startswith head (str_of "GEA, ") = false) as ->
      by (rewrite Ht; reflexivity).
    assert (startswith head (str_of "SEPA ") = false) as ->
      by (rewrite Ht; reflexivity).
    assert (startswith head (str_of "CREDIT INTEREST") = false) as ->
      by (rewrite Ht; reflexivity).
    by rewrite Hh.
Qed.

Lemma interest_descriptions_witness :
  parse_description
    (str_of "Basic interest                  over the period from            31-12-2022 to 31-12-2023")
  = ([], Ok (dict_of
               [(str_of "type", str_of "Basic interest");
                (str_of "description",
                 str_of "over the period from 31-12-2022 to 31-12-2023")])).
Proof.
  apply (proj2 (proj2 (interest_descriptions
    (str_of "Basic interest                  over the period from            31-12-2022 to 31-12-2023")))
    [(0, str_of "over"); (1, str_of "the"); (1, str_of "period");
     (1, str_of "from"); (12, str_of "31-12-2022"); (1, str_of "to");
     (1, str_of "31-12-2023")]).
  - reflexivity.
  - repeat constructor; discriminate.
  - reflexivity.
Defined.
